(** * FarmFlow: the storage layer and its derived statuses

    A shallow embedding of [server/storage.ts]: the record types of
    [shared/schema.ts], the in-memory backend [MemStorage] and the
    relational backend [DatabaseStorage], followed by the properties of the
    derived task status, the derived inventory status, and the
    create / patch / delete contract of the storage facade.

    Conventions of the embedding.
    - A JavaScript [Date] is the integer it wraps: milliseconds since the
      epoch ([getTime]).  Comparing two dates with [<] compares these
      integers.
    - [number] fields that hold identifiers are integers; [real] columns
      (quantity, threshold) are rationals, on which [<] is the order of the
      finite floating-point values they stand for.
    - [text] columns are strings; the status fields are [text] in the schema
      and are kept as strings here.
    - A [Partial<T>] patch is a record of options: [None] is a key that is
      absent from the patch object.  Nullable columns are options in the
      record itself, so they are options of options in the patch.
    - Every method is [async] but awaits nothing that suspends it on another
      operation; each call is modelled as one atomic step on the store.  The
      clock reading of a call ([new Date()]) is an explicit argument [now].
    - Identifier counters are unbounded integers: the embedding does not
      follow a counter beyond the integers a JavaScript number holds exactly.
    - A date field holds a [Date] object, and a date that a caller hands over
      as text stands for the instant [new Date] makes of it.  The in-memory
      backend does not always make one: [updateTask] stores the [dueDate] of
      a patch as it comes and calls [getTime] on the merged value when the
      patch has [completed: false], and [createEquipmentItem] calls
      [toISOString] on the [Date] of a text that need not parse.  Either
      call can raise an exception, which the routes answer with 500; the
      embedding has no exceptions, and a property that depends on none
      being raised says in its hypotheses which calls it speaks of. *)

From stdpp Require Import gmap strings list sorting.
From Stdlib Require Import ZArith QArith Lia.

Local Open Scope string_scope.
Local Open Scope Z_scope.

(** ** Dates *)

Definition msPerDay : Z := 86400000.

(** [today.setHours(0, 0, 0, 0)] on [today = new Date()]: the instant of the
    most recent local midnight.  [tz] is the offset of the host's local time
    from UTC in milliseconds (local = UTC + tz), taken as constant over the
    instants that are compared. *)
Definition setHoursZero (tz now : Z) : Z :=
  now - (now + tz) mod msPerDay.

(** The local calendar day an instant falls on, as a day number. *)
Definition localDay (tz t : Z) : Z := (t + tz) / msPerDay.

(** [new Date("YYYY-MM-DD")]: a date-only string denotes midnight UTC of
    that calendar day. *)
Definition dateOnly (day : Z) : Z := day * msPerDay.

(** ** Records of [shared/schema.ts] *)

Module Task.
Record t := mk {
    id : Z;
    title : string;
    description : option string;
    dueDate : Z;
    priority : string;
    status : string;
    completed : bool;
    assignedTo : string;
    userId : Z;
    recurring : option string;
    createdAt : Z
  }.
End Task.

(** [InsertTask]: a task without [id] and [createdAt].  [status] has a
    column default and may be left out by the caller; the other defaulted
    columns ([priority], [completed], [assignedTo]) are taken as supplied. *)
Module InsertTask.
Record t := mk {
    title : string;
    description : option string;
    dueDate : Z;
    priority : string;
    status : option string;
    completed : bool;
    assignedTo : string;
    userId : Z;
    recurring : option string
  }.
End InsertTask.

(** [Partial<Task>] *)
Module TaskPatch.
Record t := mk {
    id : option Z;
    title : option string;
    description : option (option string);
    dueDate : option Z;
    priority : option string;
    status : option string;
    completed : option bool;
    assignedTo : option string;
    userId : option Z;
    recurring : option (option string);
    createdAt : option Z
  }.
Definition empty : t :=
    mk None None None None None None None None None None None.
End TaskPatch.

(** The object spread [{ ...task, ...data }]. *)
Definition spreadTask (task : Task.t) (data : TaskPatch.t) : Task.t :=
  {| Task.id := default (Task.id task) (TaskPatch.id data);
     Task.title := default (Task.title task) (TaskPatch.title data);
     Task.description := default (Task.description task) (TaskPatch.description data);
     Task.dueDate := default (Task.dueDate task) (TaskPatch.dueDate data);
     Task.priority := default (Task.priority task) (TaskPatch.priority data);
     Task.status := default (Task.status task) (TaskPatch.status data);
     Task.completed := default (Task.completed task) (TaskPatch.completed data);
     Task.assignedTo := default (Task.assignedTo task) (TaskPatch.assignedTo data);
     Task.userId := default (Task.userId task) (TaskPatch.userId data);
     Task.recurring := default (Task.recurring task) (TaskPatch.recurring data);
     Task.createdAt := default (Task.createdAt task) (TaskPatch.createdAt data) |}.

(** The assignment [task.status = s]. *)
Definition setTaskStatus (s : string) (task : Task.t) : Task.t :=
  {| Task.id := Task.id task;
     Task.title := Task.title task;
     Task.description := Task.description task;
     Task.dueDate := Task.dueDate task;
     Task.priority := Task.priority task;
     Task.status := s;
     Task.completed := Task.completed task;
     Task.assignedTo := Task.assignedTo task;
     Task.userId := Task.userId task;
     Task.recurring := Task.recurring task;
     Task.createdAt := Task.createdAt task |}.

Module Inventory.
Record t := mk {
    id : Z;
    name : string;
    category : string;
    quantity : Q;
    unit : string;
    threshold : Q;
    status : string;
    userId : Z;
    lastUpdated : Z
  }.
End Inventory.

(** [InsertInventory]: the schema omits [id], [lastUpdated] and [status]. *)
Module InsertInventory.
Record t := mk {
    name : string;
    category : string;
    quantity : Q;
    unit : string;
    threshold : Q;
    userId : Z
  }.
End InsertInventory.

(** [Partial<Inventory>] *)
Module InventoryPatch.
Record t := mk {
    id : option Z;
    name : option string;
    category : option string;
    quantity : option Q;
    unit : option string;
    threshold : option Q;
    status : option string;
    userId : option Z;
    lastUpdated : option Z
  }.
Definition empty : t := mk None None None None None None None None None.
End InventoryPatch.

(** [{ ...item, ...data }] *)
Definition spreadInventory (item : Inventory.t) (data : InventoryPatch.t) : Inventory.t :=
  {| Inventory.id := default (Inventory.id item) (InventoryPatch.id data);
     Inventory.name := default (Inventory.name item) (InventoryPatch.name data);
     Inventory.category := default (Inventory.category item) (InventoryPatch.category data);
     Inventory.quantity := default (Inventory.quantity item) (InventoryPatch.quantity data);
     Inventory.unit := default (Inventory.unit item) (InventoryPatch.unit data);
     Inventory.threshold := default (Inventory.threshold item) (InventoryPatch.threshold data);
     Inventory.status := default (Inventory.status item) (InventoryPatch.status data);
     Inventory.userId := default (Inventory.userId item) (InventoryPatch.userId data);
     Inventory.lastUpdated := default (Inventory.lastUpdated item) (InventoryPatch.lastUpdated data) |}.

Definition setInventoryStatus (s : string) (item : Inventory.t) : Inventory.t :=
  {| Inventory.id := Inventory.id item;
     Inventory.name := Inventory.name item;
     Inventory.category := Inventory.category item;
     Inventory.quantity := Inventory.quantity item;
     Inventory.unit := Inventory.unit item;
     Inventory.threshold := Inventory.threshold item;
     Inventory.status := s;
     Inventory.userId := Inventory.userId item;
     Inventory.lastUpdated := Inventory.lastUpdated item |}.

Definition setInventoryLastUpdated (now : Z) (item : Inventory.t) : Inventory.t :=
  {| Inventory.id := Inventory.id item;
     Inventory.name := Inventory.name item;
     Inventory.category := Inventory.category item;
     Inventory.quantity := Inventory.quantity item;
     Inventory.unit := Inventory.unit item;
     Inventory.threshold := Inventory.threshold item;
     Inventory.status := Inventory.status item;
     Inventory.userId := Inventory.userId item;
     Inventory.lastUpdated := now |}.

(** [quantity < threshold ? "low" : "good"] *)
Definition lowOrGood (quantity threshold : Q) : string :=
  if Qlt_le_dec quantity threshold then "low" else "good".

(** Equipment.  The two date columns hold the instant they denote: the
    round trip [new Date(x).toISOString()] of the source re-renders a date
    and keeps its instant. *)
Module Equipment.
Record t := mk {
    id : Z;
    name : string;
    status : string;
    lastUsed : option Z;
    assignedTo : option string;
    nextService : option Z;
    userId : Z
  }.
End Equipment.

Module InsertEquipment.
Record t := mk {
    name : string;
    status : string;
    lastUsed : option Z;
    assignedTo : option string;
    nextService : option Z;
    userId : Z
  }.
End InsertEquipment.

(** [Partial<Equipment>] *)
Module EquipmentPatch.
Record t := mk {
    id : option Z;
    name : option string;
    status : option string;
    lastUsed : option (option Z);
    assignedTo : option (option string);
    nextService : option (option Z);
    userId : option Z
  }.
Definition empty : t := mk None None None None None None None.
End EquipmentPatch.

(** [data.lastUsed ? new Date(data.lastUsed) : item.lastUsed]: a date that is
    absent from the patch, or present and [null], leaves the stored one. *)
Definition patchedDate (supplied : option (option Z)) (stored : option Z) : option Z :=
  match supplied with
  | Some (Some d) => Some d
  | _ => stored
  end.

Module Contact.
Record t := mk {
    id : Z;
    name : string;
    type : string;
    email : option string;
    phone : option string;
    address : option string;
    notes : option string;
    userId : Z
  }.
End Contact.

Module InsertContact.
Record t := mk {
    name : string;
    type : string;
    email : option string;
    phone : option string;
    address : option string;
    notes : option string;
    userId : Z
  }.
End InsertContact.

(** [Partial<Contact>] *)
Module ContactPatch.
Record t := mk {
    id : option Z;
    name : option string;
    type : option string;
    email : option (option string);
    phone : option (option string);
    address : option (option string);
    notes : option (option string);
    userId : option Z
  }.
Definition empty : t := mk None None None None None None None None.
End ContactPatch.

(** [{ ...contact, ...data }] *)
Definition spreadContact (contact : Contact.t) (data : ContactPatch.t) : Contact.t :=
  {| Contact.id := default (Contact.id contact) (ContactPatch.id data);
     Contact.name := default (Contact.name contact) (ContactPatch.name data);
     Contact.type := default (Contact.type contact) (ContactPatch.type data);
     Contact.email := default (Contact.email contact) (ContactPatch.email data);
     Contact.phone := default (Contact.phone contact) (ContactPatch.phone data);
     Contact.address := default (Contact.address contact) (ContactPatch.address data);
     Contact.notes := default (Contact.notes contact) (ContactPatch.notes data);
     Contact.userId := default (Contact.userId contact) (ContactPatch.userId data) |}.

(** [x || null] on an optional text: absent, [null] and the empty string all
    give [null]. *)
Definition orNull (x : option string) : option string :=
  match x with
  | Some "" => None
  | _ => x
  end.

Module User.
Record t := mk {
    id : Z;
    username : string;
    password : string;
    email : string;
    name : string;
    farmName : string;
    role : string;
    profileImage : option string;
    language : option string
  }.
End User.

Module InsertUser.
Record t := mk {
    username : string;
    password : string;
    email : string;
    name : string;
    farmName : string;
    role : string;
    profileImage : option string;
    language : option string
  }.
End InsertUser.

(** [Partial<User>] *)
Module UserPatch.
Record t := mk {
    id : option Z;
    username : option string;
    password : option string;
    email : option string;
    name : option string;
    farmName : option string;
    role : option string;
    profileImage : option (option string);
    language : option (option string)
  }.
Definition empty : t := mk None None None None None None None None None.
End UserPatch.

(** [{ ...user, ...data }] *)
Definition spreadUser (user : User.t) (data : UserPatch.t) : User.t :=
  {| User.id := default (User.id user) (UserPatch.id data);
     User.username := default (User.username user) (UserPatch.username data);
     User.password := default (User.password user) (UserPatch.password data);
     User.email := default (User.email user) (UserPatch.email data);
     User.name := default (User.name user) (UserPatch.name data);
     User.farmName := default (User.farmName user) (UserPatch.farmName data);
     User.role := default (User.role user) (UserPatch.role data);
     User.profileImage := default (User.profileImage user) (UserPatch.profileImage data);
     User.language := default (User.language user) (UserPatch.language data) |}.

(** ** The task status rule

    The four-way branch that [createTask] and [updateTask] share:
    [today] is the clock reading after [setHours(0, 0, 0, 0)]. *)
Definition dateStatus (dueDate today : Z) : string :=
  if dueDate <? today then "overdue"
  else if dueDate =? today then "today"
  else "upcoming".

(** [Array.from(map.values())]: the values of a [Map] in the order its keys
    were first inserted.  Every map of the in-memory store takes its keys
    from a counter that only grows, never re-inserts a key it has deleted,
    and writes an existing key in place, so that order is the ascending order
    of the keys. *)
Definition mapValues {A : Type} (m : gmap Z A) : list A :=
  omap (λ k, m !! k) (merge_sort Z.le (elements (dom m))).

(** ** The in-memory backend *)

Module MemStorage.

(** The object's fields: one [Map] per entity and one counter per map.  The
    weather-preference map is left out; no operation below reads it. *)
Record t := mk {
  users : gmap Z User.t;
  tasks : gmap Z Task.t;
  inventoryItems : gmap Z Inventory.t;
  equipmentItems : gmap Z Equipment.t;
  contactItems : gmap Z Contact.t;
  userIdCounter : Z;
  taskIdCounter : Z;
  inventoryIdCounter : Z;
  equipmentIdCounter : Z;
  contactIdCounter : Z
}.

(** The state the constructor starts from, before it adds the demo data:
    empty maps, every counter at 1. *)
Definition empty : t := mk ∅ ∅ ∅ ∅ ∅ 1 1 1 1 1.

Definition withUsers (m : gmap Z User.t) (c : Z) (s : t) : t :=
  mk m (tasks s) (inventoryItems s) (equipmentItems s) (contactItems s)
     c (taskIdCounter s) (inventoryIdCounter s) (equipmentIdCounter s) (contactIdCounter s).

Definition withTasks (m : gmap Z Task.t) (c : Z) (s : t) : t :=
  mk (users s) m (inventoryItems s) (equipmentItems s) (contactItems s)
     (userIdCounter s) c (inventoryIdCounter s) (equipmentIdCounter s) (contactIdCounter s).

Definition withInventory (m : gmap Z Inventory.t) (c : Z) (s : t) : t :=
  mk (users s) (tasks s) m (equipmentItems s) (contactItems s)
     (userIdCounter s) (taskIdCounter s) c (equipmentIdCounter s) (contactIdCounter s).

Definition withEquipment (m : gmap Z Equipment.t) (c : Z) (s : t) : t :=
  mk (users s) (tasks s) (inventoryItems s) m (contactItems s)
     (userIdCounter s) (taskIdCounter s) (inventoryIdCounter s) c (contactIdCounter s).

Definition withContacts (m : gmap Z Contact.t) (c : Z) (s : t) : t :=
  mk (users s) (tasks s) (inventoryItems s) (equipmentItems s) m
     (userIdCounter s) (taskIdCounter s) (inventoryIdCounter s) (equipmentIdCounter s) c.

(** *** Users *)

Definition getUser (id : Z) (s : t) : option User.t := users s !! id.

Definition createUser (insertUser : InsertUser.t) (s : t) : User.t * t :=
  let id := userIdCounter s in
  let user :=
    {| User.id := id;
       User.username := InsertUser.username insertUser;
       User.password := InsertUser.password insertUser;
       User.email := InsertUser.email insertUser;
       User.name := InsertUser.name insertUser;
       User.farmName := InsertUser.farmName insertUser;
       User.role := InsertUser.role insertUser;
       User.profileImage := InsertUser.profileImage insertUser;
       User.language := InsertUser.language insertUser |} in
  (user, withUsers (<[id := user]> (users s)) (id + 1) s).

Definition updateUser (id : Z) (data : UserPatch.t) (s : t) : option User.t * t :=
  match getUser id s with
  | None => (None, s)
  | Some user =>
      let updatedUser := spreadUser user data in
      (Some updatedUser, withUsers (<[id := updatedUser]> (users s)) (userIdCounter s) s)
  end.

(** *** Tasks *)

Definition getTask (id : Z) (s : t) : option Task.t := tasks s !! id.

Definition createTask (tz now : Z) (insertTask : InsertTask.t) (s : t) : Task.t * t :=
  let id := taskIdCounter s in
  let task :=
    {| Task.id := id;
       Task.title := InsertTask.title insertTask;
       Task.description := InsertTask.description insertTask;
       Task.dueDate := InsertTask.dueDate insertTask;
       Task.priority := InsertTask.priority insertTask;
       (* the caller's status, if any; every branch below overwrites it *)
       Task.status := default "" (InsertTask.status insertTask);
       Task.completed := InsertTask.completed insertTask;
       Task.assignedTo := InsertTask.assignedTo insertTask;
       Task.userId := InsertTask.userId insertTask;
       Task.recurring := InsertTask.recurring insertTask;
       Task.createdAt := now |} in
  let today := setHoursZero tz now in
  let task :=
    if Task.completed task then setTaskStatus "completed" task
    else setTaskStatus (dateStatus (Task.dueDate task) today) task in
  (task, withTasks (<[id := task]> (tasks s)) (id + 1) s).

Definition updateTask (tz now : Z) (id : Z) (data : TaskPatch.t) (s : t)
  : option Task.t * t :=
  match getTask id s with
  | None => (None, s)
  | Some task =>
      let updatedTask := spreadTask task data in
      let updatedTask :=
        match TaskPatch.completed data with
        | Some true => setTaskStatus "completed" updatedTask
        | Some false =>
            let today := setHoursZero tz now in
            let dueDate := Task.dueDate updatedTask in
            setTaskStatus (dateStatus dueDate today) updatedTask
        | None => updatedTask
        end in
      (Some updatedTask, withTasks (<[id := updatedTask]> (tasks s)) (taskIdCounter s) s)
  end.

(** [Map.prototype.delete] answers whether the key was present. *)
Definition deleteTask (id : Z) (s : t) : bool * t :=
  (bool_decide (is_Some (tasks s !! id)),
   withTasks (delete id (tasks s)) (taskIdCounter s) s).

(** *** Inventory *)

Definition getInventoryItem (id : Z) (s : t) : option Inventory.t :=
  inventoryItems s !! id.

Definition createInventoryItem (now : Z) (insertItem : InsertInventory.t) (s : t)
  : Inventory.t * t :=
  let id := inventoryIdCounter s in
  let status :=
    lowOrGood (InsertInventory.quantity insertItem) (InsertInventory.threshold insertItem) in
  let item :=
    {| Inventory.id := id;
       Inventory.name := InsertInventory.name insertItem;
       Inventory.category := InsertInventory.category insertItem;
       Inventory.quantity := InsertInventory.quantity insertItem;
       Inventory.unit := InsertInventory.unit insertItem;
       Inventory.threshold := InsertInventory.threshold insertItem;
       Inventory.status := status;
       Inventory.userId := InsertInventory.userId insertItem;
       Inventory.lastUpdated := now |} in
  (item, withInventory (<[id := item]> (inventoryItems s)) (id + 1) s).

Definition updateInventoryItem (now : Z) (id : Z) (data : InventoryPatch.t) (s : t)
  : option Inventory.t * t :=
  match getInventoryItem id s with
  | None => (None, s)
  | Some item =>
      let updatedItem := setInventoryLastUpdated now (spreadInventory item data) in
      let updatedItem :=
        if bool_decide (is_Some (InventoryPatch.quantity data)
                        ∨ is_Some (InventoryPatch.threshold data))
        then
          let quantity := default (Inventory.quantity item) (InventoryPatch.quantity data) in
          let threshold := default (Inventory.threshold item) (InventoryPatch.threshold data) in
          setInventoryStatus (lowOrGood quantity threshold) updatedItem
        else updatedItem in
      (Some updatedItem,
       withInventory (<[id := updatedItem]> (inventoryItems s)) (inventoryIdCounter s) s)
  end.

Definition deleteInventoryItem (id : Z) (s : t) : bool * t :=
  (bool_decide (is_Some (inventoryItems s !! id)),
   withInventory (delete id (inventoryItems s)) (inventoryIdCounter s) s).

(** *** Equipment *)

Definition getEquipmentItem (id : Z) (s : t) : option Equipment.t :=
  equipmentItems s !! id.

Definition createEquipmentItem (insertItem : InsertEquipment.t) (s : t)
  : Equipment.t * t :=
  let id := equipmentIdCounter s in
  let lastUsed := InsertEquipment.lastUsed insertItem in
  let nextService := InsertEquipment.nextService insertItem in
  let item :=
    {| Equipment.id := id;
       Equipment.name := InsertEquipment.name insertItem;
       Equipment.status := InsertEquipment.status insertItem;
       Equipment.lastUsed := lastUsed;
       Equipment.assignedTo := InsertEquipment.assignedTo insertItem;
       Equipment.nextService := nextService;
       Equipment.userId := InsertEquipment.userId insertItem |} in
  (item, withEquipment (<[id := item]> (equipmentItems s)) (id + 1) s).

Definition updateEquipmentItem (id : Z) (data : EquipmentPatch.t) (s : t)
  : option Equipment.t * t :=
  match getEquipmentItem id s with
  | None => (None, s)
  | Some item =>
      let lastUsed := patchedDate (EquipmentPatch.lastUsed data) (Equipment.lastUsed item) in
      let nextService :=
        patchedDate (EquipmentPatch.nextService data) (Equipment.nextService item) in
      let updatedItem :=
        {| Equipment.id := default (Equipment.id item) (EquipmentPatch.id data);
           Equipment.name := default (Equipment.name item) (EquipmentPatch.name data);
           Equipment.status := default (Equipment.status item) (EquipmentPatch.status data);
           Equipment.lastUsed := lastUsed;
           Equipment.assignedTo :=
             default (Equipment.assignedTo item) (EquipmentPatch.assignedTo data);
           Equipment.nextService := nextService;
           Equipment.userId := default (Equipment.userId item) (EquipmentPatch.userId data) |} in
      (Some updatedItem,
       withEquipment (<[id := updatedItem]> (equipmentItems s)) (equipmentIdCounter s) s)
  end.

Definition deleteEquipmentItem (id : Z) (s : t) : bool * t :=
  (bool_decide (is_Some (equipmentItems s !! id)),
   withEquipment (delete id (equipmentItems s)) (equipmentIdCounter s) s).

(** *** Contacts *)

Definition getContact (id : Z) (s : t) : option Contact.t := contactItems s !! id.

Definition createContact (insertContact : InsertContact.t) (s : t) : Contact.t * t :=
  let id := contactIdCounter s in
  let contact :=
    {| Contact.id := id;
       Contact.name := InsertContact.name insertContact;
       Contact.type := InsertContact.type insertContact;
       Contact.email := orNull (InsertContact.email insertContact);
       Contact.phone := orNull (InsertContact.phone insertContact);
       Contact.address := orNull (InsertContact.address insertContact);
       Contact.notes := orNull (InsertContact.notes insertContact);
       Contact.userId := InsertContact.userId insertContact |} in
  (contact, withContacts (<[id := contact]> (contactItems s)) (id + 1) s).

Definition updateContact (id : Z) (data : ContactPatch.t) (s : t)
  : option Contact.t * t :=
  match getContact id s with
  | None => (None, s)
  | Some contact =>
      let updatedContact := spreadContact contact data in
      (Some updatedContact,
       withContacts (<[id := updatedContact]> (contactItems s)) (contactIdCounter s) s)
  end.

Definition deleteContact (id : Z) (s : t) : bool * t :=
  (bool_decide (is_Some (contactItems s !! id)),
   withContacts (delete id (contactItems s)) (contactIdCounter s) s).

(** *** Lookups by a field and listings by owner *)

(** [Array.from(this.users.values()).find(...)] *)
Definition getUserByUsername (username : string) (s : t) : option User.t :=
  head (filter (λ user, User.username user = username) (mapValues (users s))).

Definition getUserByEmail (email : string) (s : t) : option User.t :=
  head (filter (λ user, User.email user = email) (mapValues (users s))).

(** [Array.from(this.tasks.values()).filter(...)] *)
Definition getTasks (userId : Z) (s : t) : list Task.t :=
  filter (λ task, Task.userId task = userId) (mapValues (tasks s)).

Definition getInventoryItems (userId : Z) (s : t) : list Inventory.t :=
  filter (λ item, Inventory.userId item = userId) (mapValues (inventoryItems s)).

Definition getEquipmentItems (userId : Z) (s : t) : list Equipment.t :=
  filter (λ item, Equipment.userId item = userId) (mapValues (equipmentItems s)).

Definition getContacts (userId : Z) (s : t) : list Contact.t :=
  filter (λ contact, Contact.userId contact = userId) (mapValues (contactItems s)).

(** *** The constructor *)

Definition demoUser : InsertUser.t :=
  {| InsertUser.username := "demo";
     InsertUser.password := "password123";
     InsertUser.email := "demo@example.com";
     InsertUser.name := "Thomas Moyo";
     InsertUser.farmName := "Green Valley Farm";
     InsertUser.role := "farmer";
     InsertUser.profileImage :=
       Some "https://images.unsplash.com/photo-1507003211169-0a1dd7228f2d?ixlib=rb-4.0.3&ixid=M3wxMjA3fDB8MHxwaG90by1wYWdlfHx8fGVufDB8fHx8fA%3D%3D&auto=format&fit=crop&w=100&q=80";
     InsertUser.language := Some "en" |}.

Definition demoUserId : Z := 1.

Definition demoTask (title description : string) (day : Z) (priority status : string)
    (completed : bool) (assignedTo : string) : InsertTask.t :=
  {| InsertTask.title := title;
     InsertTask.description := Some description;
     InsertTask.dueDate := dateOnly day;
     InsertTask.priority := priority;
     InsertTask.status := Some status;
     InsertTask.completed := completed;
     InsertTask.assignedTo := assignedTo;
     InsertTask.userId := demoUserId;
     InsertTask.recurring := None |}.

Definition demoItem (name category : string) (quantity : Q) (unit : string)
    (threshold : Q) : InsertInventory.t :=
  {| InsertInventory.name := name;
     InsertInventory.category := category;
     InsertInventory.quantity := quantity;
     InsertInventory.unit := unit;
     InsertInventory.threshold := threshold;
     InsertInventory.userId := demoUserId |}.

Definition demoEquipment (name status : string) (lastUsed : Z)
    (assignedTo : option string) (nextService : Z) : InsertEquipment.t :=
  {| InsertEquipment.name := name;
     InsertEquipment.status := status;
     InsertEquipment.lastUsed := Some (dateOnly lastUsed);
     InsertEquipment.assignedTo := assignedTo;
     InsertEquipment.nextService := Some (dateOnly nextService);
     InsertEquipment.userId := demoUserId |}.

(** The demo data, with its dates as day numbers: 2023-11-01 is day 19662.
    [now] is the clock at construction; the closing call that stores the
    weather preference is not modelled. *)
Definition constructor (tz now : Z) : t :=
  let s := empty in
  let s := (createUser demoUser s).2 in
  let s := (createTask tz now
              (demoTask "Harvest tomatoes" "Harvest ripe tomatoes from field 2"
                 19662 "high" "today" false "Self") s).2 in
  let s := (createTask tz now
              (demoTask "Irrigate maize field" "Set up irrigation system for maize field"
                 19658 "critical" "overdue" false "John") s).2 in
  let s := (createTask tz now
              (demoTask "Apply fertilizer" "Apply NPK fertilizer to vegetable beds"
                 19666 "medium" "upcoming" false "Maria") s).2 in
  let s := (createTask tz now
              (demoTask "Repair fence" "Fix broken fence in north section"
                 19650 "medium" "completed" true "Self") s).2 in
  let s := (createInventoryItem now (demoItem "Tomato Seeds" "Seeds" 5 "kg" 10) s).2 in
  let s := (createInventoryItem now
              (demoItem "NPK Fertilizer" "Fertilizer" 200 "kg" 50) s).2 in
  let s := (createInventoryItem now (demoItem "Pesticide" "Chemicals" 15 "L" 5) s).2 in
  let s := (createInventoryItem now (demoItem "Chicken Feed" "Feed" 25 "bags" 10) s).2 in
  let s := (createEquipmentItem
              (demoEquipment "Tractor" "maintenance-due" 19645 (Some "Thomas") 19666)
              s).2 in
  let s := (createEquipmentItem
              (demoEquipment "Irrigation Pump" "available" 19655 None 19706) s).2 in
  let s := (createEquipmentItem
              (demoEquipment "Harvester" "in-use" 19660 (Some "Maria") 19691) s).2 in
  s.

End MemStorage.

(** ** The relational backend *)

(** [{ ...item, ...data }] as the [SET] clause of an [UPDATE] applies it:
    every column named in the patch takes the patch's value, [null]
    included. *)
Definition spreadEquipment (item : Equipment.t) (data : EquipmentPatch.t) : Equipment.t :=
  {| Equipment.id := default (Equipment.id item) (EquipmentPatch.id data);
     Equipment.name := default (Equipment.name item) (EquipmentPatch.name data);
     Equipment.status := default (Equipment.status item) (EquipmentPatch.status data);
     Equipment.lastUsed := default (Equipment.lastUsed item) (EquipmentPatch.lastUsed data);
     Equipment.assignedTo := default (Equipment.assignedTo item) (EquipmentPatch.assignedTo data);
     Equipment.nextService :=
       default (Equipment.nextService item) (EquipmentPatch.nextService data);
     Equipment.userId := default (Equipment.userId item) (EquipmentPatch.userId data) |}.

(** [{ ...data, status: updatedStatus }]: an [undefined] value is a column
    the statement does not set. *)
Definition taskPatchWithStatus (updatedStatus : option string) (data : TaskPatch.t)
  : TaskPatch.t :=
  {| TaskPatch.id := TaskPatch.id data;
     TaskPatch.title := TaskPatch.title data;
     TaskPatch.description := TaskPatch.description data;
     TaskPatch.dueDate := TaskPatch.dueDate data;
     TaskPatch.priority := TaskPatch.priority data;
     TaskPatch.status := updatedStatus;
     TaskPatch.completed := TaskPatch.completed data;
     TaskPatch.assignedTo := TaskPatch.assignedTo data;
     TaskPatch.userId := TaskPatch.userId data;
     TaskPatch.recurring := TaskPatch.recurring data;
     TaskPatch.createdAt := TaskPatch.createdAt data |}.

Definition inventoryPatchWithStatus (updatedStatus : option string)
  (data : InventoryPatch.t) : InventoryPatch.t :=
  {| InventoryPatch.id := InventoryPatch.id data;
     InventoryPatch.name := InventoryPatch.name data;
     InventoryPatch.category := InventoryPatch.category data;
     InventoryPatch.quantity := InventoryPatch.quantity data;
     InventoryPatch.unit := InventoryPatch.unit data;
     InventoryPatch.threshold := InventoryPatch.threshold data;
     InventoryPatch.status := updatedStatus;
     InventoryPatch.userId := InventoryPatch.userId data;
     InventoryPatch.lastUpdated := InventoryPatch.lastUpdated data |}.

(** [insertTask.status || "upcoming"] *)
Definition orUpcoming (status : option string) : string :=
  match status with
  | None | Some "" => "upcoming"
  | Some s => s
  end.

Module Db.

(** Modelled from the spec: the [db] handle that [DatabaseStorage] imports
    from [./db] (a query builder over the relational store) is not among the
    sources.  The spec has the facade assign "a fresh unique identifier
    (monotonic counter or equivalent)", merge a patch's fields "into the
    existing record", and report on delete "whether a record existed and was
    removed"; the schema gives the columns and their defaults.  A table is
    the list of its rows with the next value of its [serial] identifier.
    An [UPDATE] sets the columns its [SET] clause names and no other.
    Statements rejected by the store or by the query builder (a duplicate
    key, an empty [SET] clause, lost connectivity) are outside the model;
    a date column returns the date, and a real column the number, it was
    given. *)
Record table (R : Type) := mkTable {
  rows : list R;
  serial : Z
}.
Arguments mkTable {R} _ _.
Arguments rows {R} _.
Arguments serial {R} _.

Definition emptyTable {R : Type} : table R := mkTable [] 1.

(** [db.select().from(t).where(eq(t.id, id))] *)
Definition selectById {R : Type} (rid : R → Z) (id : Z) (tb : table R) : list R :=
  filter (λ r, rid r = id) (rows tb).

(** [db.insert(t).values(v).returning()]: [row] builds the row from the
    identifier the store assigns. *)
Definition insert {R : Type} (row : Z → R) (tb : table R) : list R * table R :=
  let r := row (serial tb) in
  ([r], mkTable (rows tb ++ [r]) (serial tb + 1)).

(** [db.update(t).set(v).where(eq(t.id, id)).returning()]: [set] is the
    effect of the [SET] clause on one row. *)
Definition update {R : Type} (rid : R → Z) (set : R → R) (id : Z) (tb : table R)
  : list R * table R :=
  (set <$> selectById rid id tb,
   mkTable ((λ r, if decide (rid r = id) then set r else r) <$> rows tb) (serial tb)).

(** [db.delete(t).where(eq(t.id, id))]: the result's [count] is the number
    of rows removed. *)
Definition delete {R : Type} (rid : R → Z) (id : Z) (tb : table R) : Z * table R :=
  (Z.of_nat (length (selectById rid id tb)),
   mkTable (filter (λ r, rid r ≠ id) (rows tb)) (serial tb)).

End Db.

Module DatabaseStorage.

Record t := mk {
  users : Db.table User.t;
  tasks : Db.table Task.t;
  inventory : Db.table Inventory.t;
  equipment : Db.table Equipment.t;
  contacts : Db.table Contact.t
}.

Definition empty : t :=
  mk Db.emptyTable Db.emptyTable Db.emptyTable Db.emptyTable Db.emptyTable.

Definition withUsers (tb : Db.table User.t) (s : t) : t :=
  mk tb (tasks s) (inventory s) (equipment s) (contacts s).
Definition withTasks (tb : Db.table Task.t) (s : t) : t :=
  mk (users s) tb (inventory s) (equipment s) (contacts s).
Definition withInventory (tb : Db.table Inventory.t) (s : t) : t :=
  mk (users s) (tasks s) tb (equipment s) (contacts s).
Definition withEquipment (tb : Db.table Equipment.t) (s : t) : t :=
  mk (users s) (tasks s) (inventory s) tb (contacts s).
Definition withContacts (tb : Db.table Contact.t) (s : t) : t :=
  mk (users s) (tasks s) (inventory s) (equipment s) tb.

(** *** Users *)

(** [const [user] = await db.select()...; return user || undefined] *)
Definition getUser (id : Z) (s : t) : option User.t :=
  head (Db.selectById User.id id (users s)).

Definition createUser (insertUser : InsertUser.t) (s : t) : option User.t * t :=
  let '(returned, tb) :=
    Db.insert (λ id,
      {| User.id := id;
         User.username := InsertUser.username insertUser;
         User.password := InsertUser.password insertUser;
         User.email := InsertUser.email insertUser;
         User.name := InsertUser.name insertUser;
         User.farmName := InsertUser.farmName insertUser;
         User.role := InsertUser.role insertUser;
         User.profileImage := InsertUser.profileImage insertUser;
         User.language := InsertUser.language insertUser |}) (users s) in
  (head returned, withUsers tb s).

Definition updateUser (id : Z) (data : UserPatch.t) (s : t) : option User.t * t :=
  let '(returned, tb) := Db.update User.id (λ r, spreadUser r data) id (users s) in
  (head returned, withUsers tb s).

(** *** Tasks *)

Definition getTask (id : Z) (s : t) : option Task.t :=
  head (Db.selectById Task.id id (tasks s)).

Definition createTask (tz now : Z) (insertTask : InsertTask.t) (s : t)
  : option Task.t * t :=
  let dueDate := InsertTask.dueDate insertTask in
  let today := setHoursZero tz now in
  let status := orUpcoming (InsertTask.status insertTask) in
  let status :=
    if InsertTask.completed insertTask then "completed"
    else if dueDate <? today then "overdue"
    else if dueDate =? today then "today"
    else status in
  let '(returned, tb) :=
    Db.insert (λ id,
      {| Task.id := id;
         Task.title := InsertTask.title insertTask;
         Task.description := InsertTask.description insertTask;
         Task.dueDate := InsertTask.dueDate insertTask;
         Task.priority := InsertTask.priority insertTask;
         Task.status := status;
         Task.completed := InsertTask.completed insertTask;
         Task.assignedTo := InsertTask.assignedTo insertTask;
         Task.userId := InsertTask.userId insertTask;
         Task.recurring := InsertTask.recurring insertTask;
         (* [created_at] is not among the values: the column default, now() *)
         Task.createdAt := now |}) (tasks s) in
  (head returned, withTasks tb s).

Definition updateTask (tz now : Z) (id : Z) (data : TaskPatch.t) (s : t)
  : option Task.t * t :=
  match getTask id s with
  | None => (None, s)
  | Some task =>
      let updatedStatus := TaskPatch.status data in
      let updatedStatus :=
        match TaskPatch.completed data with
        | Some true => Some "completed"
        | Some false =>
            let today := setHoursZero tz now in
            let dueDate :=
              match TaskPatch.dueDate data with
              | Some d => d
              | None => Task.dueDate task
              end in
            Some (dateStatus dueDate today)
        | None => updatedStatus
        end in
      let '(returned, tb) :=
        Db.update Task.id (λ r, spreadTask r (taskPatchWithStatus updatedStatus data))
          id (tasks s) in
      (head returned, withTasks tb s)
  end.

(** [result.count > 0] *)
Definition deleteTask (id : Z) (s : t) : bool * t :=
  let '(count, tb) := Db.delete Task.id id (tasks s) in
  (0 <? count, withTasks tb s).

(** *** Inventory *)

Definition getInventoryItem (id : Z) (s : t) : option Inventory.t :=
  head (Db.selectById Inventory.id id (inventory s)).

Definition createInventoryItem (now : Z) (insertItem : InsertInventory.t) (s : t)
  : option Inventory.t * t :=
  let status :=
    lowOrGood (InsertInventory.quantity insertItem) (InsertInventory.threshold insertItem) in
  let '(returned, tb) :=
    Db.insert (λ id,
      {| Inventory.id := id;
         Inventory.name := InsertInventory.name insertItem;
         Inventory.category := InsertInventory.category insertItem;
         Inventory.quantity := InsertInventory.quantity insertItem;
         Inventory.unit := InsertInventory.unit insertItem;
         Inventory.threshold := InsertInventory.threshold insertItem;
         Inventory.status := status;
         Inventory.userId := InsertInventory.userId insertItem;
         (* [last_updated] is not among the values: the column default, now() *)
         Inventory.lastUpdated := now |}) (inventory s) in
  (head returned, withInventory tb s).

Definition updateInventoryItem (now : Z) (id : Z) (data : InventoryPatch.t) (s : t)
  : option Inventory.t * t :=
  match getInventoryItem id s with
  | None => (None, s)
  | Some item =>
      let updatedStatus := InventoryPatch.status data in
      let updatedStatus :=
        if bool_decide (is_Some (InventoryPatch.quantity data)
                        ∨ is_Some (InventoryPatch.threshold data))
        then
          let quantity := default (Inventory.quantity item) (InventoryPatch.quantity data) in
          let threshold := default (Inventory.threshold item) (InventoryPatch.threshold data) in
          Some (lowOrGood quantity threshold)
        else updatedStatus in
      let '(returned, tb) :=
        Db.update Inventory.id
          (λ r, spreadInventory r (inventoryPatchWithStatus updatedStatus data))
          id (inventory s) in
      (head returned, withInventory tb s)
  end.

Definition deleteInventoryItem (id : Z) (s : t) : bool * t :=
  let '(count, tb) := Db.delete Inventory.id id (inventory s) in
  (0 <? count, withInventory tb s).

(** *** Equipment *)

Definition getEquipmentItem (id : Z) (s : t) : option Equipment.t :=
  head (Db.selectById Equipment.id id (equipment s)).

Definition createEquipmentItem (insertItem : InsertEquipment.t) (s : t)
  : option Equipment.t * t :=
  let '(returned, tb) :=
    Db.insert (λ id,
      {| Equipment.id := id;
         Equipment.name := InsertEquipment.name insertItem;
         Equipment.status := InsertEquipment.status insertItem;
         Equipment.lastUsed := InsertEquipment.lastUsed insertItem;
         Equipment.assignedTo := InsertEquipment.assignedTo insertItem;
         Equipment.nextService := InsertEquipment.nextService insertItem;
         Equipment.userId := InsertEquipment.userId insertItem |}) (equipment s) in
  (head returned, withEquipment tb s).

Definition updateEquipmentItem (id : Z) (data : EquipmentPatch.t) (s : t)
  : option Equipment.t * t :=
  let '(returned, tb) :=
    Db.update Equipment.id (λ r, spreadEquipment r data) id (equipment s) in
  (head returned, withEquipment tb s).

Definition deleteEquipmentItem (id : Z) (s : t) : bool * t :=
  let '(count, tb) := Db.delete Equipment.id id (equipment s) in
  (0 <? count, withEquipment tb s).

(** *** Contacts *)

Definition getContact (id : Z) (s : t) : option Contact.t :=
  head (Db.selectById Contact.id id (contacts s)).

Definition createContact (insertContact : InsertContact.t) (s : t)
  : option Contact.t * t :=
  let '(returned, tb) :=
    Db.insert (λ id,
      {| Contact.id := id;
         Contact.name := InsertContact.name insertContact;
         Contact.type := InsertContact.type insertContact;
         Contact.email := InsertContact.email insertContact;
         Contact.phone := InsertContact.phone insertContact;
         Contact.address := InsertContact.address insertContact;
         Contact.notes := InsertContact.notes insertContact;
         Contact.userId := InsertContact.userId insertContact |}) (contacts s) in
  (head returned, withContacts tb s).

Definition updateContact (id : Z) (data : ContactPatch.t) (s : t)
  : option Contact.t * t :=
  let '(returned, tb) :=
    Db.update Contact.id (λ r, spreadContact r data) id (contacts s) in
  (head returned, withContacts tb s).

Definition deleteContact (id : Z) (s : t) : bool * t :=
  let '(count, tb) := Db.delete Contact.id id (contacts s) in
  (0 <? count, withContacts tb s).

(** *** Lookups by a field and listings by owner

    [db.select().from(t).where(eq(t.column, value))]: the rows that match,
    in the order of the table. *)

Definition getUserByUsername (username : string) (s : t) : option User.t :=
  head (filter (λ user, User.username user = username) (Db.rows (users s))).

Definition getUserByEmail (email : string) (s : t) : option User.t :=
  head (filter (λ user, User.email user = email) (Db.rows (users s))).

Definition getTasks (userId : Z) (s : t) : list Task.t :=
  filter (λ task, Task.userId task = userId) (Db.rows (tasks s)).

Definition getInventoryItems (userId : Z) (s : t) : list Inventory.t :=
  filter (λ item, Inventory.userId item = userId) (Db.rows (inventory s)).

Definition getEquipmentItems (userId : Z) (s : t) : list Equipment.t :=
  filter (λ item, Equipment.userId item = userId) (Db.rows (equipment s)).

Definition getContacts (userId : Z) (s : t) : list Contact.t :=
  filter (λ contact, Contact.userId contact = userId) (Db.rows (contacts s)).

End DatabaseStorage.

(** ** Weather preferences

    The remaining entity of the facade.  In [MemStorage] its methods touch
    two fields of the object only, [weatherPrefs] and
    [weatherPrefIdCounter]; they are modelled as a store of their own. *)

Module WeatherPreference.
Record t := mk {
  id : Z;
  userId : Z;
  location : string;
  units : string
}.
End WeatherPreference.

(** [InsertWeatherPreference]: [location] and [units] have column defaults
    and may be left out. *)
Module InsertWeatherPreference.
Record t := mk {
  userId : Z;
  location : option string;
  units : option string
}.
End InsertWeatherPreference.

(** [Partial<WeatherPreference>] *)
Module WeatherPreferencePatch.
Record t := mk {
  id : option Z;
  userId : option Z;
  location : option string;
  units : option string
}.
Definition empty : t := mk None None None None.
End WeatherPreferencePatch.

(** [{ ...pref, ...data }] *)
Definition spreadWeatherPreference (pref : WeatherPreference.t)
    (data : WeatherPreferencePatch.t) : WeatherPreference.t :=
  {| WeatherPreference.id :=
       default (WeatherPreference.id pref) (WeatherPreferencePatch.id data);
     WeatherPreference.userId :=
       default (WeatherPreference.userId pref) (WeatherPreferencePatch.userId data);
     WeatherPreference.location :=
       default (WeatherPreference.location pref) (WeatherPreferencePatch.location data);
     WeatherPreference.units :=
       default (WeatherPreference.units pref) (WeatherPreferencePatch.units data) |}.

(** [{ ...existingPref, ...insertPref }] *)
Definition spreadInsertWeatherPreference (existingPref : WeatherPreference.t)
    (insertPref : InsertWeatherPreference.t) : WeatherPreference.t :=
  {| WeatherPreference.id := WeatherPreference.id existingPref;
     WeatherPreference.userId := InsertWeatherPreference.userId insertPref;
     WeatherPreference.location :=
       default (WeatherPreference.location existingPref)
               (InsertWeatherPreference.location insertPref);
     WeatherPreference.units :=
       default (WeatherPreference.units existingPref)
               (InsertWeatherPreference.units insertPref) |}.

(** [x || fallback] on an optional text: absent and empty both fall back. *)
Definition orElse (fallback : string) (x : option string) : string :=
  match x with
  | None | Some "" => fallback
  | Some s => s
  end.

(** A JavaScript [Map] with number keys, as the list of its entries in
    insertion order.  The weather-preference map is written under the [id]
    field of a stored record, which a patch can change, so its order is kept
    explicitly. *)
Module JsMap.

Definition t (A : Type) : Type := list (Z * A).

(** [set] writes an existing key in place and appends a new one. *)
Fixpoint set {A : Type} (k : Z) (v : A) (m : t A) : t A :=
  match m with
  | [] => [(k, v)]
  | e :: m' => if decide (e.1 = k) then (k, v) :: m' else e :: set k v m'
  end.

Definition values {A : Type} (m : t A) : list A := m.*2.

End JsMap.

Module MemWeather.

Record t := mk {
  weatherPrefs : JsMap.t WeatherPreference.t;
  weatherPrefIdCounter : Z
}.

Definition empty : t := mk [] 1.

(** [Array.from(this.weatherPrefs.values()).find(...)] *)
Definition getWeatherPreference (userId : Z) (s : t) : option WeatherPreference.t :=
  head (filter (λ pref, WeatherPreference.userId pref = userId)
          (JsMap.values (weatherPrefs s))).

Definition setWeatherPreference (insertPref : InsertWeatherPreference.t) (s : t)
  : WeatherPreference.t * t :=
  match getWeatherPreference (InsertWeatherPreference.userId insertPref) s with
  | Some existingPref =>
      let updatedPref := spreadInsertWeatherPreference existingPref insertPref in
      (updatedPref,
       mk (JsMap.set (WeatherPreference.id existingPref) updatedPref (weatherPrefs s))
          (weatherPrefIdCounter s))
  | None =>
      let id := weatherPrefIdCounter s in
      let pref :=
        {| WeatherPreference.id := id;
           WeatherPreference.userId := InsertWeatherPreference.userId insertPref;
           WeatherPreference.location :=
             orElse "Harare" (InsertWeatherPreference.location insertPref);
           WeatherPreference.units :=
             orElse "metric" (InsertWeatherPreference.units insertPref) |} in
      (pref, mk (JsMap.set id pref (weatherPrefs s)) (id + 1))
  end.

Definition updateWeatherPreference (userId : Z) (data : WeatherPreferencePatch.t)
    (s : t) : option WeatherPreference.t * t :=
  match getWeatherPreference userId s with
  | None => (None, s)
  | Some pref =>
      let updatedPref := spreadWeatherPreference pref data in
      (Some updatedPref,
       mk (JsMap.set (WeatherPreference.id pref) updatedPref (weatherPrefs s))
          (weatherPrefIdCounter s))
  end.

(** The closing call of the constructor. *)
Definition constructor : t :=
  (setWeatherPreference
     {| InsertWeatherPreference.userId := 1;
        InsertWeatherPreference.location := Some "Harare";
        InsertWeatherPreference.units := Some "metric" |} empty).2.

Inductive op :=
  | SetWeatherPreference (insertPref : InsertWeatherPreference.t)
  | UpdateWeatherPreference (userId : Z) (data : WeatherPreferencePatch.t).

Definition step (o : op) (s : t) : t :=
  match o with
  | SetWeatherPreference insertPref => (setWeatherPreference insertPref s).2
  | UpdateWeatherPreference userId data => (updateWeatherPreference userId data s).2
  end.

Definition run (ops : list op) (s : t) : t := foldl (λ s o, step o s) s ops.

(** A call that leaves the [id] and the owner of a stored preference alone:
    any call but an update whose patch names [id] or [userId]. *)
Definition keepsIdentity (o : op) : Prop :=
  match o with
  | SetWeatherPreference _ => True
  | UpdateWeatherPreference _ data =>
      WeatherPreferencePatch.id data = None
      ∧ WeatherPreferencePatch.userId data = None
  end.

(** Every entry is stored under its own [id], below the counter, and no two
    entries share a key. *)
Definition wellKeyed (s : t) : Prop :=
  NoDup (weatherPrefs s).*1
  ∧ Forall (λ e, WeatherPreference.id e.2 = e.1 ∧ e.1 < weatherPrefIdCounter s)
      (weatherPrefs s).

(** No two entries belong to the same user. *)
Definition onePerUser (s : t) : Prop :=
  NoDup (WeatherPreference.userId <$> JsMap.values (weatherPrefs s)).

End MemWeather.

(** The relational weather-preference table, with the statements of
    [DatabaseStorage] on it. *)
Module DbWeather.

Definition t : Type := Db.table WeatherPreference.t.

Definition getWeatherPreference (userId : Z) (s : t) : option WeatherPreference.t :=
  head (Db.selectById WeatherPreference.userId userId s).

Definition setWeatherPreference (insertPref : InsertWeatherPreference.t) (s : t)
  : option WeatherPreference.t * t :=
  match getWeatherPreference (InsertWeatherPreference.userId insertPref) s with
  | Some existingPref =>
      let '(returned, tb) :=
        Db.update WeatherPreference.userId
          (λ r, spreadInsertWeatherPreference r insertPref)
          (InsertWeatherPreference.userId insertPref) s in
      (head returned, tb)
  | None =>
      let '(returned, tb) :=
        Db.insert (λ id,
          {| WeatherPreference.id := id;
             WeatherPreference.userId := InsertWeatherPreference.userId insertPref;
             (* the column defaults, for the columns the values leave out *)
             WeatherPreference.location :=
               default "Harare" (InsertWeatherPreference.location insertPref);
             WeatherPreference.units :=
               default "metric" (InsertWeatherPreference.units insertPref) |}) s in
      (head returned, tb)
  end.

Definition updateWeatherPreference (userId : Z) (data : WeatherPreferencePatch.t)
    (s : t) : option WeatherPreference.t * t :=
  let '(returned, tb) :=
    Db.update WeatherPreference.userId (λ r, spreadWeatherPreference r data) userId s in
  (head returned, tb).

End DbWeather.

(** ** Sequences of calls on the in-memory backend *)

Module Trace.

Inductive kind := KUser | KTask | KInventory | KEquipment | KContact.

(** One call of the facade, with the clock reading it sees where the method
    takes one. *)
Inductive op :=
  | CreateUser (insertUser : InsertUser.t)
  | UpdateUser (id : Z) (data : UserPatch.t)
  | CreateTask (now : Z) (insertTask : InsertTask.t)
  | UpdateTask (now : Z) (id : Z) (data : TaskPatch.t)
  | DeleteTask (id : Z)
  | CreateInventoryItem (now : Z) (insertItem : InsertInventory.t)
  | UpdateInventoryItem (now : Z) (id : Z) (data : InventoryPatch.t)
  | DeleteInventoryItem (id : Z)
  | CreateEquipmentItem (insertItem : InsertEquipment.t)
  | UpdateEquipmentItem (id : Z) (data : EquipmentPatch.t)
  | DeleteEquipmentItem (id : Z)
  | CreateContact (insertContact : InsertContact.t)
  | UpdateContact (id : Z) (data : ContactPatch.t)
  | DeleteContact (id : Z).

(** The store after the call, and for a create the kind and [id] of the
    record it returned. *)
Definition step (tz : Z) (o : op) (s : MemStorage.t) : MemStorage.t * option (kind * Z) :=
  match o with
  | CreateUser i =>
      let '(r, s') := MemStorage.createUser i s in (s', Some (KUser, User.id r))
  | UpdateUser id data => ((MemStorage.updateUser id data s).2, None)
  | CreateTask now i =>
      let '(r, s') := MemStorage.createTask tz now i s in (s', Some (KTask, Task.id r))
  | UpdateTask now id data => ((MemStorage.updateTask tz now id data s).2, None)
  | DeleteTask id => ((MemStorage.deleteTask id s).2, None)
  | CreateInventoryItem now i =>
      let '(r, s') := MemStorage.createInventoryItem now i s in
      (s', Some (KInventory, Inventory.id r))
  | UpdateInventoryItem now id data =>
      ((MemStorage.updateInventoryItem now id data s).2, None)
  | DeleteInventoryItem id => ((MemStorage.deleteInventoryItem id s).2, None)
  | CreateEquipmentItem i =>
      let '(r, s') := MemStorage.createEquipmentItem i s in
      (s', Some (KEquipment, Equipment.id r))
  | UpdateEquipmentItem id data => ((MemStorage.updateEquipmentItem id data s).2, None)
  | DeleteEquipmentItem id => ((MemStorage.deleteEquipmentItem id s).2, None)
  | CreateContact i =>
      let '(r, s') := MemStorage.createContact i s in (s', Some (KContact, Contact.id r))
  | UpdateContact id data => ((MemStorage.updateContact id data s).2, None)
  | DeleteContact id => ((MemStorage.deleteContact id s).2, None)
  end.

(** Runs the calls in order; the log lists the identifiers assigned, oldest
    first. *)
Fixpoint run (tz : Z) (ops : list op) (s : MemStorage.t)
  : MemStorage.t * list (kind * Z) :=
  match ops with
  | [] => (s, [])
  | o :: ops' =>
      let '(s1, e) := step tz o s in
      let '(s2, log) := run tz ops' s1 in
      (s2, match e with Some x => x :: log | None => log end)
  end.

Definition counter (k : kind) (s : MemStorage.t) : Z :=
  match k with
  | KUser => MemStorage.userIdCounter s
  | KTask => MemStorage.taskIdCounter s
  | KInventory => MemStorage.inventoryIdCounter s
  | KEquipment => MemStorage.equipmentIdCounter s
  | KContact => MemStorage.contactIdCounter s
  end.

(** A call that cannot set a task's status apart from its completion flag:
    any call but an [updateTask] whose patch names [status] and not
    [completed]. *)
Definition statusFollowsCompleted (o : op) : Prop :=
  match o with
  | UpdateTask _ _ data =>
      is_Some (TaskPatch.completed data) ∨ TaskPatch.status data = None
  | _ => True
  end.

End Trace.

(** ** Sequences of calls on the relational backend

    The facade is one interface: the calls are those of [Trace.op], here
    made on [DatabaseStorage]. *)

Module DbTrace.

Definition step (tz : Z) (o : Trace.op) (s : DatabaseStorage.t) : DatabaseStorage.t :=
  match o with
  | Trace.CreateUser i => (DatabaseStorage.createUser i s).2
  | Trace.UpdateUser id data => (DatabaseStorage.updateUser id data s).2
  | Trace.CreateTask now i => (DatabaseStorage.createTask tz now i s).2
  | Trace.UpdateTask now id data => (DatabaseStorage.updateTask tz now id data s).2
  | Trace.DeleteTask id => (DatabaseStorage.deleteTask id s).2
  | Trace.CreateInventoryItem now i => (DatabaseStorage.createInventoryItem now i s).2
  | Trace.UpdateInventoryItem now id data =>
      (DatabaseStorage.updateInventoryItem now id data s).2
  | Trace.DeleteInventoryItem id => (DatabaseStorage.deleteInventoryItem id s).2
  | Trace.CreateEquipmentItem i => (DatabaseStorage.createEquipmentItem i s).2
  | Trace.UpdateEquipmentItem id data => (DatabaseStorage.updateEquipmentItem id data s).2
  | Trace.DeleteEquipmentItem id => (DatabaseStorage.deleteEquipmentItem id s).2
  | Trace.CreateContact i => (DatabaseStorage.createContact i s).2
  | Trace.UpdateContact id data => (DatabaseStorage.updateContact id data s).2
  | Trace.DeleteContact id => (DatabaseStorage.deleteContact id s).2
  end.

Definition run (tz : Z) (ops : list Trace.op) (s : DatabaseStorage.t)
  : DatabaseStorage.t :=
  foldl (λ s o, step tz o s) s ops.

(** The one create on which [DatabaseStorage.createTask] keeps the caller's
    status: an open task, due after the local midnight of the call, none of
    whose three branches is taken.  Here the caller's status is
    "completed". *)
Definition suppliesCompletedToOpenTask (tz now : Z) (insertTask : InsertTask.t) : Prop :=
  InsertTask.completed insertTask = false
  ∧ setHoursZero tz now < InsertTask.dueDate insertTask
  ∧ InsertTask.status insertTask = Some "completed".

(** A call that cannot set a task's status apart from its completion flag
    in the relational backend: no [updateTask] whose patch names [status]
    and not [completed], and no [createTask] as above. *)
Definition statusFollowsCompleted (tz : Z) (o : Trace.op) : Prop :=
  match o with
  | Trace.CreateTask now insertTask => ¬ suppliesCompletedToOpenTask tz now insertTask
  | _ => Trace.statusFollowsCompleted o
  end.

End DbTrace.

(** ** The routes

    [server/routes.ts] calls the facade through the interface [IStorage] and
    knows nothing of the backend behind it.  A handler is modelled on the
    values it reads and writes: the session's [userId], the parsed request,
    and the storage. *)

Module Routes.

(** The methods of [IStorage] that the routes below call.  A create hands
    back what the backend returned, which the routes pass on unexamined;
    [now] is the clock reading of the call. *)
Class IStorage (S : Type) := {
  getUser : Z → S → option User.t;
  getUserByUsername : string → S → option User.t;
  getUserByEmail : string → S → option User.t;
  createUser : InsertUser.t → S → option User.t * S;
  getTasks : Z → S → list Task.t;
  getTask : Z → S → option Task.t;
  createTask : Z → InsertTask.t → S → option Task.t * S;
  updateTask : Z → Z → TaskPatch.t → S → option Task.t * S;
  deleteTask : Z → S → bool * S;
  getInventoryItems : Z → S → list Inventory.t;
  getInventoryItem : Z → S → option Inventory.t;
  createInventoryItem : Z → InsertInventory.t → S → option Inventory.t * S;
  updateInventoryItem : Z → Z → InventoryPatch.t → S → option Inventory.t * S;
  deleteInventoryItem : Z → S → bool * S;
  getEquipmentItems : Z → S → list Equipment.t;
  getEquipmentItem : Z → S → option Equipment.t;
  createEquipmentItem : InsertEquipment.t → S → option Equipment.t * S;
  updateEquipmentItem : Z → EquipmentPatch.t → S → option Equipment.t * S;
  deleteEquipmentItem : Z → S → bool * S;
  getContacts : Z → S → list Contact.t;
  createContact : InsertContact.t → S → option Contact.t * S
}.

(** [const { password, ...userWithoutPassword } = user] *)
Record UserWithoutPassword := mkPublic {
  pub_id : Z;
  pub_username : string;
  pub_email : string;
  pub_name : string;
  pub_farmName : string;
  pub_role : string;
  pub_profileImage : option string;
  pub_language : option string
}.

Definition withoutPassword (user : User.t) : UserWithoutPassword :=
  {| pub_id := User.id user;
     pub_username := User.username user;
     pub_email := User.email user;
     pub_name := User.name user;
     pub_farmName := User.farmName user;
     pub_role := User.role user;
     pub_profileImage := User.profileImage user;
     pub_language := User.language user |}.

(** A request as its handler sees it.  A body that a POST route parses with
    a schema is [None] when the schema rejects it; the [id] of a route with
    [:id] is what [parseInt] made of the parameter. *)
Inductive request :=
  | Register (body : option InsertUser.t)
  | Login (username password : string)
  | Logout
  | Me
  | ListTasks
  | GetTask (id : Z)
  | PostTask (body : option InsertTask.t)
  | PatchTask (id : Z) (body : TaskPatch.t)
  | DeleteTask (id : Z)
  | ListInventory
  | PostInventory (body : option InsertInventory.t)
  | PatchInventory (id : Z) (body : InventoryPatch.t)
  | DeleteInventory (id : Z)
  | ListEquipment
  | PostEquipment (body : option InsertEquipment.t)
  | PatchEquipment (id : Z) (body : EquipmentPatch.t)
  | DeleteEquipment (id : Z)
  | ListContacts
  | PostContact (body : option InsertContact.t).

(** What [res.json] is given. *)
Inductive payload :=
  | Message (message : string)
  | ValidationMessage
  | PublicUser (user : UserWithoutPassword)
  | OneTask (task : option Task.t)
  | Tasks (tasks : list Task.t)
  | OneInventoryItem (item : option Inventory.t)
  | InventoryItems (items : list Inventory.t)
  | OneEquipmentItem (item : option Equipment.t)
  | EquipmentItems (items : list Equipment.t)
  | OneContact (contact : option Contact.t)
  | Contacts (contacts : list Contact.t).

Record response := mkResponse {
  status : Z;
  json : payload
}.

(** [req.session.userId], absent before login and after logout. *)
Definition session : Type := option Z.

(** [!req.session.userId] is true of an absent identifier and of 0. *)
Definition sessionUser (sess : session) : option Z :=
  match sess with
  | Some 0 => None
  | _ => sess
  end.

(** [{ ...req.body, userId: req.session.userId }] *)
Definition taskBodyFor (userId : Z) (body : InsertTask.t) : InsertTask.t :=
  {| InsertTask.title := InsertTask.title body;
     InsertTask.description := InsertTask.description body;
     InsertTask.dueDate := InsertTask.dueDate body;
     InsertTask.priority := InsertTask.priority body;
     InsertTask.status := InsertTask.status body;
     InsertTask.completed := InsertTask.completed body;
     InsertTask.assignedTo := InsertTask.assignedTo body;
     InsertTask.userId := userId;
     InsertTask.recurring := InsertTask.recurring body |}.

Definition inventoryBodyFor (userId : Z) (body : InsertInventory.t) : InsertInventory.t :=
  {| InsertInventory.name := InsertInventory.name body;
     InsertInventory.category := InsertInventory.category body;
     InsertInventory.quantity := InsertInventory.quantity body;
     InsertInventory.unit := InsertInventory.unit body;
     InsertInventory.threshold := InsertInventory.threshold body;
     InsertInventory.userId := userId |}.

Definition equipmentBodyFor (userId : Z) (body : InsertEquipment.t) : InsertEquipment.t :=
  {| InsertEquipment.name := InsertEquipment.name body;
     InsertEquipment.status := InsertEquipment.status body;
     InsertEquipment.lastUsed := InsertEquipment.lastUsed body;
     InsertEquipment.assignedTo := InsertEquipment.assignedTo body;
     InsertEquipment.nextService := InsertEquipment.nextService body;
     InsertEquipment.userId := userId |}.

Definition contactBodyFor (userId : Z) (body : InsertContact.t) : InsertContact.t :=
  {| InsertContact.name := InsertContact.name body;
     InsertContact.type := InsertContact.type body;
     InsertContact.email := InsertContact.email body;
     InsertContact.phone := InsertContact.phone body;
     InsertContact.address := InsertContact.address body;
     InsertContact.notes := InsertContact.notes body;
     InsertContact.userId := userId |}.

Section Handlers.
Context {S : Type} `{IStorage S}.

Definition unauthorized : response := mkResponse 401 (Message "Unauthorized").
Definition forbidden : response := mkResponse 403 (Message "Unauthorized").
Definition notFound (what : string) : response :=
  mkResponse 404 (Message (what ++ " not found")).

(** The handler of one route: the response, the session's [userId] after it,
    and the storage after it.  The routes behind [requireAuth] answer 401
    before anything else.  The [catch] of a handler answers 500 when the
    storage raises an exception; the storage of the embedding raises none
    (see the conventions), so that answer is given here only where a create
    hands back no record. *)
Definition handle (now : Z) (sess : session) (req : request) (s : S)
  : response * session * S :=
  match req with
  | Register None => (mkResponse 400 ValidationMessage, sess, s)
  | Register (Some userData) =>
      match getUserByUsername (InsertUser.username userData) s with
      | Some _ => (mkResponse 400 (Message "Username already taken"), sess, s)
      | None =>
          match getUserByEmail (InsertUser.email userData) s with
          | Some _ => (mkResponse 400 (Message "Email already in use"), sess, s)
          | None =>
              match createUser userData s with
              | (Some user, s') =>
                  (mkResponse 201 (PublicUser (withoutPassword user)),
                   Some (User.id user), s')
              | (None, s') =>
                  (mkResponse 500 (Message "Server error during registration"), sess, s')
              end
          end
      end
  | Login username password =>
      if bool_decide (username = "" ∨ password = "")
      then (mkResponse 400 (Message "Username and password are required"), sess, s)
      else
        match getUserByUsername username s with
        | Some user =>
            if bool_decide (User.password user = password)
            then (mkResponse 200 (PublicUser (withoutPassword user)),
                  Some (User.id user), s)
            else (mkResponse 401 (Message "Invalid credentials"), sess, s)
        | None => (mkResponse 401 (Message "Invalid credentials"), sess, s)
        end
  | Logout => (mkResponse 200 (Message "Logged out successfully"), None, s)
  | Me =>
      match sessionUser sess with
      | None => (mkResponse 401 (Message "Not authenticated"), sess, s)
      | Some userId =>
          match getUser userId s with
          | None => (mkResponse 401 (Message "User not found"), None, s)
          | Some user => (mkResponse 200 (PublicUser (withoutPassword user)), sess, s)
          end
      end
  | _ =>
      match sessionUser sess with
      | None => (unauthorized, sess, s)
      | Some userId =>
          match req with
          | ListTasks => (mkResponse 200 (Tasks (getTasks userId s)), sess, s)
          | GetTask id =>
              match getTask id s with
              | None => (notFound "Task", sess, s)
              | Some task =>
                  if bool_decide (Task.userId task = userId)
                  then (mkResponse 200 (OneTask (Some task)), sess, s)
                  else (forbidden, sess, s)
              end
          | PostTask None => (mkResponse 400 ValidationMessage, sess, s)
          | PostTask (Some body) =>
              let '(task, s') := createTask now (taskBodyFor userId body) s in
              (mkResponse 201 (OneTask task), sess, s')
          | PatchTask id body =>
              match getTask id s with
              | None => (notFound "Task", sess, s)
              | Some task =>
                  if bool_decide (Task.userId task = userId)
                  then
                    let '(updatedTask, s') := updateTask now id body s in
                    (mkResponse 200 (OneTask updatedTask), sess, s')
                  else (forbidden, sess, s)
              end
          | DeleteTask id =>
              match getTask id s with
              | None => (notFound "Task", sess, s)
              | Some task =>
                  if bool_decide (Task.userId task = userId)
                  then
                    (mkResponse 200 (Message "Task deleted successfully"), sess,
                     (deleteTask id s).2)
                  else (forbidden, sess, s)
              end
          | ListInventory =>
              (mkResponse 200 (InventoryItems (getInventoryItems userId s)), sess, s)
          | PostInventory None => (mkResponse 400 ValidationMessage, sess, s)
          | PostInventory (Some body) =>
              let '(item, s') := createInventoryItem now (inventoryBodyFor userId body) s in
              (mkResponse 201 (OneInventoryItem item), sess, s')
          | PatchInventory id body =>
              match getInventoryItem id s with
              | None => (notFound "Inventory item", sess, s)
              | Some item =>
                  if bool_decide (Inventory.userId item = userId)
                  then
                    let '(updatedItem, s') := updateInventoryItem now id body s in
                    (mkResponse 200 (OneInventoryItem updatedItem), sess, s')
                  else (forbidden, sess, s)
              end
          | DeleteInventory id =>
              match getInventoryItem id s with
              | None => (notFound "Inventory item", sess, s)
              | Some item =>
                  if bool_decide (Inventory.userId item = userId)
                  then
                    (mkResponse 200 (Message "Inventory item deleted successfully"),
                     sess, (deleteInventoryItem id s).2)
                  else (forbidden, sess, s)
              end
          | ListEquipment =>
              (mkResponse 200 (EquipmentItems (getEquipmentItems userId s)), sess, s)
          | PostEquipment None => (mkResponse 400 ValidationMessage, sess, s)
          | PostEquipment (Some body) =>
              let '(item, s') := createEquipmentItem (equipmentBodyFor userId body) s in
              (mkResponse 201 (OneEquipmentItem item), sess, s')
          | PatchEquipment id body =>
              match getEquipmentItem id s with
              | None => (notFound "Equipment item", sess, s)
              | Some item =>
                  if bool_decide (Equipment.userId item = userId)
                  then
                    let '(updatedItem, s') := updateEquipmentItem id body s in
                    (mkResponse 200 (OneEquipmentItem updatedItem), sess, s')
                  else (forbidden, sess, s)
              end
          | DeleteEquipment id =>
              match getEquipmentItem id s with
              | None => (notFound "Equipment item", sess, s)
              | Some item =>
                  if bool_decide (Equipment.userId item = userId)
                  then
                    (mkResponse 200 (Message "Equipment item deleted successfully"),
                     sess, (deleteEquipmentItem id s).2)
                  else (forbidden, sess, s)
              end
          | ListContacts => (mkResponse 200 (Contacts (getContacts userId s)), sess, s)
          | PostContact None => (mkResponse 400 ValidationMessage, sess, s)
          | PostContact (Some body) =>
              let '(contact, s') := createContact (contactBodyFor userId body) s in
              (mkResponse 201 (OneContact contact), sess, s')
          | _ => (unauthorized, sess, s)
          end
      end
  end.

(** Requests handled one after the other, each at its own clock reading and
    in its own session; the storage is shared. *)
Definition serve (calls : list (Z * session * request)) (s : S) : S :=
  foldl (λ s call, (handle call.1.1 call.1.2 call.2 s).2) s calls.

End Handlers.

End Routes.

(** The two backends behind the interface, on a host at offset [tz]. *)
#[export] Instance memStorage (tz : Z) : Routes.IStorage MemStorage.t := {
  Routes.getUser := MemStorage.getUser;
  Routes.getUserByUsername := MemStorage.getUserByUsername;
  Routes.getUserByEmail := MemStorage.getUserByEmail;
  Routes.createUser insertUser s :=
    let '(user, s') := MemStorage.createUser insertUser s in (Some user, s');
  Routes.getTasks := MemStorage.getTasks;
  Routes.getTask := MemStorage.getTask;
  Routes.createTask now insertTask s :=
    let '(task, s') := MemStorage.createTask tz now insertTask s in (Some task, s');
  Routes.updateTask := MemStorage.updateTask tz;
  Routes.deleteTask := MemStorage.deleteTask;
  Routes.getInventoryItems := MemStorage.getInventoryItems;
  Routes.getInventoryItem := MemStorage.getInventoryItem;
  Routes.createInventoryItem now insertItem s :=
    let '(item, s') := MemStorage.createInventoryItem now insertItem s in (Some item, s');
  Routes.updateInventoryItem := MemStorage.updateInventoryItem;
  Routes.deleteInventoryItem := MemStorage.deleteInventoryItem;
  Routes.getEquipmentItems := MemStorage.getEquipmentItems;
  Routes.getEquipmentItem := MemStorage.getEquipmentItem;
  Routes.createEquipmentItem insertItem s :=
    let '(item, s') := MemStorage.createEquipmentItem insertItem s in (Some item, s');
  Routes.updateEquipmentItem := MemStorage.updateEquipmentItem;
  Routes.deleteEquipmentItem := MemStorage.deleteEquipmentItem;
  Routes.getContacts := MemStorage.getContacts;
  Routes.createContact insertContact s :=
    let '(contact, s') := MemStorage.createContact insertContact s in (Some contact, s')
}.

#[export] Instance databaseStorage (tz : Z) : Routes.IStorage DatabaseStorage.t := {
  Routes.getUser := DatabaseStorage.getUser;
  Routes.getUserByUsername := DatabaseStorage.getUserByUsername;
  Routes.getUserByEmail := DatabaseStorage.getUserByEmail;
  Routes.createUser := DatabaseStorage.createUser;
  Routes.getTasks := DatabaseStorage.getTasks;
  Routes.getTask := DatabaseStorage.getTask;
  Routes.createTask := DatabaseStorage.createTask tz;
  Routes.updateTask := DatabaseStorage.updateTask tz;
  Routes.deleteTask := DatabaseStorage.deleteTask;
  Routes.getInventoryItems := DatabaseStorage.getInventoryItems;
  Routes.getInventoryItem := DatabaseStorage.getInventoryItem;
  Routes.createInventoryItem := DatabaseStorage.createInventoryItem;
  Routes.updateInventoryItem := DatabaseStorage.updateInventoryItem;
  Routes.deleteInventoryItem := DatabaseStorage.deleteInventoryItem;
  Routes.getEquipmentItems := DatabaseStorage.getEquipmentItems;
  Routes.getEquipmentItem := DatabaseStorage.getEquipmentItem;
  Routes.createEquipmentItem := DatabaseStorage.createEquipmentItem;
  Routes.updateEquipmentItem := DatabaseStorage.updateEquipmentItem;
  Routes.deleteEquipmentItem := DatabaseStorage.deleteEquipmentItem;
  Routes.getContacts := DatabaseStorage.getContacts;
  Routes.createContact := DatabaseStorage.createContact
}.

(** ** Well-keyed stores *)

(** Every key of a map is below the counter the map draws its keys from. *)
Definition keysBelow {A : Type} (m : gmap Z A) (c : Z) : Prop :=
  map_Forall (λ k _, k < c) m.

(** Every record of a map is stored under its own [id]. *)
Definition idsAreKeys {A : Type} (rid : A → Z) (m : gmap Z A) : Prop :=
  map_Forall (λ k r, rid r = k) m.

Definition countersAhead (s : MemStorage.t) : Prop :=
  keysBelow (MemStorage.users s) (MemStorage.userIdCounter s)
  ∧ keysBelow (MemStorage.tasks s) (MemStorage.taskIdCounter s)
  ∧ keysBelow (MemStorage.inventoryItems s) (MemStorage.inventoryIdCounter s)
  ∧ keysBelow (MemStorage.equipmentItems s) (MemStorage.equipmentIdCounter s)
  ∧ keysBelow (MemStorage.contactItems s) (MemStorage.contactIdCounter s).

Definition storedUnderOwnId (s : MemStorage.t) : Prop :=
  idsAreKeys User.id (MemStorage.users s)
  ∧ idsAreKeys Task.id (MemStorage.tasks s)
  ∧ idsAreKeys Inventory.id (MemStorage.inventoryItems s)
  ∧ idsAreKeys Equipment.id (MemStorage.equipmentItems s)
  ∧ idsAreKeys Contact.id (MemStorage.contactItems s).

(** A call whose patch, if it has one, does not name [id]. *)
Definition leavesIdAlone (o : Trace.op) : Prop :=
  match o with
  | Trace.UpdateUser _ data => UserPatch.id data = None
  | Trace.UpdateTask _ _ data => TaskPatch.id data = None
  | Trace.UpdateInventoryItem _ _ data => InventoryPatch.id data = None
  | Trace.UpdateEquipmentItem _ data => EquipmentPatch.id data = None
  | Trace.UpdateContact _ data => ContactPatch.id data = None
  | _ => True
  end.

(** No two stored users share a username or an email. *)
Definition uniqueUsers (s : MemStorage.t) : Prop :=
  ∀ k1 k2 u1 u2,
    MemStorage.users s !! k1 = Some u1 →
    MemStorage.users s !! k2 = Some u2 →
    User.username u1 = User.username u2 ∨ User.email u1 = User.email u2 →
    k1 = k2.

(** ** Listings before and after a call

    [list] is a listing by owner, [s] the store before the call and [s']
    the store after it. *)

(** After a create that returned [new]: the listings are those of before,
    with [new] added to its owner's. *)
Definition listedAfterCreate {S R : Type} (list : Z → S → list R) (owner : R → Z)
    (s s' : S) (new : R) : Prop :=
  ∀ u r, r ∈ list u s' ↔ r ∈ list u s ∨ (r = new ∧ owner new = u).

(** After the delete of [id]: the listings are those of before, without the
    record of that [id]. *)
Definition listedAfterDelete {S R : Type} (list : Z → S → list R) (rid : R → Z)
    (s s' : S) (id : Z) : Prop :=
  ∀ u r, r ∈ list u s' ↔ r ∈ list u s ∧ rid r ≠ id.

(** After a patch of [id] that returned [updated]: the record of that [id]
    has left the listings and [updated] is in its owner's. *)
Definition listedAfterUpdate {S R : Type} (list : Z → S → list R) (rid owner : R → Z)
    (s s' : S) (id : Z) (updated : R) : Prop :=
  ∀ u r, r ∈ list u s' ↔ (r ∈ list u s ∧ rid r ≠ id) ∨ (r = updated ∧ owner updated = u).

(** ** What a request may do to the in-memory store *)

(** The facade calls that the routes make on behalf of user [u] in store
    [s]: a create of a record; a registration under a username and an email
    that no stored user has; a patch or a delete of a task, an inventory
    item or an equipment item that [u] owns.  No route patches a user or a
    contact, or deletes a contact. *)
Definition permitted (u : option Z) (s : MemStorage.t) (o : Trace.op) : Prop :=
  match o with
  | Trace.CreateUser insertUser =>
      MemStorage.getUserByUsername (InsertUser.username insertUser) s = None
      ∧ MemStorage.getUserByEmail (InsertUser.email insertUser) s = None
  | Trace.CreateTask _ insertTask => Some (InsertTask.userId insertTask) = u
  | Trace.CreateInventoryItem _ insertItem =>
      Some (InsertInventory.userId insertItem) = u
  | Trace.CreateEquipmentItem insertItem =>
      Some (InsertEquipment.userId insertItem) = u
  | Trace.CreateContact insertContact => Some (InsertContact.userId insertContact) = u
  | Trace.UpdateTask _ id _ | Trace.DeleteTask id =>
      ∃ task, MemStorage.getTask id s = Some task ∧ Some (Task.userId task) = u
  | Trace.UpdateInventoryItem _ id _ | Trace.DeleteInventoryItem id =>
      ∃ item, MemStorage.getInventoryItem id s = Some item
              ∧ Some (Inventory.userId item) = u
  | Trace.UpdateEquipmentItem id _ | Trace.DeleteEquipmentItem id =>
      ∃ item, MemStorage.getEquipmentItem id s = Some item
              ∧ Some (Equipment.userId item) = u
  | Trace.UpdateUser _ _ | Trace.UpdateContact _ _ | Trace.DeleteContact _ => False
  end.

(** The records of user [b] in [s] are all in [s'], each under its key and
    unchanged. *)
Definition recordsKept (b : Z) (s s' : MemStorage.t) : Prop :=
  (∀ k r, MemStorage.tasks s !! k = Some r → Task.userId r = b →
          MemStorage.tasks s' !! k = Some r)
  ∧ (∀ k r, MemStorage.inventoryItems s !! k = Some r → Inventory.userId r = b →
            MemStorage.inventoryItems s' !! k = Some r)
  ∧ (∀ k r, MemStorage.equipmentItems s !! k = Some r → Equipment.userId r = b →
            MemStorage.equipmentItems s' !! k = Some r)
  ∧ (∀ k r, MemStorage.contactItems s !! k = Some r → Contact.userId r = b →
            MemStorage.contactItems s' !! k = Some r).

(** ** Refusals *)

(** The routes that stand behind [requireAuth], and [/api/auth/me], which
    makes the same test itself. *)
Definition guarded (req : Routes.request) : Prop :=
  match req with
  | Routes.Register _ | Routes.Login _ _ | Routes.Logout => False
  | _ => True
  end.

(** An answer with status [code] that leaves the session and the storage as
    they were. *)
Definition refusedWith {S : Type} (code : Z) (sess : Routes.session) (s : S)
    (out : Routes.response * Routes.session * S) : Prop :=
  Routes.status out.1.1 = code ∧ out.1.2 = sess ∧ out.2 = s.

(** The answer to a request about one record that the storage finds as
    [found], made by user [u]: 404 when there is no such record, 403 when it
    is another user's, either way with nothing changed. *)
Definition refusedUnlessOwner {S R : Type} (owner : R → Z) (u : Z) (found : option R)
    (sess : Routes.session) (s : S) (out : Routes.response * Routes.session * S) : Prop :=
  match found with
  | None => refusedWith 404 sess s out
  | Some r => owner r ≠ u → refusedWith 403 sess s out
  end.

(** ** The rules as the specification words them *)

(** The task rule with both sides taken at calendar-day granularity: the
    due date and the clock are compared by the local day they fall on. *)
Definition statusByCalendarDay (tz : Z) (completed : bool) (dueDate now : Z) : string :=
  if completed then "completed"
  else if localDay tz dueDate <? localDay tz now then "overdue"
  else if localDay tz dueDate =? localDay tz now then "today"
  else "upcoming".

(** The status the code derives for a task on the day of [now]. *)
Definition derivedStatus (tz now : Z) (completed : bool) (dueDate : Z) : string :=
  if completed then "completed" else dateStatus dueDate (setHoursZero tz now).

(** A stored task whose status is the one derived from its own fields on the
    day of [now]. *)
Definition statusUpToDate (tz now : Z) (task : Task.t) : Prop :=
  Task.status task = derivedStatus tz now (Task.completed task) (Task.dueDate task).

(** The invariant of the data model: the status says completed exactly when
    the flag does. *)
Definition completedIffFlag (task : Task.t) : Prop :=
  Task.status task = "completed" ↔ Task.completed task = true.

(** Every stored task has the completed status exactly when flagged. *)
Definition tasksAgree (s : MemStorage.t) : Prop :=
  map_Forall (λ _ task, completedIffFlag task) (MemStorage.tasks s).


(** The inventory rule: "low" exactly below the threshold, "good" from the
    threshold up. *)
Definition lowIffBelowThreshold (item : Inventory.t) : Prop :=
  (Inventory.status item = "low"
   ↔ (Inventory.quantity item < Inventory.threshold item)%Q)
  ∧ ((Inventory.threshold item <= Inventory.quantity item)%Q →
     Inventory.status item = "good").

(** The contract of a delete, for one entity of one backend: the answer is
    [true] exactly when a record with that identifier existed; after a
    [true] answer a get of the identifier finds nothing; deleting an
    identifier that names no record answers [false] and changes nothing. *)
Definition deleteContract {S R : Type}
    (get : Z → S → option R) (del : Z → S → bool * S) : Prop :=
  ∀ id s,
    ((del id s).1 = true ↔ is_Some (get id s))
    ∧ ((del id s).1 = true → get id (del id s).2 = None)
    ∧ (get id s = None → del id s = (false, s)).

(** What a patch leaves alone.  For each entity, every field the patch does
    not name keeps its value from [old] to [new]; the two derived fields are
    set apart: a task's status is kept when the patch names neither [status]
    nor [completed], an inventory item's when it names none of [status],
    [quantity] and [threshold], and [lastUpdated] is not covered. *)
Definition taskFrame (data : TaskPatch.t) (old new : Task.t) : Prop :=
  (TaskPatch.id data = None → Task.id new = Task.id old)
  ∧ (TaskPatch.title data = None → Task.title new = Task.title old)
  ∧ (TaskPatch.description data = None → Task.description new = Task.description old)
  ∧ (TaskPatch.dueDate data = None → Task.dueDate new = Task.dueDate old)
  ∧ (TaskPatch.priority data = None → Task.priority new = Task.priority old)
  ∧ (TaskPatch.completed data = None → Task.completed new = Task.completed old)
  ∧ (TaskPatch.assignedTo data = None → Task.assignedTo new = Task.assignedTo old)
  ∧ (TaskPatch.userId data = None → Task.userId new = Task.userId old)
  ∧ (TaskPatch.recurring data = None → Task.recurring new = Task.recurring old)
  ∧ (TaskPatch.createdAt data = None → Task.createdAt new = Task.createdAt old)
  ∧ (TaskPatch.status data = None → TaskPatch.completed data = None →
     Task.status new = Task.status old).

Definition inventoryFrame (data : InventoryPatch.t) (old new : Inventory.t) : Prop :=
  (InventoryPatch.id data = None → Inventory.id new = Inventory.id old)
  ∧ (InventoryPatch.name data = None → Inventory.name new = Inventory.name old)
  ∧ (InventoryPatch.category data = None →
     Inventory.category new = Inventory.category old)
  ∧ (InventoryPatch.quantity data = None →
     Inventory.quantity new = Inventory.quantity old)
  ∧ (InventoryPatch.unit data = None → Inventory.unit new = Inventory.unit old)
  ∧ (InventoryPatch.threshold data = None →
     Inventory.threshold new = Inventory.threshold old)
  ∧ (InventoryPatch.userId data = None → Inventory.userId new = Inventory.userId old)
  ∧ (InventoryPatch.status data = None → InventoryPatch.quantity data = None →
     InventoryPatch.threshold data = None →
     Inventory.status new = Inventory.status old).

Definition equipmentFrame (data : EquipmentPatch.t) (old new : Equipment.t) : Prop :=
  (EquipmentPatch.id data = None → Equipment.id new = Equipment.id old)
  ∧ (EquipmentPatch.name data = None → Equipment.name new = Equipment.name old)
  ∧ (EquipmentPatch.status data = None → Equipment.status new = Equipment.status old)
  ∧ (EquipmentPatch.lastUsed data = None →
     Equipment.lastUsed new = Equipment.lastUsed old)
  ∧ (EquipmentPatch.assignedTo data = None →
     Equipment.assignedTo new = Equipment.assignedTo old)
  ∧ (EquipmentPatch.nextService data = None →
     Equipment.nextService new = Equipment.nextService old)
  ∧ (EquipmentPatch.userId data = None → Equipment.userId new = Equipment.userId old).

Definition contactFrame (data : ContactPatch.t) (old new : Contact.t) : Prop :=
  (ContactPatch.id data = None → Contact.id new = Contact.id old)
  ∧ (ContactPatch.name data = None → Contact.name new = Contact.name old)
  ∧ (ContactPatch.type data = None → Contact.type new = Contact.type old)
  ∧ (ContactPatch.email data = None → Contact.email new = Contact.email old)
  ∧ (ContactPatch.phone data = None → Contact.phone new = Contact.phone old)
  ∧ (ContactPatch.address data = None → Contact.address new = Contact.address old)
  ∧ (ContactPatch.notes data = None → Contact.notes new = Contact.notes old)
  ∧ (ContactPatch.userId data = None → Contact.userId new = Contact.userId old).

Definition userFrame (data : UserPatch.t) (old new : User.t) : Prop :=
  (UserPatch.id data = None → User.id new = User.id old)
  ∧ (UserPatch.username data = None → User.username new = User.username old)
  ∧ (UserPatch.password data = None → User.password new = User.password old)
  ∧ (UserPatch.email data = None → User.email new = User.email old)
  ∧ (UserPatch.name data = None → User.name new = User.name old)
  ∧ (UserPatch.farmName data = None → User.farmName new = User.farmName old)
  ∧ (UserPatch.role data = None → User.role new = User.role old)
  ∧ (UserPatch.profileImage data = None →
     User.profileImage new = User.profileImage old)
  ∧ (UserPatch.language data = None → User.language new = User.language old).

(** The contract of a successful patch of one entity.  In memory: the
    returned record is within the frame of the patch and is the record a get
    of the identifier then finds.  In the relational store: the returned
    record is within the frame of the patch and is a row of the table. *)
Definition patchContract {S R P : Type}
    (get : Z → S → option R) (upd : Z → P → S → option R * S)
    (frame : P → R → R → Prop) : Prop :=
  ∀ id data s old new,
    get id s = Some old →
    (upd id data s).1 = Some new →
    frame data old new ∧ get id (upd id data s).2 = Some new.

Definition rowPatchContract {S R P : Type}
    (get : Z → S → option R) (upd : Z → P → S → option R * S)
    (table : S → Db.table R) (frame : P → R → R → Prop) : Prop :=
  ∀ id data s old new,
    get id s = Some old →
    (upd id data s).1 = Some new →
    frame data old new ∧ new ∈ Db.rows (table (upd id data s).2).

(** ** Sample data *)

(** The constructor's first task and first inventory item, with the fields
    the examples vary. *)
Definition sampleInsertTask (dueDate : Z) (completed : bool) (status : option string)
  : InsertTask.t :=
  {| InsertTask.title := "Harvest tomatoes";
     InsertTask.description := Some "Harvest ripe tomatoes from field 2";
     InsertTask.dueDate := dueDate;
     InsertTask.priority := "high";
     InsertTask.status := status;
     InsertTask.completed := completed;
     InsertTask.assignedTo := "Self";
     InsertTask.userId := 1;
     InsertTask.recurring := None |}.

Definition sampleInsertInventory (quantity threshold : Q) : InsertInventory.t :=
  {| InsertInventory.name := "Tomato Seeds";
     InsertInventory.category := "Seeds";
     InsertInventory.quantity := quantity;
     InsertInventory.unit := "kg";
     InsertInventory.threshold := threshold;
     InsertInventory.userId := 1 |}.

(** 2023-11-01T00:00:00Z, the due date of the constructor's first task. *)
Definition nov1 : Z := dateOnly 19662.

Definition hour : Z := 3600000.

Definition dueDatePatch (dueDate : Z) : TaskPatch.t :=
  {| TaskPatch.id := None;
     TaskPatch.title := None;
     TaskPatch.description := None;
     TaskPatch.dueDate := Some dueDate;
     TaskPatch.priority := None;
     TaskPatch.status := None;
     TaskPatch.completed := None;
     TaskPatch.assignedTo := None;
     TaskPatch.userId := None;
     TaskPatch.recurring := None;
     TaskPatch.createdAt := None |}.

Definition completedPatch (completed : bool) : TaskPatch.t :=
  {| TaskPatch.id := None;
     TaskPatch.title := None;
     TaskPatch.description := None;
     TaskPatch.dueDate := None;
     TaskPatch.priority := None;
     TaskPatch.status := None;
     TaskPatch.completed := Some completed;
     TaskPatch.assignedTo := None;
     TaskPatch.userId := None;
     TaskPatch.recurring := None;
     TaskPatch.createdAt := None |}.

Definition statusPatch (status : string) : TaskPatch.t :=
  {| TaskPatch.id := None;
     TaskPatch.title := None;
     TaskPatch.description := None;
     TaskPatch.dueDate := None;
     TaskPatch.priority := None;
     TaskPatch.status := Some status;
     TaskPatch.completed := None;
     TaskPatch.assignedTo := None;
     TaskPatch.userId := None;
     TaskPatch.recurring := None;
     TaskPatch.createdAt := None |}.

(** The in-memory store at noon UTC on 2023-11-01 holding one open task,
    due the day before. *)
Definition noon : Z := nov1 + 12 * hour.

Definition memWithOverdueTask : MemStorage.t :=
  (MemStorage.createTask 0 noon (sampleInsertTask (dateOnly 19661) false None)
     MemStorage.empty).2.

Definition dbWithOverdueTask : DatabaseStorage.t :=
  (DatabaseStorage.createTask 0 noon (sampleInsertTask (dateOnly 19661) false None)
     DatabaseStorage.empty).2.

(** The stores holding one inventory item, 5 kg against a threshold of 10,
    written at instant 1000. *)
Definition memWithLowItem : MemStorage.t :=
  (MemStorage.createInventoryItem 1000 (sampleInsertInventory 5 10) MemStorage.empty).2.

Definition dbWithLowItem : DatabaseStorage.t :=
  (DatabaseStorage.createInventoryItem 1000 (sampleInsertInventory 5 10)
     DatabaseStorage.empty).2.

(** Three calls on a fresh store: a create whose caller supplies a status,
    a completion, and a move of the due date. *)
Definition sampleCalls : list Trace.op :=
  [Trace.CreateTask noon (sampleInsertTask (dateOnly 19661) false (Some "completed"));
   Trace.UpdateTask noon 1 (completedPatch true);
   Trace.UpdateTask noon 1 (dueDatePatch (dateOnly 19667))].


(** A patch that completes a task and names a creation time. *)
Definition completedAtPatch (createdAt : Z) : TaskPatch.t :=
  {| TaskPatch.id := None;
     TaskPatch.title := None;
     TaskPatch.description := None;
     TaskPatch.dueDate := None;
     TaskPatch.priority := None;
     TaskPatch.status := None;
     TaskPatch.completed := Some true;
     TaskPatch.assignedTo := None;
     TaskPatch.userId := None;
     TaskPatch.recurring := None;
     TaskPatch.createdAt := Some createdAt |}.

(** A create, the delete of what it created, and a second create. *)
Definition createDeleteCreate : list Trace.op :=
  [Trace.CreateTask noon (sampleInsertTask (dateOnly 19661) false None);
   Trace.DeleteTask 1;
   Trace.CreateTask noon (sampleInsertTask (dateOnly 19667) false None)].

Definition quantityPatch (quantity : Q) : InventoryPatch.t :=
  {| InventoryPatch.id := None;
     InventoryPatch.name := None;
     InventoryPatch.category := None;
     InventoryPatch.quantity := Some quantity;
     InventoryPatch.unit := None;
     InventoryPatch.threshold := None;
     InventoryPatch.status := None;
     InventoryPatch.userId := None;
     InventoryPatch.lastUpdated := None |}.

(** ** The client's views of a listing *)

(** [Reports] draws its status charts from the listings it fetched: each
    slice holds the number of listed records with the slice's status.  A
    listing is absent while it loads. *)
Module Reports.

Definition taskStatusData (tasks : option (list Task.t)) : list (string * nat) :=
  match tasks with
  | Some tasks =>
      [("Completed", length (filter (λ t, Task.status t = "completed") tasks));
       ("Overdue", length (filter (λ t, Task.status t = "overdue") tasks));
       ("Today", length (filter (λ t, Task.status t = "today") tasks));
       ("Upcoming", length (filter (λ t, Task.status t = "upcoming") tasks))]
  | None => []
  end.

Definition inventoryStatusData (inventory : option (list Inventory.t))
  : list (string * nat) :=
  match inventory with
  | Some inventory =>
      [("Good Stock", length (filter (λ i, Inventory.status i = "good") inventory));
       ("Low Stock", length (filter (λ i, Inventory.status i = "low") inventory))]
  | None => []
  end.

(** The records a chart accounts for: the sum of its slices. *)
Definition total (data : list (string * nat)) : nat := sum_list data.*2.

End Reports.

(** [Tasks]: the callback that [filteredTasks] hands to [tasks.filter],
    under the filter button [filter].  [search] is the test that the search
    term makes of a task's title and description; it is absent while the
    search box is empty. *)
Module TasksPage.

Definition shown (filter : string) (search : option (Task.t → bool)) (task : Task.t)
  : bool :=
  if bool_decide (filter ≠ "all")
     && ((bool_decide (filter = "completed") && negb (Task.completed task))
         || (bool_decide (filter = "overdue")
             && bool_decide (Task.status task ≠ "overdue"))
         || (bool_decide (filter = "today")
             && bool_decide (Task.status task ≠ "today"))
         || (bool_decide (filter = "upcoming")
             && bool_decide (Task.status task ≠ "upcoming")))
  then false
  else
    match search with
    | Some found => found task
    | None => true
    end.

(** The four status buttons beside "All". *)
Definition statusFilters : list string := ["overdue"; "today"; "upcoming"; "completed"].

End TasksPage.

(** The statuses the storage derives. *)
Definition knownTaskStatus (task : Task.t) : Prop :=
  Task.status task ∈ ["completed"; "overdue"; "today"; "upcoming"].

Definition knownInventoryStatus (item : Inventory.t) : Prop :=
  Inventory.status item ∈ ["low"; "good"].

Definition statusesKnown (s : MemStorage.t) : Prop :=
  map_Forall (λ _ task, knownTaskStatus task) (MemStorage.tasks s)
  ∧ map_Forall (λ _ item, knownInventoryStatus item) (MemStorage.inventoryItems s).

(** A call after which every status is still a derived one: any call but a
    task patch that names [status] and not [completed], or an inventory
    patch that names [status] and neither [quantity] nor [threshold]. *)
Definition derivesStatus (o : Trace.op) : Prop :=
  match o with
  | Trace.UpdateTask _ _ data =>
      is_Some (TaskPatch.completed data) ∨ TaskPatch.status data = None
  | Trace.UpdateInventoryItem _ _ data =>
      is_Some (InventoryPatch.quantity data) ∨ is_Some (InventoryPatch.threshold data)
      ∨ InventoryPatch.status data = None
  | _ => True
  end.


(** ** More sample data *)

(** A patch that sets the status of an inventory item by hand. *)
Definition inventoryStatusPatch (status : string) : InventoryPatch.t :=
  {| InventoryPatch.id := None;
     InventoryPatch.name := None;
     InventoryPatch.category := None;
     InventoryPatch.quantity := None;
     InventoryPatch.unit := None;
     InventoryPatch.threshold := None;
     InventoryPatch.status := Some status;
     InventoryPatch.userId := None;
     InventoryPatch.lastUpdated := None |}.

(** The three sample calls, then a stock status set by hand. *)
Definition callsWithHandSetStock : list Trace.op :=
  (sampleCalls ++ [Trace.UpdateInventoryItem noon 1 (inventoryStatusPatch "plenty")])%list.

(** An equipment item that names no date. *)
Definition sampleInsertEquipment : InsertEquipment.t :=
  {| InsertEquipment.name := "Plough";
     InsertEquipment.status := "available";
     InsertEquipment.lastUsed := None;
     InsertEquipment.assignedTo := None;
     InsertEquipment.nextService := None;
     InsertEquipment.userId := 1 |}.

(** A patch that hands a task over to user [b]. *)
Definition handOverPatch (b : Z) : TaskPatch.t :=
  {| TaskPatch.id := None;
     TaskPatch.title := None;
     TaskPatch.description := None;
     TaskPatch.dueDate := None;
     TaskPatch.priority := None;
     TaskPatch.status := None;
     TaskPatch.completed := None;
     TaskPatch.assignedTo := None;
     TaskPatch.userId := Some b;
     TaskPatch.recurring := None;
     TaskPatch.createdAt := None |}.

(** A second farmer, who registers with the application. *)
Definition secondUser : InsertUser.t :=
  {| InsertUser.username := "maria";
     InsertUser.password := "secret";
     InsertUser.email := "maria@example.com";
     InsertUser.name := "Maria Ncube";
     InsertUser.farmName := "Hillside Farm";
     InsertUser.role := "farmer";
     InsertUser.profileImage := None;
     InsertUser.language := None |}.

(** The second farmer's session: a task of her own, then a patch and a
    delete aimed at the first task of the demo user. *)
Definition secondUserRequests : list (Z * Routes.session * Routes.request) :=
  [(noon, Some 2, Routes.PostTask (Some (sampleInsertTask (dateOnly 19667) false None)));
   (noon, Some 2, Routes.PatchTask 1 (completedPatch true));
   (noon, Some 2, Routes.DeleteTask 1)].

(** A move to Bulawayo, then a switch to imperial units. *)
Definition sampleWeatherCalls : list MemWeather.op :=
  [MemWeather.SetWeatherPreference
     {| InsertWeatherPreference.userId := 1;
        InsertWeatherPreference.location := Some "Bulawayo";
        InsertWeatherPreference.units := None |};
   MemWeather.UpdateWeatherPreference 1
     {| WeatherPreferencePatch.id := None;
        WeatherPreferencePatch.userId := None;
        WeatherPreferencePatch.location := None;
        WeatherPreferencePatch.units := Some "imperial" |}].

(** * Properties *)

(** ** Local midnight and calendar days *)

Section Midnight.
Variables tz now : Z.

Lemma msPerDay_pos : 0 < msPerDay.
Proof. reflexivity. Qed.

(** Local midnight is the start of the local day of [now]. *)
Lemma setHoursZero_localDay :
  setHoursZero tz now = localDay tz now * msPerDay - tz.
Proof.
  unfold setHoursZero, localDay.
  pose proof (Z.div_mod (now + tz) msPerDay) as E.
  assert (msPerDay ≠ 0) as Hne by (unfold msPerDay; lia).
  specialize (E Hne). lia.
Qed.

(** It is at most one day back. *)
Lemma setHoursZero_bounds :
  setHoursZero tz now ≤ now < setHoursZero tz now + msPerDay.
Proof.
  unfold setHoursZero.
  pose proof (Z.mod_pos_bound (now + tz) msPerDay msPerDay_pos). lia.
Qed.

(** An instant is before local midnight exactly when it falls on an earlier
    local day: for this comparison the time of day of either side is
    immaterial. *)
Lemma before_midnight_iff (dueDate : Z) :
  dueDate < setHoursZero tz now ↔ localDay tz dueDate < localDay tz now.
Proof.
  rewrite setHoursZero_localDay. unfold localDay.
  set (d := (now + tz) / msPerDay).
  split; intros H.
  - apply Z.div_lt_upper_bound; [apply msPerDay_pos | lia].
  - destruct (Z_lt_le_dec dueDate (d * msPerDay - tz)) as [|Hge]; [done|].
    exfalso.
    assert (d ≤ (dueDate + tz) / msPerDay); [|lia].
    apply Z.div_le_lower_bound; [apply msPerDay_pos | lia].
Qed.

(** An instant equal to local midnight falls on the local day of [now]; the
    converse needs the instant to be a local midnight itself. *)
Lemma at_midnight_same_day (dueDate : Z) :
  dueDate = setHoursZero tz now → localDay tz dueDate = localDay tz now.
Proof.
  intros ->. rewrite setHoursZero_localDay. unfold localDay.
  replace (((now + tz) / msPerDay) * msPerDay - tz + tz)
    with (((now + tz) / msPerDay) * msPerDay) by lia.
  apply Z.div_mul. unfold msPerDay; lia.
Qed.

Lemma same_day_at_midnight (dueDate : Z) :
  (dueDate + tz) mod msPerDay = 0 →
  localDay tz dueDate = localDay tz now →
  dueDate = setHoursZero tz now.
Proof.
  intros Hmid Hday. rewrite setHoursZero_localDay, <- Hday. unfold localDay.
  pose proof (Z.div_mod (dueDate + tz) msPerDay) as E.
  assert (msPerDay ≠ 0) as Hne by (unfold msPerDay; lia).
  specialize (E Hne). lia.
Qed.

(** The branch on dates, read off by days where the code allows it. *)
Lemma dateStatus_cases (dueDate : Z) :
  dateStatus dueDate (setHoursZero tz now) =
    if localDay tz dueDate <? localDay tz now then "overdue"
    else if dueDate =? setHoursZero tz now then "today"
    else "upcoming".
Proof.
  unfold dateStatus.
  destruct (Z.ltb_spec dueDate (setHoursZero tz now)) as [H|H];
    destruct (Z.ltb_spec (localDay tz dueDate) (localDay tz now)) as [H'|H'];
    try reflexivity.
  - apply before_midnight_iff in H. lia.
  - apply before_midnight_iff in H'. lia.
Qed.

(** For a due date that carries no time of day in the host's local frame,
    the code's rule is the calendar-day rule. *)
Lemma derivedStatus_by_day (completed : bool) (dueDate : Z) :
  (dueDate + tz) mod msPerDay = 0 →
  derivedStatus tz now completed dueDate = statusByCalendarDay tz completed dueDate now.
Proof.
  intros Hmid. unfold derivedStatus, statusByCalendarDay.
  destruct completed; [reflexivity|].
  rewrite dateStatus_cases.
  destruct (localDay tz dueDate <? localDay tz now); [reflexivity|].
  destruct (Z.eqb_spec dueDate (setHoursZero tz now)) as [E|E];
    destruct (Z.eqb_spec (localDay tz dueDate) (localDay tz now)) as [E'|E'];
    try reflexivity.
  - apply at_midnight_same_day in E. contradiction.
  - apply same_day_at_midnight in E'; [contradiction | assumption].
Qed.

End Midnight.

(** The status never reads "completed" off the date branch. *)
Lemma dateStatus_not_completed (dueDate today : Z) :
  dateStatus dueDate today ≠ "completed".
Proof.
  unfold dateStatus.
  destruct (dueDate <? today); [discriminate|].
  destruct (dueDate =? today); discriminate.
Qed.

(** ** Task status at creation *)

(** C1, as amended.  On task creation the stored and returned status is
    "completed" when the completion flag is set, whatever the due date;
    otherwise it is "overdue" when the due date falls on a local calendar
    day before the current one, "today" when the due date is the instant of
    the current day's local midnight, and "upcoming" when it is any later
    instant.  The in-memory backend derives it so whatever status the caller
    supplies; the relational backend does so when the flag is set, when the
    due date is not after local midnight, or when the caller supplies no
    status. *)
Theorem createTask_status (tz now : Z) (insertTask : InsertTask.t) :
  let dueDate := InsertTask.dueDate insertTask in
  let derived :=
    if InsertTask.completed insertTask then "completed"
    else if localDay tz dueDate <? localDay tz now then "overdue"
    else if dueDate =? setHoursZero tz now then "today"
    else "upcoming" in
  (∀ s, ∃ task s',
      MemStorage.createTask tz now insertTask s = (task, s')
      ∧ MemStorage.getTask (Task.id task) s' = Some task
      ∧ Task.status task = derived)
  ∧
  (∀ s,
      InsertTask.completed insertTask = true
      ∨ dueDate ≤ setHoursZero tz now
      ∨ InsertTask.status insertTask = None →
      ∃ task s',
        DatabaseStorage.createTask tz now insertTask s = (Some task, s')
        ∧ task ∈ Db.rows (DatabaseStorage.tasks s')
        ∧ Task.status task = derived).
Proof.
  intros dueDate derived. subst derived. split.
  - intros s. eexists _, _. split; [reflexivity|]. split.
    + unfold MemStorage.getTask. simpl.
      destruct (InsertTask.completed insertTask); simpl; apply lookup_insert_eq.
    + destruct (InsertTask.completed insertTask); simpl; [reflexivity|].
      apply dateStatus_cases.
  - intros s Hcase. eexists _, _. split; [reflexivity|]. split.
    + simpl. apply elem_of_app. right. apply list_elem_of_singleton. reflexivity.
    + simpl. fold dueDate.
      destruct (InsertTask.completed insertTask); [reflexivity|].
      pose proof (dateStatus_cases tz now dueDate) as Hd. unfold dateStatus in Hd.
      destruct (Z.ltb_spec dueDate (setHoursZero tz now)) as [Hlt|Hge].
      { exact Hd. }
      rewrite <- Hd.
      destruct (Z.eqb_spec dueDate (setHoursZero tz now)) as [Heq|Hne]; [reflexivity|].
      destruct Hcase as [Hc | [Hle | Hnone]]; [discriminate | lia |].
      rewrite Hnone. reflexivity.
Qed.

Lemma createTask_status_witness :
  ∃ task s',
    DatabaseStorage.createTask 0 (nov1 + 12 * hour)
      (sampleInsertTask nov1 false None) DatabaseStorage.empty = (Some task, s')
    ∧ task ∈ Db.rows (DatabaseStorage.tasks s')
    ∧ Task.status task = "today".
Proof.
  destruct (createTask_status 0 (nov1 + 12 * hour) (sampleInsertTask nov1 false None))
    as [_ H].
  apply (H DatabaseStorage.empty).
  right; right; reflexivity.
Defined.

(** C1 as stated fails: a due date at 09:00 on the current day, seen at
    noon, is filed as "upcoming", where the rule at calendar-day granularity
    gives "today". *)
Lemma createTask_time_of_day_counts :
  Task.status
    (MemStorage.createTask 0 (nov1 + 12 * hour)
       (sampleInsertTask (nov1 + 9 * hour) false None) MemStorage.empty).1
    = "upcoming"
  ∧ statusByCalendarDay 0 false (nov1 + 9 * hour) (nov1 + 12 * hour) = "today".
Proof. split; vm_compute; reflexivity. Qed.

(** The same on a host two hours east of UTC with a date-only due date:
    [new Date("2023-11-01")] is midnight UTC, two hours past local
    midnight. *)
Example createTask_date_only_east_of_utc :
  Task.status
    (MemStorage.createTask (2 * hour) (nov1 + 10 * hour)
       (sampleInsertTask nov1 false None) MemStorage.empty).1
    = "upcoming"
  ∧ statusByCalendarDay (2 * hour) false nov1 (nov1 + 10 * hour) = "today".
Proof. split; vm_compute; reflexivity. Qed.

(** On a UTC host, a date-only due date gets the calendar-day status from
    the in-memory backend. *)
Lemma createTask_date_only_utc (now day : Z) (insertTask : InsertTask.t)
      (s : MemStorage.t) :
  InsertTask.dueDate insertTask = dateOnly day →
  Task.status (MemStorage.createTask 0 now insertTask s).1
    = statusByCalendarDay 0 (InsertTask.completed insertTask) (dateOnly day) now.
Proof.
  intros Hdue. rewrite <- derivedStatus_by_day.
  - unfold derivedStatus. simpl. rewrite Hdue.
    destruct (InsertTask.completed insertTask); reflexivity.
  - unfold dateOnly. rewrite Z.add_0_r. apply Z.mod_mul. unfold msPerDay; lia.
Qed.

(** The relational backend keeps a caller's status for an open task that is
    due after local midnight. *)
Example db_createTask_keeps_supplied_status :
  Task.status <$>
    (DatabaseStorage.createTask 0 (nov1 + 12 * hour)
       (sampleInsertTask (nov1 + 4 * msPerDay) false (Some "overdue"))
       DatabaseStorage.empty).1
    = Some "overdue".
Proof. vm_compute. reflexivity. Qed.

(** ** Inventory status *)

Lemma lowOrGood_low (quantity threshold : Q) :
  lowOrGood quantity threshold = "low" ↔ (quantity < threshold)%Q.
Proof.
  unfold lowOrGood. destruct (Qlt_le_dec quantity threshold) as [Hlt|Hle].
  - split; [intros _; exact Hlt | reflexivity].
  - split; [discriminate|]. intros Hlt. exfalso. exact (Qlt_not_le _ _ Hlt Hle).
Qed.

Lemma lowOrGood_good (quantity threshold : Q) :
  (threshold <= quantity)%Q → lowOrGood quantity threshold = "good".
Proof.
  intros Hle. unfold lowOrGood.
  destruct (Qlt_le_dec quantity threshold) as [Hlt|_]; [|reflexivity].
  exfalso. exact (Qlt_not_le _ _ Hlt Hle).
Qed.

(** A patch that names the quantity or the threshold leaves a record whose
    status follows from its own, merged, quantity and threshold. *)
Lemma recomputed_status_rule (item : Inventory.t) (data : InventoryPatch.t)
      (updated : Inventory.t) :
  Inventory.quantity updated
    = default (Inventory.quantity item) (InventoryPatch.quantity data) →
  Inventory.threshold updated
    = default (Inventory.threshold item) (InventoryPatch.threshold data) →
  Inventory.status updated
    = lowOrGood (default (Inventory.quantity item) (InventoryPatch.quantity data))
                (default (Inventory.threshold item) (InventoryPatch.threshold data)) →
  lowIffBelowThreshold updated.
Proof.
  intros Hq Ht Hs. unfold lowIffBelowThreshold. rewrite Hq, Ht, Hs.
  split; [apply lowOrGood_low | apply lowOrGood_good].
Qed.

(** Reading the first row back from an update of the table. *)
Lemma head_fmap_Some {A B : Type} (f : A → B) (l : list A) (y : B) :
  head (f <$> l) = Some y → ∃ x, head l = Some x ∧ y = f x.
Proof.
  destruct l as [|x l]; simpl; [discriminate|].
  intros [= <-]. eauto.
Qed.

(** C2.  In both backends [createInventoryItem] returns and stores an item
    that carries the quantity and the threshold it was given, with status
    "low" exactly when that quantity is below that threshold.  An update of
    an existing item that supplies the quantity or the threshold returns and
    stores an item whose quantity and threshold are the supplied ones, or
    the stored ones where the patch leaves one out, with status "low"
    exactly when the merged quantity is below the merged threshold.  At
    equality the status is "good". *)
Theorem inventory_status_low_iff :
  (∀ now insertItem s,
      let out := MemStorage.createInventoryItem now insertItem s in
      MemStorage.getInventoryItem (Inventory.id out.1) out.2 = Some out.1
      ∧ Inventory.quantity out.1 = InsertInventory.quantity insertItem
      ∧ Inventory.threshold out.1 = InsertInventory.threshold insertItem
      ∧ lowIffBelowThreshold out.1)
  ∧ (∀ now id data s old,
      is_Some (InventoryPatch.quantity data) ∨ is_Some (InventoryPatch.threshold data) →
      MemStorage.getInventoryItem id s = Some old →
      let out := MemStorage.updateInventoryItem now id data s in
      ∃ item,
        out.1 = Some item
        ∧ MemStorage.getInventoryItem id out.2 = Some item
        ∧ Inventory.quantity item
          = default (Inventory.quantity old) (InventoryPatch.quantity data)
        ∧ Inventory.threshold item
          = default (Inventory.threshold old) (InventoryPatch.threshold data)
        ∧ lowIffBelowThreshold item)
  ∧ (∀ now insertItem s,
      let out := DatabaseStorage.createInventoryItem now insertItem s in
      ∃ item,
        out.1 = Some item
        ∧ item ∈ Db.rows (DatabaseStorage.inventory out.2)
        ∧ Inventory.quantity item = InsertInventory.quantity insertItem
        ∧ Inventory.threshold item = InsertInventory.threshold insertItem
        ∧ lowIffBelowThreshold item)
  ∧ (∀ now id data s old,
      is_Some (InventoryPatch.quantity data) ∨ is_Some (InventoryPatch.threshold data) →
      DatabaseStorage.getInventoryItem id s = Some old →
      let out := DatabaseStorage.updateInventoryItem now id data s in
      ∃ item,
        out.1 = Some item
        ∧ item ∈ Db.rows (DatabaseStorage.inventory out.2)
        ∧ Inventory.quantity item
          = default (Inventory.quantity old) (InventoryPatch.quantity data)
        ∧ Inventory.threshold item
          = default (Inventory.threshold old) (InventoryPatch.threshold data)
        ∧ lowIffBelowThreshold item)
  ∧ (∀ now id data s item,
      is_Some (InventoryPatch.quantity data) ∨ is_Some (InventoryPatch.threshold data) →
      (MemStorage.updateInventoryItem now id data s).1 = Some item →
      MemStorage.getInventoryItem id (MemStorage.updateInventoryItem now id data s).2
        = Some item
      ∧ lowIffBelowThreshold item)
  ∧ (∀ now id data s item,
      is_Some (InventoryPatch.quantity data) ∨ is_Some (InventoryPatch.threshold data) →
      (DatabaseStorage.updateInventoryItem now id data s).1 = Some item →
      lowIffBelowThreshold item).
Proof.
  split; [|split; [|split; [|split; [|split]]]].
  - intros now insertItem s. simpl. split; [apply lookup_insert_eq|].
    split; [reflexivity|]. split; [reflexivity|].
    split; [apply lowOrGood_low | apply lowOrGood_good].
  - intros now id data s old Hsupplied Hget. unfold MemStorage.updateInventoryItem.
    rewrite Hget, bool_decide_eq_true_2 by assumption. simpl.
    eexists. split; [reflexivity|]. split; [apply lookup_insert_eq|].
    split; [reflexivity|]. split; [reflexivity|].
    by apply (recomputed_status_rule old data).
  - intros now insertItem s. simpl. eexists. split; [reflexivity|].
    split; [apply elem_of_app; right; apply list_elem_of_here|].
    split; [reflexivity|]. split; [reflexivity|].
    split; [apply lowOrGood_low | apply lowOrGood_good].
  - intros now id data s old Hsupplied Hget.
    unfold DatabaseStorage.updateInventoryItem. rewrite Hget.
    rewrite bool_decide_eq_true_2 by assumption.
    unfold DatabaseStorage.getInventoryItem in Hget. simpl.
    destruct (Db.selectById Inventory.id id (DatabaseStorage.inventory s))
      as [|x l] eqn:Hsel; [discriminate|].
    injection Hget as ->. rewrite fmap_cons. simpl.
    eexists. split; [reflexivity|]. split.
    { apply list_elem_of_fmap. exists old.
      assert (old ∈ Db.selectById Inventory.id id (DatabaseStorage.inventory s)) as Hin
        by (rewrite Hsel; apply list_elem_of_here).
      apply list_elem_of_filter in Hin as [Hid Hin].
      split; [|exact Hin]. by rewrite decide_True. }
    split; [reflexivity|]. split; [reflexivity|].
    by apply (recomputed_status_rule old data).
  - intros now id data s item Hsupplied. unfold MemStorage.updateInventoryItem.
    destruct (MemStorage.getInventoryItem id s) as [item0|]; [|discriminate].
    rewrite bool_decide_eq_true_2 by assumption.
    simpl. intros [= <-]. split; [apply lookup_insert_eq|].
    by apply (recomputed_status_rule item0 data).
  - intros now id data s item Hsupplied.
    unfold DatabaseStorage.updateInventoryItem, DatabaseStorage.getInventoryItem.
    destruct (head _) as [item0|] eqn:Hhead; [|discriminate].
    rewrite bool_decide_eq_true_2 by assumption.
    simpl. intros Hret. apply head_fmap_Some in Hret as (x & Hx & ->).
    rewrite Hhead in Hx. injection Hx as <-.
    by apply (recomputed_status_rule item0 data).
Qed.

Lemma inventory_status_low_iff_witness :
  ∃ item,
    (MemStorage.updateInventoryItem 2000 1 (quantityPatch 12) memWithLowItem).1 = Some item
    ∧ MemStorage.getInventoryItem 1
        (MemStorage.updateInventoryItem 2000 1 (quantityPatch 12) memWithLowItem).2
      = Some item
    ∧ Inventory.quantity item = 12%Q
    ∧ Inventory.threshold item = 10%Q
    ∧ Inventory.status item = "good".
Proof.
  destruct inventory_status_low_iff as (_ & Hupdate & _).
  destruct (Hupdate 2000 1 (quantityPatch 12) memWithLowItem
              (MemStorage.createInventoryItem 1000 (sampleInsertInventory 5 10)
                 MemStorage.empty).1)
    as (item & Hret & Hstored & Hq & Ht & _ & Hgood).
  - left. eexists. reflexivity.
  - vm_compute. reflexivity.
  - exists item. split; [exact Hret|]. split; [exact Hstored|].
    split; [exact Hq|]. split; [exact Ht|].
    apply Hgood. rewrite Hq, Ht. vm_compute. discriminate.
Defined.

(** The scenarios of the specification: 5 against 10 is low, patched to 12
    it is good, and 10 against 10 is good. *)
Example inventory_scenarios :
  Inventory.status (MemStorage.createInventoryItem 1000 (sampleInsertInventory 5 10)
                      MemStorage.empty).1 = "low"
  ∧ Inventory.status <$>
      (MemStorage.updateInventoryItem 2000 1 (quantityPatch 12) memWithLowItem).1
    = Some "good"
  ∧ Inventory.status <$>
      (DatabaseStorage.updateInventoryItem 2000 1 (quantityPatch 12) dbWithLowItem).1
    = Some "good"
  ∧ Inventory.status (MemStorage.createInventoryItem 1000 (sampleInsertInventory 10 10)
                        MemStorage.empty).1 = "good".
Proof. repeat split; vm_compute; reflexivity. Qed.

(** ** Task status on update *)






(** The relational backend does the same. *)
Example db_updateTask_dueDate_only_keeps_status :
  Task.status <$>
    (DatabaseStorage.updateTask 0 noon 1 (dueDatePatch (dateOnly 19667))
       dbWithOverdueTask).1
  = Some "overdue".
Proof. vm_compute. reflexivity. Qed.

(** The scenario of the specification: due yesterday and open is overdue;
    patched to completed it is completed. *)
Example task_scenario :
  Task.status
    (MemStorage.createTask 0 noon (sampleInsertTask (dateOnly 19661) false None)
       MemStorage.empty).1 = "overdue"
  ∧ Task.status <$>
      (MemStorage.updateTask 0 noon 1 (completedPatch true) memWithOverdueTask).1
    = Some "completed"
  ∧ Task.status <$>
      (DatabaseStorage.updateTask 0 noon 1 (completedPatch true) dbWithOverdueTask).1
    = Some "completed".
Proof. repeat split; vm_compute; reflexivity. Qed.

(** ** The completed status and the completion flag *)

Section CompletedInvariant.
Variable tz : Z.

Lemma created_task_agrees (now : Z) (insertTask : InsertTask.t) (s : MemStorage.t) :
  completedIffFlag (MemStorage.createTask tz now insertTask s).1.
Proof.
  unfold completedIffFlag. simpl.
  destruct (InsertTask.completed insertTask); simpl; [done|].
  split; [|discriminate]. intros H. by apply dateStatus_not_completed in H.
Qed.

Lemma updated_task_agrees (now id : Z) (data : TaskPatch.t) (s : MemStorage.t)
      (task updated : Task.t) :
  is_Some (TaskPatch.completed data) ∨ TaskPatch.status data = None →
  MemStorage.getTask id s = Some task →
  completedIffFlag task →
  (MemStorage.updateTask tz now id data s).1 = Some updated →
  completedIffFlag updated.
Proof.
  intros Hguard Hget Hold. unfold MemStorage.updateTask. rewrite Hget.
  simpl. intros [= <-]. unfold completedIffFlag in *.
  destruct (TaskPatch.completed data) as [[|]|] eqn:E; simpl; rewrite E; simpl.
  - done.
  - split; [|discriminate]. intros H. by apply dateStatus_not_completed in H.
  - destruct Hguard as [[c Hc]|Hnone]; [discriminate|].
    rewrite Hnone. exact Hold.
Qed.

Lemma step_preserves_agreement (o : Trace.op) (s : MemStorage.t) :
  Trace.statusFollowsCompleted o → tasksAgree s → tasksAgree (Trace.step tz o s).1.
Proof.
  intros Hguard Hs. unfold tasksAgree in *.
  destruct o; simpl in *; try exact Hs.
  - unfold MemStorage.updateUser. by destruct (MemStorage.getUser id s).
  - destruct (InsertTask.completed insertTask) eqn:Hc; simpl;
      (apply map_Forall_insert_2; [|exact Hs]);
      pose proof (created_task_agrees now insertTask s) as Hnew;
      simpl in Hnew; rewrite Hc in Hnew; exact Hnew.
  - destruct (MemStorage.getTask id s) as [task|] eqn:Hget.
    + destruct (MemStorage.updateTask tz now id data s) as [r s'] eqn:Hup.
      pose proof (updated_task_agrees now id data s task) as Hnew.
      unfold MemStorage.updateTask in Hup, Hnew. rewrite Hget in Hup, Hnew.
      injection Hup as <- <-. simpl.
      apply map_Forall_insert_2; [|exact Hs].
      apply Hnew; [exact Hguard | reflexivity | | reflexivity].
      exact (Hs id task Hget).
    + unfold MemStorage.updateTask. rewrite Hget. exact Hs.
  - by apply map_Forall_delete.
  - unfold MemStorage.updateInventoryItem.
    by destruct (MemStorage.getInventoryItem id s).
  - unfold MemStorage.updateEquipmentItem.
    by destruct (MemStorage.getEquipmentItem id s).
  - unfold MemStorage.updateContact. by destruct (MemStorage.getContact id s).
Qed.

Lemma run_preserves_agreement (ops : list Trace.op) (s : MemStorage.t) :
  Forall Trace.statusFollowsCompleted ops →
  tasksAgree s → tasksAgree (Trace.run tz ops s).1.
Proof.
  intros Hops. revert s. induction Hops as [|o ops Ho _ IH]; intros s Hs; [exact Hs|].
  simpl. pose proof (step_preserves_agreement o s Ho Hs) as H1.
  destruct (Trace.step tz o s) as [s1 e]. specialize (IH s1 H1).
  destruct (Trace.run tz ops s1) as [s2 log]. exact IH.
Qed.

End CompletedInvariant.

(** In the relational backend a create agrees unless it is the one create
    that keeps a supplied "completed" on an open task. *)
Lemma db_created_row_agrees (tz now : Z) (insertTask : InsertTask.t)
      (s : DatabaseStorage.t) (task : Task.t) :
  ¬ DbTrace.suppliesCompletedToOpenTask tz now insertTask →
  (DatabaseStorage.createTask tz now insertTask s).1 = Some task →
  completedIffFlag task.
Proof.
  intros Hnot. simpl. intros [= <-].
  unfold completedIffFlag. simpl.
  destruct (InsertTask.completed insertTask) eqn:Hc; [done|].
  split; [|discriminate].
  destruct (Z.ltb_spec (InsertTask.dueDate insertTask) (setHoursZero tz now)) as [Hlt|Hge];
    [discriminate|].
  destruct (Z.eqb_spec (InsertTask.dueDate insertTask) (setHoursZero tz now)) as [Heq|Hne];
    [discriminate|].
  intros Hstatus. exfalso. apply Hnot. split; [exact Hc|]. split; [lia|].
  revert Hstatus. unfold orUpcoming.
  destruct (InsertTask.status insertTask) as [st|]; [|discriminate].
  destruct st; [discriminate|]. by intros ->.
Qed.

Lemma db_created_task_agrees (tz now : Z) (insertTask : InsertTask.t)
      (s : DatabaseStorage.t) (task : Task.t) :
  ¬ DbTrace.suppliesCompletedToOpenTask tz now insertTask →
  task ∈ Db.rows (DatabaseStorage.tasks (DatabaseStorage.createTask tz now insertTask s).2) →
  task ∈ Db.rows (DatabaseStorage.tasks s) ∨ completedIffFlag task.
Proof.
  intros Hnot Hin. simpl in Hin. apply elem_of_app in Hin as [Hin|Hin]; [by left|].
  right. apply list_elem_of_singleton in Hin as ->.
  by apply (db_created_row_agrees tz now insertTask s).
Qed.

Lemma db_updated_rows_agree (tz now id : Z) (data : TaskPatch.t) (s : DatabaseStorage.t) :
  is_Some (TaskPatch.completed data) ∨ TaskPatch.status data = None →
  Forall completedIffFlag (Db.rows (DatabaseStorage.tasks s)) →
  Forall completedIffFlag
    (Db.rows (DatabaseStorage.tasks (DatabaseStorage.updateTask tz now id data s).2)).
Proof.
  intros Hguard Hall. unfold DatabaseStorage.updateTask.
  destruct (DatabaseStorage.getTask id s) as [task|]; [|exact Hall].
  simpl. apply Forall_fmap. eapply Forall_impl; [exact Hall|].
  intros r Hr. simpl. destruct (decide (Task.id r = id)); [|exact Hr].
  unfold completedIffFlag in *.
  destruct (TaskPatch.completed data) as [[|]|] eqn:E; simpl; rewrite ?E; simpl.
  - done.
  - split; [|discriminate]. intros H. by apply dateStatus_not_completed in H.
  - destruct Hguard as [[c Hc]|Hnone]; [discriminate|]. rewrite Hnone. exact Hr.
Qed.

Lemma db_step_preserves_agreement (tz : Z) (o : Trace.op) (s : DatabaseStorage.t) :
  DbTrace.statusFollowsCompleted tz o →
  Forall completedIffFlag (Db.rows (DatabaseStorage.tasks s)) →
  Forall completedIffFlag (Db.rows (DatabaseStorage.tasks (DbTrace.step tz o s))).
Proof.
  intros Hguard Hall.
  destruct o; simpl in Hguard; try exact Hall.
  - apply Forall_forall. intros task Hin.
    destruct (db_created_task_agrees tz now insertTask s task Hguard Hin) as [Hold|Hnew];
      [|exact Hnew].
    rewrite Forall_forall in Hall. by apply Hall.
  - by apply db_updated_rows_agree.
  - simpl. apply Forall_forall. intros task Hin.
    apply list_elem_of_filter in Hin as [_ Hin].
    rewrite Forall_forall in Hall. by apply Hall.
  - simpl. unfold DatabaseStorage.updateInventoryItem.
    by destruct (DatabaseStorage.getInventoryItem id s).
Qed.

Lemma db_run_preserves_agreement (tz : Z) (ops : list Trace.op) (s : DatabaseStorage.t) :
  Forall (DbTrace.statusFollowsCompleted tz) ops →
  Forall completedIffFlag (Db.rows (DatabaseStorage.tasks s)) →
  Forall completedIffFlag (Db.rows (DatabaseStorage.tasks (DbTrace.run tz ops s))).
Proof.
  intros Hops. revert s. unfold DbTrace.run.
  induction Hops as [|o ops Ho _ IH]; intros s Hs; [exact Hs|].
  simpl. apply IH. by apply db_step_preserves_agreement.
Qed.

(** C4, as amended.  In the in-memory backend, every task stored after any
    sequence of facade calls in which each [updateTask] patch that names
    [status] also names [completed] has status "completed" exactly when its
    completion flag is set.  In the relational backend the same holds of
    every row of the task table after any such sequence in which, besides,
    no [createTask] supplies the status "completed" for an open task that is
    due after the local midnight of the call; a single [createTask] returns
    a task with the property unless it is such a create, and a single
    [updateTask] whose patch names [completed] returns one.  The sequences
    start from the empty store, or from any store that has the property. *)
Theorem completed_iff_flag (tz : Z) :
  (∀ ops id task,
      Forall Trace.statusFollowsCompleted ops →
      MemStorage.getTask id (Trace.run tz ops MemStorage.empty).1 = Some task →
      completedIffFlag task)
  ∧ (∀ ops task,
      Forall (DbTrace.statusFollowsCompleted tz) ops →
      task ∈ Db.rows (DatabaseStorage.tasks (DbTrace.run tz ops DatabaseStorage.empty)) →
      completedIffFlag task)
  ∧ (∀ s ops,
      Forall Trace.statusFollowsCompleted ops →
      tasksAgree s → tasksAgree (Trace.run tz ops s).1)
  ∧ (∀ s ops,
      Forall (DbTrace.statusFollowsCompleted tz) ops →
      Forall completedIffFlag (Db.rows (DatabaseStorage.tasks s)) →
      Forall completedIffFlag (Db.rows (DatabaseStorage.tasks (DbTrace.run tz ops s))))
  ∧ (∀ now insertTask s task,
      ¬ DbTrace.suppliesCompletedToOpenTask tz now insertTask →
      (DatabaseStorage.createTask tz now insertTask s).1 = Some task →
      completedIffFlag task)
  ∧ (∀ now id data s task,
      is_Some (TaskPatch.completed data) →
      (DatabaseStorage.updateTask tz now id data s).1 = Some task →
      completedIffFlag task).
Proof.
  split; [|split; [|split; [|split; [|split]]]].
  - intros ops id task Hops Hget.
    assert (tasksAgree (Trace.run tz ops MemStorage.empty).1) as Hall.
    { apply run_preserves_agreement; [exact Hops|]. apply map_Forall_empty. }
    exact (Hall id task Hget).
  - intros ops task Hops Hin.
    assert (Forall completedIffFlag
              (Db.rows (DatabaseStorage.tasks (DbTrace.run tz ops DatabaseStorage.empty))))
      as Hall by (apply db_run_preserves_agreement; [exact Hops | constructor]).
    rewrite Forall_forall in Hall. by apply Hall.
  - intros s ops Hops Hs. by apply run_preserves_agreement.
  - intros s ops Hops Hs. by apply db_run_preserves_agreement.
  - intros now insertTask s task. apply db_created_row_agrees.
  - intros now id data s task [c Hc]. unfold DatabaseStorage.updateTask.
    destruct (DatabaseStorage.getTask id s) as [task0|]; [|discriminate].
    simpl. intros Hret. apply head_fmap_Some in Hret as (x & _ & ->).
    unfold completedIffFlag. rewrite Hc. destruct c; simpl; rewrite Hc; simpl.
    + done.
    + split; [|discriminate]. intros H. by apply dateStatus_not_completed in H.
Qed.

Lemma completed_iff_flag_witness :
  (∃ task,
      MemStorage.getTask 1 (Trace.run 0 sampleCalls MemStorage.empty).1 = Some task
      ∧ completedIffFlag task)
  ∧ (∃ task,
      DatabaseStorage.getTask 1 (DbTrace.run 0 sampleCalls DatabaseStorage.empty)
      = Some task
      ∧ completedIffFlag task).
Proof.
  destruct (completed_iff_flag 0) as (Hmem & Hdb & _).
  split.
  - eexists. split; [vm_compute; reflexivity|].
    apply (Hmem sampleCalls 1); [|vm_compute; reflexivity].
    unfold sampleCalls.
    constructor; [exact I|].
    constructor; [left; by eexists|].
    constructor; [right; reflexivity|].
    constructor.
  - eexists. split; [vm_compute; reflexivity|].
    apply (Hdb sampleCalls).
    + unfold sampleCalls.
      constructor; [intros (_ & Hdue & _); vm_compute in Hdue; discriminate|].
      constructor; [left; by eexists|].
      constructor; [right; reflexivity|].
      constructor.
    + vm_compute. apply list_elem_of_here.
Defined.

(** C4 as stated fails: a patch that names only [status] stores the status
    "completed" on a task whose completion flag is unset. *)
Lemma updateTask_status_patch_breaks_invariant :
  ∃ stored,
    MemStorage.getTask 1
      (MemStorage.updateTask 0 noon 1 (statusPatch "completed") memWithOverdueTask).2
      = Some stored
    ∧ Task.status stored = "completed"
    ∧ Task.completed stored = false.
Proof. eexists. repeat split; vm_compute; reflexivity. Qed.

(** The relational backend stores a supplied "completed" on creating an
    open task that is due after local midnight. *)
Example db_createTask_supplied_completed :
  (λ task, (Task.status task, Task.completed task)) <$>
    (DatabaseStorage.createTask 0 noon
       (sampleInsertTask (dateOnly 19667) false (Some "completed"))
       DatabaseStorage.empty).1
  = Some ("completed", false).
Proof. vm_compute. reflexivity. Qed.

(** In the relational backend too, a patch that names only [status] stores
    "completed" on a task whose completion flag is unset. *)
Example db_updateTask_status_patch_breaks_invariant :
  (λ task, (Task.status task, Task.completed task)) <$>
    DatabaseStorage.getTask 1
      (DatabaseStorage.updateTask 0 noon 1 (statusPatch "completed") dbWithOverdueTask).2
  = Some ("completed", false).
Proof. vm_compute. reflexivity. Qed.

(** A supplied "completed" is overwritten when the open task is due before
    or at local midnight, and is right when the flag is set. *)
Example db_createTask_supplied_completed_overwritten :
  (λ insertTask,
     Task.status <$>
       (DatabaseStorage.createTask 0 noon insertTask DatabaseStorage.empty).1)
    <$> [sampleInsertTask (dateOnly 19661) false (Some "completed");
         sampleInsertTask nov1 false (Some "completed");
         sampleInsertTask (dateOnly 19667) true (Some "completed")]
  = [Some "overdue"; Some "today"; Some "completed"].
Proof. vm_compute. reflexivity. Qed.

(** ** The constructed store *)

(** Built at noon UTC on 2023-11-01, the demo tasks get the statuses their
    literals claim, the first inventory item is low and the others good, and
    the counters stand past the records created. *)
Example constructor_statuses :
  let s := MemStorage.constructor 0 noon in
  (Task.status <$> MemStorage.getTask 1 s = Some "today"
   ∧ Task.status <$> MemStorage.getTask 2 s = Some "overdue"
   ∧ Task.status <$> MemStorage.getTask 3 s = Some "upcoming"
   ∧ Task.status <$> MemStorage.getTask 4 s = Some "completed")
  ∧ (Inventory.status <$> MemStorage.getInventoryItem 1 s = Some "low"
     ∧ Inventory.status <$> MemStorage.getInventoryItem 2 s = Some "good"
     ∧ Inventory.status <$> MemStorage.getInventoryItem 3 s = Some "good"
     ∧ Inventory.status <$> MemStorage.getInventoryItem 4 s = Some "good")
  ∧ (MemStorage.userIdCounter s = 2 ∧ MemStorage.taskIdCounter s = 5
     ∧ MemStorage.inventoryIdCounter s = 5 ∧ MemStorage.equipmentIdCounter s = 4).
Proof. repeat split; vm_compute; reflexivity. Qed.

(** Two hours east of UTC the first demo task is never "today": on its own
    day it is "upcoming", the day after it is "overdue". *)
Example constructor_east_of_utc :
  Task.status <$> MemStorage.getTask 1 (MemStorage.constructor (2 * hour) noon)
    = Some "upcoming"
  ∧ Task.status <$>
      MemStorage.getTask 1 (MemStorage.constructor (2 * hour) (noon + msPerDay))
    = Some "overdue".
Proof. split; vm_compute; reflexivity. Qed.

(** Whenever it is built, the constructed store satisfies the invariant of
    the data model, and keeps it through the calls that keep it at all. *)
Lemma constructor_agrees (tz now : Z) : tasksAgree (MemStorage.constructor tz now).
Proof.
  unfold tasksAgree, MemStorage.constructor. simpl.
  repeat (apply map_Forall_insert_2;
          [split; simpl;
           [intros H; try reflexivity; by apply dateStatus_not_completed in H
           | done || discriminate]|]).
  apply map_Forall_empty.
Qed.

Lemma constructed_store_agrees (tz now : Z) (ops : list Trace.op) :
  Forall Trace.statusFollowsCompleted ops →
  tasksAgree (Trace.run tz ops (MemStorage.constructor tz now)).1.
Proof.
  intros Hops. apply run_preserves_agreement; [exact Hops|]. apply constructor_agrees.
Qed.

(** ** Patching a record that does not exist *)

Section Tables.
Context {R : Type} (rid : R → Z).

Lemma selectById_nil_Forall (id : Z) (l : list R) :
  filter (λ r, rid r = id) l = [] → Forall (λ r, rid r ≠ id) l.
Proof.
  induction l as [|r l IH]; intros H; [constructor|].
  rewrite filter_cons in H. destruct (decide (rid r = id)); [discriminate|].
  constructor; auto.
Qed.

(** An [UPDATE] whose [WHERE] matches no row returns no row and leaves the
    table as it is. *)
Lemma update_absent (set : R → R) (id : Z) (tb : Db.table R) :
  Db.selectById rid id tb = [] → Db.update rid set id tb = ([], tb).
Proof.
  destruct tb as [rows serial]. unfold Db.update, Db.selectById. simpl.
  intros H. rewrite H. simpl. do 2 f_equal.
  apply selectById_nil_Forall in H.
  induction H as [|r l Hr _ IH]; [reflexivity|].
  rewrite fmap_cons, IH. by destruct (decide (rid r = id)).
Qed.

Lemma head_selectById_None (id : Z) (tb : Db.table R) :
  head (Db.selectById rid id tb) = None → Db.selectById rid id tb = [].
Proof. by destruct (Db.selectById rid id tb). Qed.

(** A [DELETE] removes every row its [WHERE] matches. *)
Lemma selectById_delete (id : Z) (tb : Db.table R) :
  Db.selectById rid id (Db.delete rid id tb).2 = [].
Proof.
  destruct tb as [rows serial]. unfold Db.delete, Db.selectById. simpl.
  induction rows as [|r l IH]; [reflexivity|].
  rewrite (filter_cons (λ r, rid r ≠ id)).
  destruct (decide (rid r ≠ id)) as [Hne|Heq]; [|exact IH].
  rewrite filter_cons. destruct (decide (rid r = id)); [contradiction|exact IH].
Qed.

Lemma delete_absent (id : Z) (tb : Db.table R) :
  Db.selectById rid id tb = [] → Db.delete rid id tb = (0, tb).
Proof.
  destruct tb as [rows serial]. unfold Db.delete, Db.selectById. simpl.
  intros H. rewrite H. simpl. do 2 f_equal.
  apply selectById_nil_Forall in H.
  induction H as [|r l Hr _ IH]; [reflexivity|].
  rewrite filter_cons. destruct (decide (rid r ≠ id)); [by rewrite IH | contradiction].
Qed.

End Tables.

(** C5.  A patch of an identifier that names no record returns the absent
    value and leaves the store as it was, for tasks, inventory items,
    equipment items, contacts and users, in both backends.  (The operations
    are total functions of the store: none of them raises.) *)
Theorem update_missing_returns_absent (tz now id : Z) :
  (∀ s data, MemStorage.getTask id s = None →
     MemStorage.updateTask tz now id data s = (None, s))
  ∧ (∀ s data, MemStorage.getInventoryItem id s = None →
     MemStorage.updateInventoryItem now id data s = (None, s))
  ∧ (∀ s data, MemStorage.getEquipmentItem id s = None →
     MemStorage.updateEquipmentItem id data s = (None, s))
  ∧ (∀ s data, MemStorage.getContact id s = None →
     MemStorage.updateContact id data s = (None, s))
  ∧ (∀ s data, MemStorage.getUser id s = None →
     MemStorage.updateUser id data s = (None, s))
  ∧ (∀ s data, DatabaseStorage.getTask id s = None →
     DatabaseStorage.updateTask tz now id data s = (None, s))
  ∧ (∀ s data, DatabaseStorage.getInventoryItem id s = None →
     DatabaseStorage.updateInventoryItem now id data s = (None, s))
  ∧ (∀ s data, DatabaseStorage.getEquipmentItem id s = None →
     DatabaseStorage.updateEquipmentItem id data s = (None, s))
  ∧ (∀ s data, DatabaseStorage.getContact id s = None →
     DatabaseStorage.updateContact id data s = (None, s))
  ∧ (∀ s data, DatabaseStorage.getUser id s = None →
     DatabaseStorage.updateUser id data s = (None, s)).
Proof.
  repeat apply conj; intros s data Hget.
  - unfold MemStorage.updateTask. by rewrite Hget.
  - unfold MemStorage.updateInventoryItem. by rewrite Hget.
  - unfold MemStorage.updateEquipmentItem. by rewrite Hget.
  - unfold MemStorage.updateContact. by rewrite Hget.
  - unfold MemStorage.updateUser. by rewrite Hget.
  - unfold DatabaseStorage.updateTask. by rewrite Hget.
  - unfold DatabaseStorage.updateInventoryItem. by rewrite Hget.
  - unfold DatabaseStorage.updateEquipmentItem.
    rewrite update_absent by (by apply head_selectById_None). by destruct s.
  - unfold DatabaseStorage.updateContact.
    rewrite update_absent by (by apply head_selectById_None). by destruct s.
  - unfold DatabaseStorage.updateUser.
    rewrite update_absent by (by apply head_selectById_None). by destruct s.
Qed.

Lemma update_missing_returns_absent_witness :
  MemStorage.updateTask 0 noon 7 (completedPatch true) memWithOverdueTask
  = (None, memWithOverdueTask).
Proof.
  destruct (update_missing_returns_absent 0 noon 7) as [H _].
  apply H. vm_compute. reflexivity.
Defined.

(** ** Deleting *)

(** [Map.prototype.delete] on one of the maps of the in-memory store. *)
Lemma map_delete_contract {R : Type} (m : gmap Z R) (id : Z) :
  (bool_decide (is_Some (m !! id)) = true ↔ is_Some (m !! id))
  ∧ delete id m !! id = None
  ∧ (m !! id = None → bool_decide (is_Some (m !! id)) = false ∧ delete id m = m).
Proof.
  split; [apply bool_decide_eq_true|]. split; [apply lookup_delete_eq|].
  intros Hnone. split; [|by apply delete_id].
  apply bool_decide_eq_false. rewrite Hnone. by intros [x Hx].
Qed.

(** [result.count > 0] on a table of the relational store. *)
Lemma table_delete_contract {R : Type} (rid : R → Z) (tb : Db.table R) (id : Z) :
  ((0 <? (Db.delete rid id tb).1) = true ↔ is_Some (head (Db.selectById rid id tb)))
  ∧ head (Db.selectById rid id (Db.delete rid id tb).2) = None
  ∧ (head (Db.selectById rid id tb) = None → Db.delete rid id tb = (0, tb)).
Proof.
  split; [|split].
  - unfold Db.delete. simpl. rewrite Z.ltb_lt, head_is_Some.
    destruct (Db.selectById rid id tb); simpl; split; (done || lia).
  - by rewrite selectById_delete.
  - intros H. by apply delete_absent, head_selectById_None.
Qed.

Ltac mem_delete del m :=
  intros id s; destruct (map_delete_contract (m s) id) as (Htrue & Hgone & Habsent);
  split; [exact Htrue|]; split; [intros _; exact Hgone|];
  intros Hnone; destruct (Habsent Hnone) as [Hfalse Hsame];
  unfold del; destruct s; simpl in *; by rewrite Hfalse, Hsame.

Ltac db_delete del rid tbl :=
  intros id s; destruct (table_delete_contract rid (tbl s) id) as (Htrue & Hgone & Habsent);
  split; [exact Htrue|]; split; [intros _; exact Hgone|];
  intros Hnone; unfold del; rewrite (Habsent Hnone); by destruct s.

(** C6.  Each delete answers [true] exactly when a record with that
    identifier existed, and the record is then gone: a get that follows
    finds nothing.  Deleting an identifier that names no record answers
    [false], leaves the store as it was, and raises nothing.  This holds for
    tasks, inventory items, equipment items and contacts, in both
    backends. *)
Theorem delete_contract :
  deleteContract MemStorage.getTask MemStorage.deleteTask
  ∧ deleteContract MemStorage.getInventoryItem MemStorage.deleteInventoryItem
  ∧ deleteContract MemStorage.getEquipmentItem MemStorage.deleteEquipmentItem
  ∧ deleteContract MemStorage.getContact MemStorage.deleteContact
  ∧ deleteContract DatabaseStorage.getTask DatabaseStorage.deleteTask
  ∧ deleteContract DatabaseStorage.getInventoryItem DatabaseStorage.deleteInventoryItem
  ∧ deleteContract DatabaseStorage.getEquipmentItem DatabaseStorage.deleteEquipmentItem
  ∧ deleteContract DatabaseStorage.getContact DatabaseStorage.deleteContact.
Proof.
  repeat apply conj.
  - mem_delete MemStorage.deleteTask MemStorage.tasks.
  - mem_delete MemStorage.deleteInventoryItem MemStorage.inventoryItems.
  - mem_delete MemStorage.deleteEquipmentItem MemStorage.equipmentItems.
  - mem_delete MemStorage.deleteContact MemStorage.contactItems.
  - db_delete DatabaseStorage.deleteTask Task.id DatabaseStorage.tasks.
  - db_delete DatabaseStorage.deleteInventoryItem Inventory.id DatabaseStorage.inventory.
  - db_delete DatabaseStorage.deleteEquipmentItem Equipment.id DatabaseStorage.equipment.
  - db_delete DatabaseStorage.deleteContact Contact.id DatabaseStorage.contacts.
Qed.

Lemma delete_contract_witness :
  (MemStorage.deleteTask 1 memWithOverdueTask).1 = true
  ∧ MemStorage.getTask 1 (MemStorage.deleteTask 1 memWithOverdueTask).2 = None
  ∧ MemStorage.deleteTask 7 memWithOverdueTask = (false, memWithOverdueTask).
Proof.
  destruct delete_contract as [H _].
  destruct (H 1 memWithOverdueTask) as (Htrue & Hgone & _).
  destruct (H 7 memWithOverdueTask) as (_ & _ & Habsent).
  assert ((MemStorage.deleteTask 1 memWithOverdueTask).1 = true) as Hdel.
  { apply Htrue. eexists. vm_compute. reflexivity. }
  split; [exact Hdel|]. split; [exact (Hgone Hdel)|].
  apply Habsent. vm_compute. reflexivity.
Defined.

(** ** Patching a task with its own fields *)

(** What [createTask] stores is up to date on the day it is created, and so
    is what an [updateTask] that names [completed] returns. *)
Lemma created_task_up_to_date (tz now : Z) (insertTask : InsertTask.t)
      (s : MemStorage.t) :
  statusUpToDate tz now (MemStorage.createTask tz now insertTask s).1.
Proof.
  unfold statusUpToDate, derivedStatus. simpl.
  by destruct (InsertTask.completed insertTask).
Qed.




(** ** The last-updated stamp *)

(** In memory every creation and every successful update of an inventory
    item stamps it with the time of the call, whatever the patch holds; the
    relational backend stamps it on creation. *)
Lemma lastUpdated_stamped (now : Z) :
  (∀ insertItem s,
      Inventory.lastUpdated (MemStorage.createInventoryItem now insertItem s).1 = now)
  ∧ (∀ id data s item,
      (MemStorage.updateInventoryItem now id data s).1 = Some item →
      Inventory.lastUpdated item = now)
  ∧ (∀ insertItem s,
      Inventory.lastUpdated <$> (DatabaseStorage.createInventoryItem now insertItem s).1
      = Some now).
Proof.
  split; [|split].
  - reflexivity.
  - intros id data s item. unfold MemStorage.updateInventoryItem.
    destruct (MemStorage.getInventoryItem id s) as [item0|]; [|discriminate].
    simpl. intros [= <-].
    by destruct (bool_decide _).
  - reflexivity.
Qed.

(** An update through the relational backend changes the stamp only if the
    patch itself names it. *)
Lemma db_update_lastUpdated (now id : Z) (data : InventoryPatch.t)
      (s : DatabaseStorage.t) (old new : Inventory.t) :
  DatabaseStorage.getInventoryItem id s = Some old →
  (DatabaseStorage.updateInventoryItem now id data s).1 = Some new →
  Inventory.lastUpdated new
  = default (Inventory.lastUpdated old) (InventoryPatch.lastUpdated data).
Proof.
  intros Hget. unfold DatabaseStorage.updateInventoryItem. rewrite Hget.
  simpl. intros Hret. apply head_fmap_Some in Hret as (x & Hx & ->).
  unfold DatabaseStorage.getInventoryItem in Hget. rewrite Hget in Hx.
  by injection Hx as <-.
Qed.

(** C8 at its failing input: an item written at instant 1000 and patched to
    quantity 12 at instant 2000 comes back from the relational backend
    stamped 1000; the in-memory backend stamps it 2000. *)
Lemma db_updateInventoryItem_keeps_lastUpdated :
  Inventory.lastUpdated <$>
    (DatabaseStorage.updateInventoryItem 2000 1 (quantityPatch 12) dbWithLowItem).1
  = Some 1000
  ∧ Inventory.lastUpdated <$>
      (MemStorage.updateInventoryItem 2000 1 (quantityPatch 12) memWithLowItem).1
    = Some 2000.
Proof. split; vm_compute; reflexivity. Qed.

(** ** What a patch leaves alone *)

(** The row an [UPDATE] returns first is a row of the updated table. *)
Lemma updated_row_stored {R : Type} (rid : R → Z) (set : R → R) (id : Z)
      (tb : Db.table R) (x : R) :
  head (Db.selectById rid id tb) = Some x →
  set x ∈ Db.rows (Db.update rid set id tb).2.
Proof.
  intros Hhead. simpl. apply list_elem_of_fmap. exists x.
  assert (x ∈ Db.selectById rid id tb) as Hin.
  { destruct (Db.selectById rid id tb); [discriminate|].
    injection Hhead as ->. apply list_elem_of_here. }
  apply list_elem_of_filter in Hin as [Hid Hin].
  split; [|exact Hin]. by rewrite decide_True.
Qed.

Ltac frame_fields :=
  repeat apply conj; intros;
  repeat match goal with H : _ = None |- _ => rewrite H; clear H end;
  reflexivity.

Ltac mem_patch upd :=
  intros id data s old new Hget; unfold upd; rewrite Hget; simpl;
  intros [= <-]; split; [|apply lookup_insert_eq].

Lemma update_present {R : Type} (rid : R → Z) (set : R → R) (id : Z)
      (tb : Db.table R) (x : R) :
  head (Db.selectById rid id tb) = Some x →
  head (Db.update rid set id tb).1 = Some (set x)
  ∧ set x ∈ Db.rows (Db.update rid set id tb).2.
Proof.
  intros Hhead. split; [|by apply updated_row_stored].
  simpl. destruct (Db.selectById rid id tb) as [|y l]; [discriminate|].
  injection Hhead as ->. reflexivity.
Qed.

Ltac row_patch upd get :=
  intros id data s old new Hget; unfold upd; rewrite ?Hget; unfold get in Hget;
  match goal with
  | |- context [Db.update ?rid ?set ?id ?tb] =>
      destruct (update_present rid set id tb old Hget) as [Hfirst Hin];
      destruct (Db.update rid set id tb) as [returned tb'];
      simpl in *; intros Hret; rewrite Hfirst in Hret; injection Hret as <-;
      split; [|exact Hin]
  end.

(** C9, as amended.  After a successful patch, in both backends, every field
    that the patch does not name and that is not derived keeps its previous
    value in the returned record, and the returned record is the persisted
    one.  The derived fields follow their own rules: a task's status is kept
    when the patch names neither [status] nor [completed], an inventory
    item's status when the patch names none of [status], [quantity] and
    [threshold].  In particular a task's [createdAt] is unchanged by every
    [updateTask] patch that does not itself name [createdAt]. *)
Theorem patch_frame (tz now : Z) :
  patchContract MemStorage.getTask (MemStorage.updateTask tz now) taskFrame
  ∧ patchContract MemStorage.getInventoryItem (MemStorage.updateInventoryItem now)
      inventoryFrame
  ∧ patchContract MemStorage.getEquipmentItem MemStorage.updateEquipmentItem
      equipmentFrame
  ∧ patchContract MemStorage.getContact MemStorage.updateContact contactFrame
  ∧ patchContract MemStorage.getUser MemStorage.updateUser userFrame
  ∧ rowPatchContract DatabaseStorage.getTask (DatabaseStorage.updateTask tz now)
      DatabaseStorage.tasks taskFrame
  ∧ rowPatchContract DatabaseStorage.getInventoryItem
      (DatabaseStorage.updateInventoryItem now) DatabaseStorage.inventory inventoryFrame
  ∧ rowPatchContract DatabaseStorage.getEquipmentItem
      DatabaseStorage.updateEquipmentItem DatabaseStorage.equipment equipmentFrame
  ∧ rowPatchContract DatabaseStorage.getContact DatabaseStorage.updateContact
      DatabaseStorage.contacts contactFrame
  ∧ rowPatchContract DatabaseStorage.getUser DatabaseStorage.updateUser
      DatabaseStorage.users userFrame.
Proof.
  repeat apply conj.
  - mem_patch MemStorage.updateTask.
    destruct (TaskPatch.completed data) as [[|]|] eqn:E; simpl;
      unfold taskFrame; simpl; rewrite ?E; frame_fields || (repeat apply conj; intros; try discriminate; frame_fields).
  - mem_patch MemStorage.updateInventoryItem.
    unfold inventoryFrame.
    destruct (InventoryPatch.quantity data) eqn:Eq;
      destruct (InventoryPatch.threshold data) eqn:Et; simpl; rewrite ?Eq, ?Et;
      repeat apply conj; intros; try discriminate;
      repeat match goal with H : _ = None |- _ => rewrite H; clear H end;
      reflexivity.
  - mem_patch MemStorage.updateEquipmentItem. unfold equipmentFrame. simpl. frame_fields.
  - mem_patch MemStorage.updateContact. unfold contactFrame. simpl. frame_fields.
  - mem_patch MemStorage.updateUser. unfold userFrame. simpl. frame_fields.
  - row_patch DatabaseStorage.updateTask DatabaseStorage.getTask.
    unfold taskFrame. simpl.
    repeat apply conj; intros;
      repeat match goal with H : _ = None |- _ => rewrite H; clear H end;
      reflexivity.
  - row_patch DatabaseStorage.updateInventoryItem DatabaseStorage.getInventoryItem.
    unfold inventoryFrame. simpl.
    repeat apply conj; intros;
      repeat match goal with H : _ = None |- _ => rewrite H; clear H end;
      reflexivity.
  - row_patch DatabaseStorage.updateEquipmentItem DatabaseStorage.getEquipmentItem.
    unfold equipmentFrame. simpl. frame_fields.
  - row_patch DatabaseStorage.updateContact DatabaseStorage.getContact.
    unfold contactFrame. simpl. frame_fields.
  - row_patch DatabaseStorage.updateUser DatabaseStorage.getUser.
    unfold userFrame. simpl. frame_fields.
Qed.

Lemma patch_frame_witness :
  ∃ old new,
    MemStorage.getTask 1 memWithOverdueTask = Some old
    ∧ (MemStorage.updateTask 0 noon 1 (completedPatch true) memWithOverdueTask).1
      = Some new
    ∧ taskFrame (completedPatch true) old new
    ∧ MemStorage.getTask 1
        (MemStorage.updateTask 0 noon 1 (completedPatch true) memWithOverdueTask).2
      = Some new.
Proof.
  destruct (patch_frame 0 noon) as [H _].
  eexists _, _. split; [vm_compute; reflexivity|].
  split; [vm_compute; reflexivity|].
  apply (H 1 (completedPatch true) memWithOverdueTask); vm_compute; reflexivity.
Defined.

(** C9 as stated fails: a patch that names [completed] and [createdAt] but
    not [status] returns the task with a new status, and with the creation
    time the patch names. *)
Lemma updateTask_changes_status_and_createdAt :
  ∃ old new,
    MemStorage.getTask 1 memWithOverdueTask = Some old
    ∧ (MemStorage.updateTask 0 noon 1 (completedAtPatch 5) memWithOverdueTask).1
      = Some new
    ∧ TaskPatch.status (completedAtPatch 5) = None
    ∧ Task.status old = "overdue" ∧ Task.status new = "completed"
    ∧ Task.createdAt old = noon ∧ Task.createdAt new = 5.
Proof. eexists _, _. repeat split; vm_compute; reflexivity. Qed.

(** ** Identifiers *)

Section Identifiers.
Variable tz : Z.

(** A call never lowers a counter; a create returns the counter's value as
    the identifier and moves the counter one past it. *)
Lemma step_counter (o : Trace.op) (s : MemStorage.t) (k : Trace.kind) :
  Trace.counter k s ≤ Trace.counter k (Trace.step tz o s).1
  ∧ ∀ a, (Trace.step tz o s).2 = Some (k, a) →
         a = Trace.counter k s ∧ Trace.counter k (Trace.step tz o s).1 = a + 1.
Proof.
  destruct o; simpl.
  - split; [destruct k; simpl; lia|]. by intros a [= <- <-].
  - unfold MemStorage.updateUser. destruct (MemStorage.getUser id s); simpl;
      (split; [destruct k; simpl; lia | discriminate]).
  - destruct (InsertTask.completed insertTask); simpl;
      (split; [destruct k; simpl; lia|]); by intros a [= <- <-].
  - unfold MemStorage.updateTask. destruct (MemStorage.getTask id s); simpl;
      (split; [destruct k; simpl; lia | discriminate]).
  - split; [destruct k; simpl; lia | discriminate].
  - split; [destruct k; simpl; lia|]. by intros a [= <- <-].
  - unfold MemStorage.updateInventoryItem.
    destruct (MemStorage.getInventoryItem id s); simpl;
      (split; [destruct k; simpl; lia | discriminate]).
  - split; [destruct k; simpl; lia | discriminate].
  - split; [destruct k; simpl; lia|]. by intros a [= <- <-].
  - unfold MemStorage.updateEquipmentItem.
    destruct (MemStorage.getEquipmentItem id s); simpl;
      (split; [destruct k; simpl; lia | discriminate]).
  - split; [destruct k; simpl; lia | discriminate].
  - split; [destruct k; simpl; lia|]. by intros a [= <- <-].
  - unfold MemStorage.updateContact. destruct (MemStorage.getContact id s); simpl;
      (split; [destruct k; simpl; lia | discriminate]).
  - split; [destruct k; simpl; lia | discriminate].
Qed.

(** Every identifier a run assigns lies between the counter it started from
    and the counter it ends with. *)
Lemma run_log_bounds (ops : list Trace.op) (s : MemStorage.t) (k : Trace.kind) :
  Trace.counter k s ≤ Trace.counter k (Trace.run tz ops s).1
  ∧ ∀ a, (k, a) ∈ (Trace.run tz ops s).2 →
         Trace.counter k s ≤ a < Trace.counter k (Trace.run tz ops s).1.
Proof.
  revert s. induction ops as [|o ops IH]; intros s; simpl.
  - split; [lia|]. intros a Hin. by apply elem_of_nil in Hin.
  - destruct (step_counter o s k) as [Hmono Hnew].
    destruct (Trace.step tz o s) as [s1 e]. simpl in *.
    destruct (IH s1) as [Hmono' Hlog].
    destruct (Trace.run tz ops s1) as [s2 log]. simpl in *.
    split; [lia|]. intros a Hin.
    destruct e as [[k0 a0]|].
    + apply elem_of_cons in Hin as [[= <- <-]|Hin].
      * destruct (Hnew a eq_refl). lia.
      * specialize (Hlog a Hin). lia.
    + specialize (Hlog a Hin). lia.
Qed.

End Identifiers.

(** C10.  In the in-memory backend, over any sequence of facade calls
    (creates and deletes, and updates too) from any store, the identifiers
    assigned to one kind of entity are strictly increasing in the order of
    assignment: each create returns an identifier greater than every
    identifier assigned to that kind before it, so no identifier is handed
    out twice, whether or not its record has been deleted in between. *)
Theorem ids_never_reused (tz : Z) (ops : list Trace.op) (s : MemStorage.t)
        (i j : nat) (k : Trace.kind) (a b : Z) :
  (i < j)%nat →
  (Trace.run tz ops s).2 !! i = Some (k, a) →
  (Trace.run tz ops s).2 !! j = Some (k, b) →
  a < b.
Proof.
  revert s i j. induction ops as [|o ops IH]; intros s i j Hij; simpl.
  - intros Hi. by rewrite lookup_nil in Hi.
  - destruct (step_counter tz o s k) as [_ Hnew].
    destruct (Trace.step tz o s) as [s1 e]. simpl in *.
    destruct (run_log_bounds tz ops s1 k) as [_ Hlog].
    specialize (IH s1).
    destruct (Trace.run tz ops s1) as [s2 log]. simpl in *.
    destruct e as [[k0 a0]|]; [|by apply IH].
    destruct i as [|i]; destruct j as [|j]; try lia; simpl.
    + intros [= -> ->] Hj. destruct (Hnew a eq_refl) as [_ Hnext].
      apply list_elem_of_lookup_2 in Hj. specialize (Hlog b Hj). lia.
    + apply IH. lia.
Qed.

Lemma ids_never_reused_witness :
  (Trace.run 0 createDeleteCreate MemStorage.empty).2
    = [(Trace.KTask, 1); (Trace.KTask, 2)]
  ∧ 1 < 2.
Proof.
  split; [vm_compute; reflexivity|].
  apply (ids_never_reused 0 createDeleteCreate MemStorage.empty 0 1 Trace.KTask 1 2).
  - lia.
  - vm_compute. reflexivity.
  - vm_compute. reflexivity.
Defined.

(** After the delete, identifier 1 names nothing, and the next task is
    stored under identifier 2. *)
Example deleted_id_stays_free :
  let s := (Trace.run 0 createDeleteCreate MemStorage.empty).1 in
  MemStorage.getTask 1 s = None
  ∧ Task.id <$> MemStorage.getTask 2 s = Some 2.
Proof. split; vm_compute; reflexivity. Qed.

(** * The rest of the facade *)

Local Open Scope list_scope.

(** ** Values of a map *)

Lemma elem_of_mapValues {A : Type} (m : gmap Z A) (x : A) :
  x ∈ mapValues m ↔ ∃ k, m !! k = Some x.
Proof.
  unfold mapValues. rewrite list_elem_of_omap. split.
  - intros (k & _ & Hk). eauto.
  - intros (k & Hk). exists k. split; [|exact Hk].
    rewrite merge_sort_Permutation. apply elem_of_elements, elem_of_dom. eauto.
Qed.

Lemma elem_of_owned {A : Type} (owner : A → Z) (u : Z) (m : gmap Z A) (x : A) :
  x ∈ filter (λ r, owner r = u) (mapValues m) ↔ owner x = u ∧ ∃ k, m !! k = Some x.
Proof. by rewrite list_elem_of_filter, elem_of_mapValues. Qed.

(** ** Keys, counters and identifiers *)

Section Keys.
Context {A : Type}.

Lemma keysBelow_fresh (m : gmap Z A) (c : Z) (x : A) :
  keysBelow m c → keysBelow (<[c := x]> m) (c + 1).
Proof.
  intros H. apply map_Forall_insert_2; [lia|].
  intros k y Hk. specialize (H k y Hk). simpl in *. lia.
Qed.

Lemma keysBelow_overwrite (m : gmap Z A) (c k : Z) (x : A) :
  is_Some (m !! k) → keysBelow m c → keysBelow (<[k := x]> m) c.
Proof.
  intros [y Hy] H. apply map_Forall_insert_2; [|exact H]. exact (H k y Hy).
Qed.

Lemma keysBelow_delete (m : gmap Z A) (c k : Z) :
  keysBelow m c → keysBelow (delete k m) c.
Proof. apply map_Forall_delete. Qed.

(** The counter's own key is free. *)
Lemma keysBelow_counter_free (m : gmap Z A) (c : Z) :
  keysBelow m c → m !! c = None.
Proof.
  intros H. destruct (m !! c) as [x|] eqn:E; [|reflexivity].
  specialize (H c x E). simpl in H. lia.
Qed.

End Keys.

Create HintDb keys.
#[local] Hint Resolve keysBelow_fresh keysBelow_overwrite keysBelow_delete : keys.

Lemma step_countersAhead (tz : Z) (o : Trace.op) (s : MemStorage.t) :
  countersAhead s → countersAhead (Trace.step tz o s).1.
Proof.
  intros (Hu & Ht & Hi & He & Hc).
  destruct o; simpl.
  - repeat split; simpl; auto with keys.
  - unfold MemStorage.updateUser, MemStorage.getUser.
    destruct (MemStorage.users s !! id) eqn:E; repeat split; simpl; eauto with keys.
  - destruct (InsertTask.completed insertTask); repeat split; simpl; auto with keys.
  - unfold MemStorage.updateTask, MemStorage.getTask.
    destruct (MemStorage.tasks s !! id) eqn:E; repeat split; simpl; eauto with keys.
  - repeat split; simpl; auto with keys.
  - repeat split; simpl; auto with keys.
  - unfold MemStorage.updateInventoryItem, MemStorage.getInventoryItem.
    destruct (MemStorage.inventoryItems s !! id) eqn:E; repeat split; simpl;
      eauto with keys.
  - repeat split; simpl; auto with keys.
  - repeat split; simpl; auto with keys.
  - unfold MemStorage.updateEquipmentItem, MemStorage.getEquipmentItem.
    destruct (MemStorage.equipmentItems s !! id) eqn:E; repeat split; simpl;
      eauto with keys.
  - repeat split; simpl; auto with keys.
  - repeat split; simpl; auto with keys.
  - unfold MemStorage.updateContact, MemStorage.getContact.
    destruct (MemStorage.contactItems s !! id) eqn:E; repeat split; simpl;
      eauto with keys.
  - repeat split; simpl; auto with keys.
Qed.

Lemma idsAreKeys_insert {A : Type} (rid : A → Z) (m : gmap Z A) (k : Z) (x : A) :
  rid x = k → idsAreKeys rid m → idsAreKeys rid (<[k := x]> m).
Proof. intros Hx H. by apply map_Forall_insert_2. Qed.

Lemma idsAreKeys_delete {A : Type} (rid : A → Z) (m : gmap Z A) (k : Z) :
  idsAreKeys rid m → idsAreKeys rid (delete k m).
Proof. apply map_Forall_delete. Qed.

#[local] Hint Resolve idsAreKeys_insert idsAreKeys_delete : keys.

Lemma step_storedUnderOwnId (tz : Z) (o : Trace.op) (s : MemStorage.t) :
  leavesIdAlone o → storedUnderOwnId s → storedUnderOwnId (Trace.step tz o s).1.
Proof.
  intros Hid (Hu & Ht & Hi & He & Hc).
  destruct o; simpl in *.
  - repeat split; simpl; auto with keys.
  - unfold MemStorage.updateUser, MemStorage.getUser.
    destruct (MemStorage.users s !! id) as [r|] eqn:E; repeat split; simpl; auto.
    apply idsAreKeys_insert; [|done]. simpl. rewrite Hid. exact (Hu id r E).
  - destruct (InsertTask.completed insertTask); repeat split; simpl; auto with keys.
  - unfold MemStorage.updateTask, MemStorage.getTask.
    destruct (MemStorage.tasks s !! id) as [r|] eqn:E; repeat split; simpl; auto.
    apply idsAreKeys_insert; [|done].
    destruct (TaskPatch.completed data) as [[|]|]; simpl; rewrite Hid; exact (Ht id r E).
  - repeat split; simpl; auto with keys.
  - repeat split; simpl; auto with keys.
  - unfold MemStorage.updateInventoryItem, MemStorage.getInventoryItem.
    destruct (MemStorage.inventoryItems s !! id) as [r|] eqn:E; repeat split; simpl; auto.
    apply idsAreKeys_insert; [|done].
    destruct (bool_decide _); simpl; rewrite Hid; exact (Hi id r E).
  - repeat split; simpl; auto with keys.
  - repeat split; simpl; auto with keys.
  - unfold MemStorage.updateEquipmentItem, MemStorage.getEquipmentItem.
    destruct (MemStorage.equipmentItems s !! id) as [r|] eqn:E; repeat split; simpl; auto.
    apply idsAreKeys_insert; [|done]. simpl. rewrite Hid. exact (He id r E).
  - repeat split; simpl; auto with keys.
  - repeat split; simpl; auto with keys.
  - unfold MemStorage.updateContact, MemStorage.getContact.
    destruct (MemStorage.contactItems s !! id) as [r|] eqn:E; repeat split; simpl; auto.
    apply idsAreKeys_insert; [|done]. simpl. rewrite Hid. exact (Hc id r E).
  - repeat split; simpl; auto with keys.
Qed.

(** A property that every call of a kind keeps is kept by a run of such
    calls. *)
Lemma run_keeps (tz : Z) (P : MemStorage.t → Prop) (Q : Trace.op → Prop) :
  (∀ o s, Q o → P s → P (Trace.step tz o s).1) →
  ∀ ops s, Forall Q ops → P s → P (Trace.run tz ops s).1.
Proof.
  intros Hstep ops. induction ops as [|o ops IH]; intros s Hops Hs; [exact Hs|].
  apply Forall_cons in Hops as [Ho Hops]. simpl.
  specialize (Hstep o s Ho Hs). destruct (Trace.step tz o s) as [s1 e].
  specialize (IH s1 Hops Hstep). by destruct (Trace.run tz ops s1).
Qed.

Lemma constructor_countersAhead (tz now : Z) :
  countersAhead (MemStorage.constructor tz now).
Proof.
  unfold countersAhead, MemStorage.constructor, keysBelow. simpl.
  repeat split;
    repeat (apply map_Forall_insert_2; [reflexivity|]); apply map_Forall_empty.
Qed.

Lemma constructor_storedUnderOwnId (tz now : Z) :
  storedUnderOwnId (MemStorage.constructor tz now).
Proof.
  unfold storedUnderOwnId, MemStorage.constructor, idsAreKeys. simpl.
  repeat split;
    repeat (apply map_Forall_insert_2; [reflexivity|]); apply map_Forall_empty.
Qed.

(** X1.  In every store reached from the constructor by calls of the
    facade, every key of every map is below the map's counter, so that the
    key a create writes is free and no create replaces a stored record; and
    as long as no patch names [id], every record is stored under its own
    [id]. *)
Theorem constructed_store_well_keyed (tz now : Z) (ops : list Trace.op) :
  let s := (Trace.run tz ops (MemStorage.constructor tz now)).1 in
  countersAhead s
  ∧ MemStorage.tasks s !! MemStorage.taskIdCounter s = None
  ∧ MemStorage.inventoryItems s !! MemStorage.inventoryIdCounter s = None
  ∧ MemStorage.equipmentItems s !! MemStorage.equipmentIdCounter s = None
  ∧ MemStorage.contactItems s !! MemStorage.contactIdCounter s = None
  ∧ MemStorage.users s !! MemStorage.userIdCounter s = None
  ∧ (Forall leavesIdAlone ops → storedUnderOwnId s).
Proof.
  intros s.
  assert (countersAhead s) as Hahead.
  { apply (run_keeps tz countersAhead (λ _, True)).
    - intros o s0 _. apply step_countersAhead.
    - by apply Forall_true.
    - apply constructor_countersAhead. }
  split; [exact Hahead|].
  destruct Hahead as (Hu & Ht & Hi & He & Hc).
  split; [by apply keysBelow_counter_free|].
  split; [by apply keysBelow_counter_free|].
  split; [by apply keysBelow_counter_free|].
  split; [by apply keysBelow_counter_free|].
  split; [by apply keysBelow_counter_free|].
  intros Hops. apply (run_keeps tz storedUnderOwnId leavesIdAlone).
  - apply step_storedUnderOwnId.
  - exact Hops.
  - apply constructor_storedUnderOwnId.
Qed.

Lemma constructed_store_well_keyed_witness :
  storedUnderOwnId (Trace.run 0 sampleCalls (MemStorage.constructor 0 noon)).1.
Proof.
  destruct (constructed_store_well_keyed 0 noon sampleCalls)
    as (_ & _ & _ & _ & _ & _ & Hids).
  apply Hids. unfold sampleCalls. repeat constructor.
Defined.

(** A patch that names [id] leaves a record that is stored under another
    key than its own [id]. *)
Example patch_of_id_breaks_keying :
  Task.id <$>
    MemStorage.getTask 1
      (MemStorage.updateTask 0 noon 1
         {| TaskPatch.id := Some 7;
            TaskPatch.title := None;
            TaskPatch.description := None;
            TaskPatch.dueDate := None;
            TaskPatch.priority := None;
            TaskPatch.status := None;
            TaskPatch.completed := None;
            TaskPatch.assignedTo := None;
            TaskPatch.userId := None;
            TaskPatch.recurring := None;
            TaskPatch.createdAt := None |} memWithOverdueTask).2
  = Some 7.
Proof. vm_compute. reflexivity. Qed.

(** ** Listings by owner *)

Section Owned.
Context {A : Type} (rid owner : A → Z).

Lemma owned_insert_fresh (u k : Z) (m : gmap Z A) (v x : A) :
  m !! k = None →
  x ∈ filter (λ r, owner r = u) (mapValues (<[k := v]> m))
  ↔ x ∈ filter (λ r, owner r = u) (mapValues m) ∨ (x = v ∧ owner v = u).
Proof.
  intros Hfree. rewrite !elem_of_owned. split.
  - intros (Hu & j & Hj). destruct (decide (k = j)) as [->|Hne].
    + rewrite lookup_insert_eq in Hj. injection Hj as ->. by right.
    + rewrite lookup_insert_ne in Hj by done. left. eauto.
  - intros [(Hu & j & Hj)|[-> Hu]].
    + split; [done|]. exists j. rewrite lookup_insert_ne; [done|]. congruence.
    + split; [done|]. exists k. apply lookup_insert_eq.
Qed.

Lemma owned_delete (u k : Z) (m : gmap Z A) (x : A) :
  idsAreKeys rid m →
  x ∈ filter (λ r, owner r = u) (mapValues (delete k m))
  ↔ x ∈ filter (λ r, owner r = u) (mapValues m) ∧ rid x ≠ k.
Proof.
  intros Hids. rewrite !elem_of_owned. split.
  - intros (Hu & j & Hj). apply lookup_delete_Some in Hj as [Hne Hj].
    pose proof (Hids j x Hj) as Hid. simpl in Hid. split; [eauto|]. congruence.
  - intros ((Hu & j & Hj) & Hne). split; [done|]. exists j.
    pose proof (Hids j x Hj) as Hid. simpl in Hid.
    apply lookup_delete_Some. split; [congruence | done].
Qed.

Lemma owned_insert_over (u k : Z) (m : gmap Z A) (v x : A) :
  idsAreKeys rid m →
  x ∈ filter (λ r, owner r = u) (mapValues (<[k := v]> m))
  ↔ (x ∈ filter (λ r, owner r = u) (mapValues m) ∧ rid x ≠ k) ∨ (x = v ∧ owner v = u).
Proof.
  intros Hids. rewrite !elem_of_owned. split.
  - intros (Hu & j & Hj). destruct (decide (k = j)) as [->|Hne].
    + rewrite lookup_insert_eq in Hj. injection Hj as ->. by right.
    + rewrite lookup_insert_ne in Hj by done. left.
      pose proof (Hids j x Hj) as Hid. simpl in Hid. split; [eauto | congruence].
  - intros [((Hu & j & Hj) & Hne)|[-> Hu]].
    + split; [done|]. exists j.
      pose proof (Hids j x Hj) as Hid. simpl in Hid.
      rewrite lookup_insert_ne; [done | congruence].
    + split; [done|]. exists k. apply lookup_insert_eq.
Qed.

End Owned.

(** X2.  A create adds the record it returns to the listing of the record's
    owner and changes no other listing.  In memory this holds in a store
    whose counter key is free; in the relational backend the new row comes
    last in its owner's listing. *)
Theorem create_then_list (tz now : Z) :
  (∀ insertTask s,
      MemStorage.tasks s !! MemStorage.taskIdCounter s = None →
      listedAfterCreate MemStorage.getTasks Task.userId s
        (MemStorage.createTask tz now insertTask s).2
        (MemStorage.createTask tz now insertTask s).1)
  ∧ (∀ insertItem s,
      MemStorage.inventoryItems s !! MemStorage.inventoryIdCounter s = None →
      listedAfterCreate MemStorage.getInventoryItems Inventory.userId s
        (MemStorage.createInventoryItem now insertItem s).2
        (MemStorage.createInventoryItem now insertItem s).1)
  ∧ (∀ insertItem s,
      MemStorage.equipmentItems s !! MemStorage.equipmentIdCounter s = None →
      listedAfterCreate MemStorage.getEquipmentItems Equipment.userId s
        (MemStorage.createEquipmentItem insertItem s).2
        (MemStorage.createEquipmentItem insertItem s).1)
  ∧ (∀ insertContact s,
      MemStorage.contactItems s !! MemStorage.contactIdCounter s = None →
      listedAfterCreate MemStorage.getContacts Contact.userId s
        (MemStorage.createContact insertContact s).2
        (MemStorage.createContact insertContact s).1)
  ∧ (∀ insertTask s u,
      ∃ task, (DatabaseStorage.createTask tz now insertTask s).1 = Some task
        ∧ Task.userId task = InsertTask.userId insertTask
        ∧ DatabaseStorage.getTasks u (DatabaseStorage.createTask tz now insertTask s).2
          = (DatabaseStorage.getTasks u s
             ++ (if decide (Task.userId task = u) then [task] else []))%list).
Proof.
  split; [|split; [|split; [|split]]].
  - intros insertTask s Hfree u r. unfold MemStorage.getTasks. simpl.
    destruct (InsertTask.completed insertTask); simpl;
      by apply (owned_insert_fresh Task.userId).
  - intros insertItem s Hfree u r. by apply (owned_insert_fresh Inventory.userId).
  - intros insertItem s Hfree u r. by apply (owned_insert_fresh Equipment.userId).
  - intros insertContact s Hfree u r. by apply (owned_insert_fresh Contact.userId).
  - intros insertTask s u. eexists. split; [reflexivity|]. split; [reflexivity|].
    unfold DatabaseStorage.getTasks. simpl. rewrite filter_app. f_equal.
Qed.

Lemma create_then_list_witness :
  listedAfterCreate MemStorage.getTasks Task.userId memWithOverdueTask
    (MemStorage.createTask 0 noon (sampleInsertTask (dateOnly 19667) false None)
       memWithOverdueTask).2
    (MemStorage.createTask 0 noon (sampleInsertTask (dateOnly 19667) false None)
       memWithOverdueTask).1.
Proof.
  destruct (create_then_list 0 noon) as [Hmem _]. apply Hmem. vm_compute. reflexivity.
Defined.

(** X3.  A delete takes the record of that [id] out of the listings and
    leaves every other listed record in place.  In memory this holds in a
    store whose records are stored under their own [id]. *)
Theorem delete_then_list (id : Z) :
  (∀ s, idsAreKeys Task.id (MemStorage.tasks s) →
     listedAfterDelete MemStorage.getTasks Task.id s (MemStorage.deleteTask id s).2 id)
  ∧ (∀ s, idsAreKeys Inventory.id (MemStorage.inventoryItems s) →
     listedAfterDelete MemStorage.getInventoryItems Inventory.id s
       (MemStorage.deleteInventoryItem id s).2 id)
  ∧ (∀ s, idsAreKeys Equipment.id (MemStorage.equipmentItems s) →
     listedAfterDelete MemStorage.getEquipmentItems Equipment.id s
       (MemStorage.deleteEquipmentItem id s).2 id)
  ∧ (∀ s, idsAreKeys Contact.id (MemStorage.contactItems s) →
     listedAfterDelete MemStorage.getContacts Contact.id s
       (MemStorage.deleteContact id s).2 id)
  ∧ (∀ s, listedAfterDelete DatabaseStorage.getTasks Task.id s
       (DatabaseStorage.deleteTask id s).2 id).
Proof.
  split; [|split; [|split; [|split]]].
  - intros s Hids u r. by apply (owned_delete Task.id Task.userId).
  - intros s Hids u r. by apply (owned_delete Inventory.id Inventory.userId).
  - intros s Hids u r. by apply (owned_delete Equipment.id Equipment.userId).
  - intros s Hids u r. by apply (owned_delete Contact.id Contact.userId).
  - intros s u r. unfold DatabaseStorage.getTasks. simpl.
    rewrite !list_elem_of_filter. tauto.
Qed.

Lemma delete_then_list_witness :
  listedAfterDelete MemStorage.getTasks Task.id memWithOverdueTask
    (MemStorage.deleteTask 1 memWithOverdueTask).2 1.
Proof.
  destruct (delete_then_list 1) as [Hmem _]. apply Hmem.
  unfold idsAreKeys. by apply (bool_decide_unpack _).
Defined.

Ltac mem_update_list upd get rid owner :=
  intros id data s updated Hids; unfold upd, get;
  match goal with
  | |- context [?m !! id] => destruct (m !! id) as [old|]; [|discriminate]
  end;
  simpl; intros [= <-] u r; by apply (owned_insert_over rid owner).

(** X4.  A successful patch, in memory and in a store whose records are
    stored under their own [id], replaces the record of that [id] in the
    listings by the record it returns, which is listed under the owner it
    then has; every other listed record stays in place. *)
Theorem update_then_list (tz now : Z) :
  (∀ id data s updated,
      idsAreKeys Task.id (MemStorage.tasks s) →
      (MemStorage.updateTask tz now id data s).1 = Some updated →
      listedAfterUpdate MemStorage.getTasks Task.id Task.userId s
        (MemStorage.updateTask tz now id data s).2 id updated)
  ∧ (∀ id data s updated,
      idsAreKeys Inventory.id (MemStorage.inventoryItems s) →
      (MemStorage.updateInventoryItem now id data s).1 = Some updated →
      listedAfterUpdate MemStorage.getInventoryItems Inventory.id Inventory.userId s
        (MemStorage.updateInventoryItem now id data s).2 id updated)
  ∧ (∀ id data s updated,
      idsAreKeys Equipment.id (MemStorage.equipmentItems s) →
      (MemStorage.updateEquipmentItem id data s).1 = Some updated →
      listedAfterUpdate MemStorage.getEquipmentItems Equipment.id Equipment.userId s
        (MemStorage.updateEquipmentItem id data s).2 id updated)
  ∧ (∀ id data s updated,
      idsAreKeys Contact.id (MemStorage.contactItems s) →
      (MemStorage.updateContact id data s).1 = Some updated →
      listedAfterUpdate MemStorage.getContacts Contact.id Contact.userId s
        (MemStorage.updateContact id data s).2 id updated).
Proof.
  split; [|split; [|split]].
  - mem_update_list MemStorage.updateTask MemStorage.getTask Task.id Task.userId.
  - mem_update_list MemStorage.updateInventoryItem MemStorage.getInventoryItem
      Inventory.id Inventory.userId.
  - mem_update_list MemStorage.updateEquipmentItem MemStorage.getEquipmentItem
      Equipment.id Equipment.userId.
  - mem_update_list MemStorage.updateContact MemStorage.getContact
      Contact.id Contact.userId.
Qed.

Lemma update_then_list_witness :
  ∃ updated,
    (MemStorage.updateTask 0 noon 1 (handOverPatch 2) memWithOverdueTask).1 = Some updated
    ∧ listedAfterUpdate MemStorage.getTasks Task.id Task.userId memWithOverdueTask
        (MemStorage.updateTask 0 noon 1 (handOverPatch 2) memWithOverdueTask).2 1 updated.
Proof.
  destruct (update_then_list 0 noon) as [Hmem _].
  eexists. split; [vm_compute; reflexivity|].
  apply Hmem; [|vm_compute; reflexivity].
  unfold idsAreKeys. by apply (bool_decide_unpack _).
Defined.

(** ** Looking a user up by name or email *)

(** [find] answers with a match when there is one, and with nothing only
    when there is none. *)
Lemma head_filter_Some {A : Type} (P : A → Prop) `{!∀ x, Decision (P x)}
      (l : list A) (x : A) :
  head (filter P l) = Some x → P x ∧ x ∈ l.
Proof.
  intros Hhead. apply head_Some_elem_of in Hhead.
  by apply list_elem_of_filter in Hhead.
Qed.

Lemma head_filter_None {A : Type} (P : A → Prop) `{!∀ x, Decision (P x)}
      (l : list A) :
  head (filter P l) = None ↔ ∀ x, x ∈ l → ¬ P x.
Proof.
  rewrite head_None. split.
  - intros Hnil x Hx HP.
    assert (x ∈ filter P l) as Hin by (by apply list_elem_of_filter).
    rewrite Hnil in Hin. by apply elem_of_nil in Hin.
  - intros Hnone. destruct (filter P l) as [|y l'] eqn:E; [reflexivity|].
    assert (y ∈ filter P l) as Hin by (rewrite E; apply list_elem_of_here).
    apply list_elem_of_filter in Hin as [HP Hin]. by destruct (Hnone y Hin).
Qed.

Lemma mem_lookup_found (P : User.t → Prop) `{!∀ x, Decision (P x)}
      (s : MemStorage.t) (user : User.t) :
  head (filter P (mapValues (MemStorage.users s))) = Some user →
  P user ∧ ∃ k, MemStorage.users s !! k = Some user.
Proof.
  intros Hhead. apply head_filter_Some in Hhead as [HP Hin].
  by apply elem_of_mapValues in Hin.
Qed.

Lemma mem_lookup_missing (P : User.t → Prop) `{!∀ x, Decision (P x)}
      (s : MemStorage.t) :
  head (filter P (mapValues (MemStorage.users s))) = None
  ↔ ∀ k user, MemStorage.users s !! k = Some user → ¬ P user.
Proof.
  rewrite head_filter_None. split.
  - intros Hnone k user Hk. apply Hnone, elem_of_mapValues. eauto.
  - intros Hnone user Hin. apply elem_of_mapValues in Hin as [k Hk]. eauto.
Qed.

(** Looking up the name of a user just created, when nobody had it. *)
Lemma mem_lookup_created (P : User.t → Prop) `{!∀ x, Decision (P x)}
      (insertUser : InsertUser.t) (s : MemStorage.t) :
  MemStorage.users s !! MemStorage.userIdCounter s = None →
  head (filter P (mapValues (MemStorage.users s))) = None →
  P (MemStorage.createUser insertUser s).1 →
  head (filter P (mapValues (MemStorage.users (MemStorage.createUser insertUser s).2)))
  = Some (MemStorage.createUser insertUser s).1.
Proof.
  intros Hfree Hnone HP.
  destruct (head (filter P (mapValues
              (MemStorage.users (MemStorage.createUser insertUser s).2))))
    as [x|] eqn:E.
  - apply mem_lookup_found in E as [HPx [k Hk]]. simpl in Hk.
    destruct (decide (MemStorage.userIdCounter s = k)) as [<-|Hne].
    + rewrite lookup_insert_eq in Hk. by injection Hk as <-.
    + rewrite lookup_insert_ne in Hk by done.
      rewrite mem_lookup_missing in Hnone. by destruct (Hnone k x Hk).
  - rewrite mem_lookup_missing in E. exfalso.
    apply (E (MemStorage.userIdCounter s) (MemStorage.createUser insertUser s).1);
      [apply lookup_insert_eq | exact HP].
Qed.

(** X5.  A lookup by username or by email answers with a stored user that
    has that username or email, and answers with nothing exactly when no
    stored user has it, in both backends. *)
Theorem user_lookup (name : string) :
  (∀ s user, MemStorage.getUserByUsername name s = Some user →
     User.username user = name ∧ ∃ k, MemStorage.getUser k s = Some user)
  ∧ (∀ s, MemStorage.getUserByUsername name s = None
     ↔ ∀ k user, MemStorage.getUser k s = Some user → User.username user ≠ name)
  ∧ (∀ s user, MemStorage.getUserByEmail name s = Some user →
     User.email user = name ∧ ∃ k, MemStorage.getUser k s = Some user)
  ∧ (∀ s, MemStorage.getUserByEmail name s = None
     ↔ ∀ k user, MemStorage.getUser k s = Some user → User.email user ≠ name)
  ∧ (∀ s user, DatabaseStorage.getUserByUsername name s = Some user →
     User.username user = name ∧ user ∈ Db.rows (DatabaseStorage.users s))
  ∧ (∀ s, DatabaseStorage.getUserByUsername name s = None
     ↔ ∀ user, user ∈ Db.rows (DatabaseStorage.users s) → User.username user ≠ name)
  ∧ (∀ s user, DatabaseStorage.getUserByEmail name s = Some user →
     User.email user = name ∧ user ∈ Db.rows (DatabaseStorage.users s))
  ∧ (∀ s, DatabaseStorage.getUserByEmail name s = None
     ↔ ∀ user, user ∈ Db.rows (DatabaseStorage.users s) → User.email user ≠ name).
Proof.
  repeat apply conj.
  - intros s user. apply mem_lookup_found.
  - intros s. apply mem_lookup_missing.
  - intros s user. apply mem_lookup_found.
  - intros s. apply mem_lookup_missing.
  - intros s user. apply (head_filter_Some (λ u, User.username u = name)).
  - intros s. apply (head_filter_None (λ u, User.username u = name)).
  - intros s user. apply (head_filter_Some (λ u, User.email u = name)).
  - intros s. apply (head_filter_None (λ u, User.email u = name)).
Qed.

Lemma user_lookup_witness :
  ∃ k user,
    MemStorage.getUser k (MemStorage.constructor 0 noon) = Some user
    ∧ User.username user = "demo".
Proof.
  destruct (user_lookup "demo") as [Hfound _].
  destruct (Hfound (MemStorage.constructor 0 noon)
              (MemStorage.createUser MemStorage.demoUser MemStorage.empty).1)
    as [Hname [k Hk]]; [vm_compute; reflexivity|].
  exists k. eexists. split; [exact Hk | exact Hname].
Defined.

(** A user created under a username and an email that nobody has, in a
    store whose counter key is free, is found under both. *)
Lemma created_user_found (insertUser : InsertUser.t) (s : MemStorage.t) :
  MemStorage.users s !! MemStorage.userIdCounter s = None →
  MemStorage.getUserByUsername (InsertUser.username insertUser) s = None →
  MemStorage.getUserByEmail (InsertUser.email insertUser) s = None →
  MemStorage.getUserByUsername (InsertUser.username insertUser)
    (MemStorage.createUser insertUser s).2
  = Some (MemStorage.createUser insertUser s).1
  ∧ MemStorage.getUserByEmail (InsertUser.email insertUser)
      (MemStorage.createUser insertUser s).2
    = Some (MemStorage.createUser insertUser s).1.
Proof.
  intros Hfree Hname Hemail. split.
  - exact (mem_lookup_created
             (λ u, User.username u = InsertUser.username insertUser)
             insertUser s Hfree Hname eq_refl).
  - exact (mem_lookup_created
             (λ u, User.email u = InsertUser.email insertUser)
             insertUser s Hfree Hemail eq_refl).
Qed.

(** X6.  In a store whose counter key is free, a user created under a
    username and an email that nobody has is the one a lookup by that
    username, and a lookup by that email, then finds. *)
Theorem create_user_then_lookup (insertUser : InsertUser.t) (s : MemStorage.t) :
  MemStorage.users s !! MemStorage.userIdCounter s = None →
  MemStorage.getUserByUsername (InsertUser.username insertUser) s = None →
  MemStorage.getUserByEmail (InsertUser.email insertUser) s = None →
  let out := MemStorage.createUser insertUser s in
  MemStorage.getUserByUsername (InsertUser.username insertUser) out.2 = Some out.1
  ∧ MemStorage.getUserByEmail (InsertUser.email insertUser) out.2 = Some out.1
  ∧ MemStorage.getUser (User.id out.1) out.2 = Some out.1.
Proof.
  intros Hfree Hname Hemail out.
  destruct (created_user_found insertUser s Hfree Hname Hemail) as [H1 H2].
  split; [exact H1|]. split; [exact H2|]. apply lookup_insert_eq.
Qed.

Lemma create_user_then_lookup_witness :
  let out := MemStorage.createUser secondUser (MemStorage.constructor 0 noon) in
  MemStorage.getUserByUsername "maria" out.2 = Some out.1
  ∧ MemStorage.getUserByEmail "maria@example.com" out.2 = Some out.1.
Proof.
  destruct (create_user_then_lookup secondUser (MemStorage.constructor 0 noon))
    as (Hname & Hemail & _); try (vm_compute; reflexivity).
  split; [exact Hname | exact Hemail].
Defined.

(** Without the check that registration makes first, a second user of the
    same name is stored, and a lookup by the name finds the older one. *)
Example create_user_under_a_taken_name :
  let out := MemStorage.createUser MemStorage.demoUser (MemStorage.constructor 0 noon) in
  User.id out.1 = 2
  ∧ (User.id <$> MemStorage.getUserByUsername "demo" out.2) = Some 1.
Proof. split; vm_compute; reflexivity. Qed.

(** ** Completing a task and reopening it *)



(** Reopened a day later, the task comes back with the status of that day:
    a task that was due on the day it was completed is then overdue. *)
Example reopen_next_day :
  let s :=
    (MemStorage.createTask 0 noon (sampleInsertTask nov1 false None) MemStorage.empty).2 in
  let s := (MemStorage.updateTask 0 noon 1 (completedPatch true) s).2 in
  (Task.status <$> MemStorage.getTask 1 s,
   Task.status <$>
     (MemStorage.updateTask 0 (noon + 24 * hour) 1 (completedPatch false) s).1)
  = (Some "completed", Some "overdue").
Proof. vm_compute. reflexivity. Qed.

(** ** Weather preferences *)

Section JsMapFacts.
Context {A : Type}.

(** Writing a key the map does not hold appends the entry. *)
Lemma set_new (k : Z) (v : A) (m : JsMap.t A) :
  k ∉ m.*1 → JsMap.set k v m = (m ++ [(k, v)])%list.
Proof.
  induction m as [|e m IH]; intros Hk; [reflexivity|].
  simpl. rewrite fmap_cons in Hk. apply not_elem_of_cons in Hk as [Hne Hk].
  destruct (decide (e.1 = k)); [congruence|]. by rewrite IH.
Qed.

(** Writing a key the map holds replaces the entry where it stands. *)
Lemma set_in_place (k : Z) (v x : A) (m1 m2 : JsMap.t A) :
  k ∉ m1.*1 →
  JsMap.set k v (m1 ++ (k, x) :: m2) = (m1 ++ (k, v) :: m2)%list.
Proof.
  induction m1 as [|e m1 IH]; intros Hk; simpl.
  - by rewrite decide_True.
  - rewrite fmap_cons in Hk. apply not_elem_of_cons in Hk as [Hne Hk].
    destruct (decide (e.1 = k)); [congruence|]. by rewrite IH.
Qed.

(** The first value that satisfies [P], with the entries before it. *)
Lemma first_match (P : A → Prop) `{!∀ x, Decision (P x)} (m : JsMap.t A) (x : A) :
  head (filter P (JsMap.values m)) = Some x →
  ∃ m1 k m2, m = (m1 ++ (k, x) :: m2)%list ∧ Forall (λ e, ¬ P e.2) m1 ∧ P x.
Proof.
  unfold JsMap.values. induction m as [|[k y] m IH]; [discriminate|].
  rewrite fmap_cons, filter_cons. simpl. destruct (decide (P y)) as [Hy|Hy].
  - intros [= ->]. exists [], k, m. by repeat split.
  - intros Hhead. destruct (IH Hhead) as (m1 & k' & m2 & -> & Hbefore & Hx).
    exists ((k, y) :: m1), k', m2. repeat split; [|done]. by constructor.
Qed.

Lemma head_filter_after (P : A → Prop) `{!∀ x, Decision (P x)}
      (m1 m2 : JsMap.t A) (k : Z) (v : A) :
  Forall (λ e, ¬ P e.2) m1 → P v →
  head (filter P (JsMap.values (m1 ++ (k, v) :: m2))) = Some v.
Proof.
  unfold JsMap.values. intros Hbefore Hv.
  induction Hbefore as [|e m1 He _ IH].
  - rewrite app_nil_l, fmap_cons, filter_cons. simpl. by rewrite decide_True.
  - rewrite <- app_comm_cons, fmap_cons, filter_cons. by rewrite decide_False.
Qed.

Lemma head_filter_set_only (P : A → Prop) `{!∀ x, Decision (P x)}
      (m : JsMap.t A) (k : Z) (v : A) :
  head (filter P (JsMap.values m)) = None → P v →
  head (filter P (JsMap.values (JsMap.set k v m))) = Some v.
Proof.
  unfold JsMap.values. intros Hnone Hv.
  induction m as [|[j y] m IH].
  - cbn [JsMap.set]. rewrite fmap_cons, filter_cons. simpl. by rewrite decide_True.
  - rewrite fmap_cons, filter_cons in Hnone. simpl in Hnone.
    destruct (decide (P y)) as [Hy|Hy]; [discriminate|].
    cbn [JsMap.set fst]. destruct (decide (j = k)) as [->|Hne].
    + rewrite fmap_cons, filter_cons. simpl. by rewrite decide_True.
    + rewrite fmap_cons, filter_cons. simpl. rewrite decide_False by done. by apply IH.
Qed.

End JsMapFacts.

(** X8.  In a store that is well keyed, and in the relational table always,
    the preference that [setWeatherPreference] returns is the one a get for
    that user then finds.  It belongs to that user and carries the location
    and units supplied; where one of them is left out, an existing
    preference keeps its own and a new one gets "Harare" and "metric". *)
Theorem set_then_get_weather (insertPref : InsertWeatherPreference.t) :
  let u := InsertWeatherPreference.userId insertPref in
  (∀ s, MemWeather.wellKeyed s →
     let out := MemWeather.setWeatherPreference insertPref s in
     MemWeather.getWeatherPreference u out.2 = Some out.1
     ∧ WeatherPreference.userId out.1 = u
     ∧ WeatherPreference.location out.1 =
         match InsertWeatherPreference.location insertPref,
               MemWeather.getWeatherPreference u s with
         | Some l, Some _ => l
         | None, Some existing => WeatherPreference.location existing
         | l, None => orElse "Harare" l
         end)
  ∧ (∀ s, ∃ pref,
       (DbWeather.setWeatherPreference insertPref s).1 = Some pref
       ∧ DbWeather.getWeatherPreference u (DbWeather.setWeatherPreference insertPref s).2
         = Some pref
       ∧ WeatherPreference.userId pref = u
       ∧ WeatherPreference.location pref =
           match InsertWeatherPreference.location insertPref,
                 DbWeather.getWeatherPreference u s with
           | Some l, _ => l
           | None, Some existing => WeatherPreference.location existing
           | None, None => "Harare"
           end).
Proof.
  intros u. split.
  - intros s [Hnodup Hkeyed] out. subst out.
    unfold MemWeather.setWeatherPreference. fold u.
    destruct (MemWeather.getWeatherPreference u s) as [existing|] eqn:Hget.
    + unfold MemWeather.getWeatherPreference in *. simpl.
      destruct (first_match _ _ _ Hget) as (m1 & k & m2 & Hm & Hbefore & Hu).
      rewrite Hm in *.
      assert (WeatherPreference.id existing = k) as ->.
      { apply Forall_app in Hkeyed as [_ Hk]. apply Forall_cons in Hk as [[Hk _] _].
        exact Hk. }
      rewrite fmap_app, fmap_cons in Hnodup. simpl in Hnodup.
      apply NoDup_app in Hnodup as (_ & Hdisj & _).
      rewrite set_in_place.
      * split; [by apply head_filter_after|]. split; [reflexivity|].
        simpl. by destruct (InsertWeatherPreference.location insertPref).
      * intros Hin. apply (Hdisj k Hin). apply list_elem_of_here.
    + unfold MemWeather.getWeatherPreference in *. simpl.
      split; [by apply head_filter_set_only|]. split; [reflexivity|].
      by destruct (InsertWeatherPreference.location insertPref).
  - intros s. unfold DbWeather.setWeatherPreference. fold u.
    destruct (DbWeather.getWeatherPreference u s) as [existing|] eqn:Hget.
    + unfold DbWeather.getWeatherPreference in *.
      destruct (update_present WeatherPreference.userId
                  (λ r, spreadInsertWeatherPreference r insertPref) u s existing Hget)
        as [Hfirst _].
      eexists. split; [exact Hfirst|]. split.
      * simpl. unfold Db.selectById in *. simpl.
        destruct (Db.rows s) as [|r rows]; [discriminate|]. revert Hget.
        induction (r :: rows) as [|y l IH]; [discriminate|].
        rewrite fmap_cons, !filter_cons. simpl.
        destruct (decide (WeatherPreference.userId y = u)) as [Hy|Hy].
        -- intros [= ->]. simpl. by rewrite decide_True.
        -- rewrite (decide_False (P := WeatherPreference.userId y = u)) by done.
           exact IH.
      * split; [reflexivity|]. simpl.
        by destruct (InsertWeatherPreference.location insertPref).
    + unfold DbWeather.getWeatherPreference in *. eexists. split; [reflexivity|].
      split.
      * simpl. unfold Db.selectById in *. simpl. rewrite filter_app.
        apply head_None in Hget. rewrite Hget. simpl.
        rewrite filter_cons. simpl. by rewrite decide_True.
      * split; [reflexivity|]. simpl.
        by destruct (InsertWeatherPreference.location insertPref).
Qed.

Lemma set_then_get_weather_witness :
  let insertPref :=
    {| InsertWeatherPreference.userId := 1;
       InsertWeatherPreference.location := None;
       InsertWeatherPreference.units := Some "imperial" |} in
  let out := MemWeather.setWeatherPreference insertPref MemWeather.constructor in
  MemWeather.getWeatherPreference 1 out.2 = Some out.1
  ∧ WeatherPreference.location out.1 = "Harare".
Proof.
  intros insertPref out.
  destruct (set_then_get_weather insertPref) as [Hmem _].
  destruct (Hmem MemWeather.constructor) as (Hget & _ & Hloc).
  - split; [by apply (bool_decide_unpack _)|]. repeat constructor.
  - split; [exact Hget|]. exact Hloc.
Defined.

(** Replacing a preference by one of the same [id] and the same user keeps
    the keys, the identifiers and the owners of the map. *)
Lemma replace_keeps_shape (s : MemWeather.t) (existing updated : WeatherPreference.t) :
  MemWeather.wellKeyed s → MemWeather.onePerUser s →
  MemWeather.getWeatherPreference (WeatherPreference.userId existing) s = Some existing →
  WeatherPreference.id updated = WeatherPreference.id existing →
  WeatherPreference.userId updated = WeatherPreference.userId existing →
  let s' :=
    MemWeather.mk
      (JsMap.set (WeatherPreference.id existing) updated (MemWeather.weatherPrefs s))
      (MemWeather.weatherPrefIdCounter s) in
  MemWeather.wellKeyed s' ∧ MemWeather.onePerUser s'.
Proof.
  intros [Hnodup Hkeyed] Huniq Hget Hid Huser. simpl.
  unfold MemWeather.getWeatherPreference in Hget.
  destruct (first_match _ _ _ Hget) as (m1 & k & m2 & Hm & _ & _).
  unfold MemWeather.wellKeyed, MemWeather.onePerUser, JsMap.values in *. simpl.
  rewrite Hm in *.
  assert (WeatherPreference.id existing = k) as Hk.
  { apply Forall_app in Hkeyed as [_ Hk]. by apply Forall_cons in Hk as [[Hk _] _]. }
  rewrite Hk in *.
  assert (k ∉ m1.*1) as Hfresh.
  { rewrite fmap_app, fmap_cons in Hnodup. apply NoDup_app in Hnodup as (_ & Hdisj & _).
    intros Hin. apply (Hdisj k Hin). apply list_elem_of_here. }
  rewrite set_in_place by exact Hfresh.
  rewrite !fmap_app, !fmap_cons in *. simpl in *. rewrite Huser.
  split; [split|]; [exact Hnodup | | exact Huniq].
  apply Forall_app in Hkeyed as [H1 H2]. apply Forall_cons in H2 as [[_ Hlt] H2].
  apply Forall_app. split; [exact H1|]. apply Forall_cons. by repeat split.
Qed.

Lemma step_keeps_weather_shape (o : MemWeather.op) (s : MemWeather.t) :
  MemWeather.keepsIdentity o →
  MemWeather.wellKeyed s ∧ MemWeather.onePerUser s →
  MemWeather.wellKeyed (MemWeather.step o s) ∧ MemWeather.onePerUser (MemWeather.step o s).
Proof.
  intros Hkeep [Hwk Huniq]. destruct o as [insertPref|userId data]; simpl.
  - unfold MemWeather.setWeatherPreference.
    destruct (MemWeather.getWeatherPreference _ s) as [existing|] eqn:Hget.
    + assert (WeatherPreference.userId existing
              = InsertWeatherPreference.userId insertPref) as Hu.
      { unfold MemWeather.getWeatherPreference in Hget.
        by apply head_filter_Some in Hget as [Hu _]. }
      simpl. apply replace_keeps_shape; try done. by rewrite Hu.
    + simpl. destruct Hwk as [Hnodup Hkeyed].
      unfold MemWeather.getWeatherPreference, JsMap.values in Hget.
      assert (MemWeather.weatherPrefIdCounter s ∉ (MemWeather.weatherPrefs s).*1)
        as Hfresh.
      { intros Hin. apply list_elem_of_fmap in Hin as ([k x] & Hk & Hin). simpl in Hk.
        rewrite Forall_forall in Hkeyed. destruct (Hkeyed _ Hin) as [_ Hlt].
        simpl in Hlt. lia. }
      rewrite set_new by exact Hfresh.
      unfold MemWeather.wellKeyed, MemWeather.onePerUser, JsMap.values. simpl.
      rewrite !fmap_app. simpl. split; [split|].
      * apply NoDup_app. split; [exact Hnodup|]. split; [|apply NoDup_singleton].
        intros k Hk Hin. apply list_elem_of_singleton in Hin as ->. by apply Hfresh.
      * apply Forall_app. split.
        -- eapply Forall_impl; [exact Hkeyed|]. intros e [Hid Hlt]. split; [done|lia].
        -- apply Forall_singleton. simpl. split; [done|lia].
      * apply NoDup_app. split; [exact Huniq|]. split; [|apply NoDup_singleton].
        intros u Hu Hin. apply list_elem_of_singleton in Hin as ->.
        apply list_elem_of_fmap in Hu as (x & Hx & Hin).
        rewrite head_filter_None in Hget. by apply (Hget x Hin).
  - unfold MemWeather.updateWeatherPreference.
    destruct (MemWeather.getWeatherPreference userId s) as [pref|] eqn:Hget; [|done].
    simpl. destruct Hkeep as [Hid Hu].
    assert (WeatherPreference.userId pref = userId) as Hp.
    { unfold MemWeather.getWeatherPreference in Hget.
      by apply head_filter_Some in Hget as [Hp _]. }
    apply replace_keeps_shape; try done.
    + by rewrite Hp.
    + simpl. by rewrite Hid.
    + simpl. by rewrite Hu.
Qed.

(** X9.  Over any sequence of [setWeatherPreference] calls, and of
    [updateWeatherPreference] calls whose patch names neither [id] nor
    [userId], the in-memory store built by the constructor holds at most one
    preference per user, each under its own [id] and below the counter. *)
Theorem one_weather_preference_per_user (ops : list MemWeather.op) :
  Forall MemWeather.keepsIdentity ops →
  MemWeather.wellKeyed (MemWeather.run ops MemWeather.constructor)
  ∧ MemWeather.onePerUser (MemWeather.run ops MemWeather.constructor).
Proof.
  intros Hops. unfold MemWeather.run.
  assert (MemWeather.wellKeyed MemWeather.constructor
          ∧ MemWeather.onePerUser MemWeather.constructor) as Hstart.
  { unfold MemWeather.wellKeyed, MemWeather.onePerUser. simpl.
    repeat split; first [by apply (bool_decide_unpack _) | repeat constructor]. }
  revert Hstart. generalize MemWeather.constructor.
  induction Hops as [|o ops Ho _ IH]; intros s Hs; [exact Hs|].
  simpl. apply IH. by apply step_keeps_weather_shape.
Qed.

Lemma one_weather_preference_per_user_witness :
  MemWeather.onePerUser (MemWeather.run sampleWeatherCalls MemWeather.constructor).
Proof.
  apply one_weather_preference_per_user. unfold sampleWeatherCalls. repeat constructor.
Defined.

(** ** The routes over the in-memory backend *)

(** Every route acts on the store as at most one call of the facade, and
    only as one that the session's user is permitted. *)
Lemma handle_as_step (tz now : Z) (sess : Routes.session) (req : Routes.request)
      (s : MemStorage.t) :
  let s' := (Routes.handle (H := memStorage tz) now sess req s).2 in
  s' = s
  ∨ ∃ o, permitted (Routes.sessionUser sess) s o ∧ s' = (Trace.step tz o s).1.
Proof.
  destruct req as [[userData|]| | | | |id|[body|]|id body|id| |[body|]|id body|id|
                   |[body|]|id body|id| |[body|]]; simpl.
  all: try (by left).
  - destruct (MemStorage.getUserByUsername _ s) eqn:E1; [by left|].
    destruct (MemStorage.getUserByEmail _ s) eqn:E2; [by left|].
    right. exists (Trace.CreateUser userData). by split.
  - destruct (bool_decide _); [by left|].
    destruct (MemStorage.getUserByUsername _ s); [|by left].
    by destruct (bool_decide _); left.
  - destruct (Routes.sessionUser sess); [|by left].
    by destruct (MemStorage.getUser _ s); left.
  - by destruct (Routes.sessionUser sess); left.
  - destruct (Routes.sessionUser sess); [|by left].
    destruct (MemStorage.getTask id s); [|by left]. by destruct (bool_decide _); left.
  - destruct (Routes.sessionUser sess) as [u|]; [|by left].
    right. exists (Trace.CreateTask now (Routes.taskBodyFor u body)). split; [done|].
    simpl. by destruct (InsertTask.completed body).
  - by destruct (Routes.sessionUser sess); left.
  - destruct (Routes.sessionUser sess) as [u|]; [|by left].
    destruct (MemStorage.getTask id s) as [task|] eqn:E; [|by left].
    destruct (bool_decide_reflect (Task.userId task = u)) as [Hu|Hu]; [|by left].
    right. exists (Trace.UpdateTask now id body). split.
    + exists task. by rewrite Hu.
    + simpl. by destruct (MemStorage.updateTask tz now id body s).
  - destruct (Routes.sessionUser sess) as [u|]; [|by left].
    destruct (MemStorage.getTask id s) as [task|] eqn:E; [|by left].
    destruct (bool_decide_reflect (Task.userId task = u)) as [Hu|Hu]; [|by left].
    right. exists (Trace.DeleteTask id). split; [|done]. exists task. by rewrite Hu.
  - by destruct (Routes.sessionUser sess); left.
  - destruct (Routes.sessionUser sess) as [u|]; [|by left].
    right. exists (Trace.CreateInventoryItem now (Routes.inventoryBodyFor u body)).
    by split.
  - by destruct (Routes.sessionUser sess); left.
  - destruct (Routes.sessionUser sess) as [u|]; [|by left].
    destruct (MemStorage.getInventoryItem id s) as [item|] eqn:E; [|by left].
    destruct (bool_decide_reflect (Inventory.userId item = u)) as [Hu|Hu]; [|by left].
    right. exists (Trace.UpdateInventoryItem now id body). split.
    + exists item. by rewrite Hu.
    + simpl. by destruct (MemStorage.updateInventoryItem now id body s).
  - destruct (Routes.sessionUser sess) as [u|]; [|by left].
    destruct (MemStorage.getInventoryItem id s) as [item|] eqn:E; [|by left].
    destruct (bool_decide_reflect (Inventory.userId item = u)) as [Hu|Hu]; [|by left].
    right. exists (Trace.DeleteInventoryItem id). split; [|done].
    exists item. by rewrite Hu.
  - by destruct (Routes.sessionUser sess); left.
  - destruct (Routes.sessionUser sess) as [u|]; [|by left].
    right. exists (Trace.CreateEquipmentItem (Routes.equipmentBodyFor u body)).
    by split.
  - by destruct (Routes.sessionUser sess); left.
  - destruct (Routes.sessionUser sess) as [u|]; [|by left].
    destruct (MemStorage.getEquipmentItem id s) as [item|] eqn:E; [|by left].
    destruct (bool_decide_reflect (Equipment.userId item = u)) as [Hu|Hu]; [|by left].
    right. exists (Trace.UpdateEquipmentItem id body). split.
    + exists item. by rewrite Hu.
    + simpl. by destruct (MemStorage.updateEquipmentItem id body s).
  - destruct (Routes.sessionUser sess) as [u|]; [|by left].
    destruct (MemStorage.getEquipmentItem id s) as [item|] eqn:E; [|by left].
    destruct (bool_decide_reflect (Equipment.userId item = u)) as [Hu|Hu]; [|by left].
    right. exists (Trace.DeleteEquipmentItem id). split; [|done].
    exists item. by rewrite Hu.
  - by destruct (Routes.sessionUser sess); left.
  - destruct (Routes.sessionUser sess) as [u|]; [|by left].
    right. exists (Trace.CreateContact (Routes.contactBodyFor u body)). by split.
  - by destruct (Routes.sessionUser sess); left.
Qed.

Lemma recordsKept_refl (b : Z) (s : MemStorage.t) : recordsKept b s s.
Proof. by repeat split. Qed.

Lemma recordsKept_trans (b : Z) (s1 s2 s3 : MemStorage.t) :
  recordsKept b s1 s2 → recordsKept b s2 s3 → recordsKept b s1 s3.
Proof.
  intros (Ht & Hi & He & Hc) (Ht' & Hi' & He' & Hc'). repeat split; eauto.
Qed.

(** A permitted call of a user leaves the records of every other user
    where they are. *)
Lemma step_keeps_others (tz : Z) (u : option Z) (b : Z) (o : Trace.op)
      (s : MemStorage.t) :
  permitted u s o → u ≠ Some b → countersAhead s →
  recordsKept b s (Trace.step tz o s).1.
Proof.
  intros Hperm Hu (_ & Ht & Hi & He & Hc).
  destruct o; simpl in Hperm; try done; simpl.
  - repeat split; try done. intros k r Hk Hr.
    destruct (InsertTask.completed insertTask); simpl;
      (rewrite lookup_insert_ne; [done|]); specialize (Ht k r Hk); simpl in Ht; lia.
  - destruct Hperm as (task & Hget & Hown). unfold MemStorage.updateTask.
    rewrite Hget. repeat split; try done. simpl. intros k r Hk Hr.
    rewrite lookup_insert_ne; [done|]. intros ->.
    unfold MemStorage.getTask in Hget. congruence.
  - destruct Hperm as (task & Hget & Hown). repeat split; try done.
    simpl. intros k r Hk Hr. rewrite lookup_delete_ne; [done|]. intros ->.
    unfold MemStorage.getTask in Hget. congruence.
  - repeat split; try done. simpl. intros k r Hk Hr.
    rewrite lookup_insert_ne; [done|]. specialize (Hi k r Hk). simpl in Hi. lia.
  - destruct Hperm as (item & Hget & Hown). unfold MemStorage.updateInventoryItem.
    rewrite Hget. repeat split; try done. simpl. intros k r Hk Hr.
    rewrite lookup_insert_ne; [done|]. intros ->.
    unfold MemStorage.getInventoryItem in Hget. congruence.
  - destruct Hperm as (item & Hget & Hown). repeat split; try done.
    simpl. intros k r Hk Hr. rewrite lookup_delete_ne; [done|]. intros ->.
    unfold MemStorage.getInventoryItem in Hget. congruence.
  - repeat split; try done. simpl. intros k r Hk Hr.
    rewrite lookup_insert_ne; [done|]. specialize (He k r Hk). simpl in He. lia.
  - destruct Hperm as (item & Hget & Hown). unfold MemStorage.updateEquipmentItem.
    rewrite Hget. repeat split; try done. simpl. intros k r Hk Hr.
    rewrite lookup_insert_ne; [done|]. intros ->.
    unfold MemStorage.getEquipmentItem in Hget. congruence.
  - destruct Hperm as (item & Hget & Hown). repeat split; try done.
    simpl. intros k r Hk Hr. rewrite lookup_delete_ne; [done|]. intros ->.
    unfold MemStorage.getEquipmentItem in Hget. congruence.
  - repeat split; try done. simpl. intros k r Hk Hr.
    rewrite lookup_insert_ne; [done|]. specialize (Hc k r Hk). simpl in Hc. lia.
Qed.

Lemma handle_countersAhead (tz now : Z) (sess : Routes.session) (req : Routes.request)
      (s : MemStorage.t) :
  countersAhead s →
  countersAhead (Routes.handle (H := memStorage tz) now sess req s).2.
Proof.
  intros Hs. destruct (handle_as_step tz now sess req s) as [->|(o & _ & ->)];
    [exact Hs | by apply step_countersAhead].
Qed.

Lemma serve_keeps_others (tz b : Z)
      (calls : list (Z * Routes.session * Routes.request)) (s0 s : MemStorage.t) :
  Forall (λ call, Routes.sessionUser call.1.2 ≠ Some b) calls →
  countersAhead s → recordsKept b s0 s →
  recordsKept b s0 (Routes.serve (H := memStorage tz) calls s).
Proof.
  intros Hcalls. revert s. unfold Routes.serve.
  induction Hcalls as [|[[now sess] req] calls Hsess _ IH]; intros s Hs Hkept;
    [exact Hkept|].
  simpl in *. apply IH.
  - by apply handle_countersAhead.
  - apply (recordsKept_trans b s0 s); [exact Hkept|].
    destruct (handle_as_step tz now sess req s) as [->|(o & Hperm & ->)];
      [apply recordsKept_refl|].
    by apply (step_keeps_others tz (Routes.sessionUser sess)).
Qed.

(** X10.  With the in-memory backend, in a store whose keys are below its
    counters, no sequence of requests made in sessions other than a user's
    own changes, moves or removes a task, an inventory item, an equipment
    item or a contact that the user owns. *)
Theorem others_records_untouched (tz b : Z)
        (calls : list (Z * Routes.session * Routes.request)) (s : MemStorage.t) :
  countersAhead s →
  Forall (λ call, Routes.sessionUser call.1.2 ≠ Some b) calls →
  recordsKept b s (Routes.serve (H := memStorage tz) calls s).
Proof.
  intros Hs Hcalls. apply serve_keeps_others; [exact Hcalls | exact Hs|].
  apply recordsKept_refl.
Qed.

Lemma others_records_untouched_witness :
  recordsKept 1 (MemStorage.constructor 0 noon)
    (Routes.serve (H := memStorage 0) secondUserRequests (MemStorage.constructor 0 noon)).
Proof.
  apply others_records_untouched; [apply constructor_countersAhead|].
  unfold secondUserRequests. repeat (constructor; [vm_compute; discriminate|]).
  constructor.
Defined.

(** ** Registration and login *)

(** A permitted call that is not a registration leaves the users alone. *)
Lemma step_users (tz : Z) (u : option Z) (o : Trace.op) (s : MemStorage.t) :
  permitted u s o →
  (∀ insertUser, o ≠ Trace.CreateUser insertUser) →
  MemStorage.users (Trace.step tz o s).1 = MemStorage.users s.
Proof.
  intros Hperm Hother.
  destruct o as [insertUser| | |now id data|id| |now id data|id| |id data|id| | |];
    simpl in Hperm; try done; simpl;
    try (destruct Hperm as (r & Hget & _));
    unfold MemStorage.updateTask, MemStorage.updateInventoryItem,
      MemStorage.updateEquipmentItem;
    rewrite ?Hget; try done.
  by destruct (Hother insertUser).
Qed.

Lemma step_uniqueUsers (tz : Z) (u : option Z) (o : Trace.op) (s : MemStorage.t) :
  permitted u s o → countersAhead s → uniqueUsers s →
  uniqueUsers (Trace.step tz o s).1.
Proof.
  intros Hperm (Hu & _) Huniq.
  assert ((∃ insertUser, o = Trace.CreateUser insertUser)
          ∨ ∀ insertUser, o ≠ Trace.CreateUser insertUser) as [[insertUser ->]|Hother]
    by (destruct o; eauto; right; discriminate).
  - destruct Hperm as [Hname Hemail]. simpl.
    unfold MemStorage.getUserByUsername in Hname.
    unfold MemStorage.getUserByEmail in Hemail.
    rewrite mem_lookup_missing in Hname. rewrite mem_lookup_missing in Hemail.
    intros k1 k2 u1 u2. simpl.
    destruct (decide (MemStorage.userIdCounter s = k1)) as [<-|H1];
      destruct (decide (MemStorage.userIdCounter s = k2)) as [<-|H2];
      rewrite ?lookup_insert_eq, ?lookup_insert_ne by done; try done.
    + intros [= <-] H2' [Hn|He]; simpl in *.
      * by destruct (Hname k2 u2 H2').
      * by destruct (Hemail k2 u2 H2').
    + intros H1' [= <-] [Hn|He]; simpl in *.
      * by destruct (Hname k1 u1 H1').
      * by destruct (Hemail k1 u1 H1').
    + apply Huniq.
  - unfold uniqueUsers. by rewrite (step_users tz u o s Hperm).
Qed.

Lemma constructor_uniqueUsers (tz now : Z) : uniqueUsers (MemStorage.constructor tz now).
Proof.
  intros k1 k2 u1 u2. unfold MemStorage.constructor. simpl.
  intros H1 H2 _.
  apply lookup_insert_Some in H1 as [[<- _]|[_ H1]]; [|by rewrite lookup_empty in H1].
  apply lookup_insert_Some in H2 as [[<- _]|[_ H2]]; [|by rewrite lookup_empty in H2].
  reflexivity.
Qed.

(** X11.  With the in-memory backend, whatever requests are served after
    construction, in whatever sessions, no two stored users ever share a
    username or an email. *)
Theorem usernames_and_emails_stay_unique (tz now : Z)
        (calls : list (Z * Routes.session * Routes.request)) :
  uniqueUsers (Routes.serve (H := memStorage tz) calls (MemStorage.constructor tz now)).
Proof.
  assert (countersAhead (MemStorage.constructor tz now)
          ∧ uniqueUsers (MemStorage.constructor tz now)) as Hstart
    by (split; [apply constructor_countersAhead | apply constructor_uniqueUsers]).
  revert Hstart. generalize (MemStorage.constructor tz now). unfold Routes.serve.
  induction calls as [|[[now' sess] req] calls IH]; intros s [Hs Hu]; [exact Hu|].
  simpl. apply IH. split; [by apply handle_countersAhead|].
  destruct (handle_as_step tz now' sess req s) as [->|(o & Hperm & ->)]; [exact Hu|].
  by apply (step_uniqueUsers tz (Routes.sessionUser sess)).
Qed.

(** X12.  A registration that is answered with 201 opens a session for the
    new user, and a login with the username and password just registered,
    from any session, is answered with 200 and the same user, provided
    neither is empty.  The in-memory store is one whose user counter's key
    is free. *)
Theorem register_then_login (tz now now' : Z) (sess sess' : Routes.session)
        (userData : InsertUser.t) (s : MemStorage.t) :
  MemStorage.users s !! MemStorage.userIdCounter s = None →
  InsertUser.username userData ≠ "" →
  InsertUser.password userData ≠ "" →
  let out :=
    Routes.handle (H := memStorage tz) now sess (Routes.Register (Some userData)) s in
  Routes.status out.1.1 = 201 →
  ∃ user,
    MemStorage.getUser (User.id user) out.2 = Some user
    ∧ Routes.json out.1.1 = Routes.PublicUser (Routes.withoutPassword user)
    ∧ out.1.2 = Some (User.id user)
    ∧ Routes.handle (H := memStorage tz) now' sess'
        (Routes.Login (InsertUser.username userData) (InsertUser.password userData))
        out.2
      = (Routes.mkResponse 200 (Routes.PublicUser (Routes.withoutPassword user)),
         Some (User.id user), out.2).
Proof.
  intros Hfree Hname Hpass out. subst out. simpl.
  destruct (MemStorage.getUserByUsername _ s) eqn:E1; [discriminate|].
  destruct (MemStorage.getUserByEmail _ s) eqn:E2; [discriminate|].
  destruct (created_user_found userData s Hfree E1 E2) as [Hn _].
  simpl in Hn. intros _.
  exists (MemStorage.createUser userData s).1.
  split; [apply lookup_insert_eq|]. split; [reflexivity|]. split; [reflexivity|]. simpl.
  rewrite bool_decide_eq_false_2 by (intros [?|?]; contradiction).
  rewrite Hn. simpl. by rewrite bool_decide_eq_true_2.
Qed.

Lemma register_then_login_witness :
  let s1 :=
    (Routes.handle (H := memStorage 0) noon None (Routes.Register (Some secondUser))
       (MemStorage.constructor 0 noon)).2 in
  ∃ user,
    Routes.handle (H := memStorage 0) noon None (Routes.Login "maria" "secret") s1
    = (Routes.mkResponse 200 (Routes.PublicUser (Routes.withoutPassword user)),
       Some (User.id user), s1).
Proof.
  destruct (register_then_login 0 noon noon None None secondUser
              (MemStorage.constructor 0 noon))
    as (user & _ & _ & _ & Hlogin);
    [vm_compute; reflexivity | vm_compute; discriminate | vm_compute; discriminate
    |vm_compute; reflexivity|].
  exists user. exact Hlogin.
Defined.

(** X13.  A login is answered with 200 only when a stored user has the
    username and exactly the password of the request, and the session is
    then that user's; any other answer leaves the session as it was.  A
    login never changes the store. *)
Theorem login_sound (tz now : Z) (sess : Routes.session) (username password : string)
        (s : MemStorage.t) :
  let out :=
    Routes.handle (H := memStorage tz) now sess (Routes.Login username password) s in
  out.2 = s
  ∧ (Routes.status out.1.1 = 200 →
     ∃ k user, MemStorage.getUser k s = Some user
       ∧ User.username user = username ∧ User.password user = password
       ∧ username ≠ "" ∧ password ≠ ""
       ∧ out.1.2 = Some (User.id user))
  ∧ (Routes.status out.1.1 ≠ 200 → out.1.2 = sess).
Proof.
  intros out. subst out. simpl.
  destruct (bool_decide_reflect (username = "" ∨ password = "")) as [He|He].
  { split; [done|]. split; [discriminate | done]. }
  destruct (MemStorage.getUserByUsername username s) as [user|] eqn:E;
    [|split; [done|]; split; [discriminate | done]].
  destruct (bool_decide_reflect (User.password user = password)) as [Hp|Hp];
    [|split; [done|]; split; [discriminate | done]].
  split; [done|]. split; [|done]. intros _.
  apply mem_lookup_found in E as [Hn [k Hk]].
  exists k, user. repeat split; try done; intros ->; apply He; auto.
Qed.

Lemma login_sound_witness :
  ∃ k user,
    MemStorage.getUser k (MemStorage.constructor 0 noon) = Some user
    ∧ User.username user = "demo" ∧ User.password user = "password123".
Proof.
  destruct (login_sound 0 noon None "demo" "password123" (MemStorage.constructor 0 noon))
    as (_ & Hok & _).
  destruct Hok as (k & user & Hk & Hname & Hpass & _); [vm_compute; reflexivity|].
  exists k, user. by repeat split.
Defined.

(** A wrong password is answered with 401 and opens no session. *)
Example login_with_wrong_password :
  let out :=
    Routes.handle (H := memStorage 0) noon None (Routes.Login "demo" "password")
      (MemStorage.constructor 0 noon) in
  (Routes.status out.1.1, out.1.2) = (401, None).
Proof. vm_compute. reflexivity. Qed.

(** ** Creating through the routes, and handing a record over *)

(** X14.  A POST in a user's session, with a body that the schema accepts,
    creates the record for that user, whatever [userId] the body names, and
    the record is then in the listing that the user's GET of the collection
    returns.  This holds with the in-memory backend for tasks, inventory
    items and contacts, and for equipment items whose body names neither
    [lastUsed] nor [nextService]: [createEquipmentItem] calls [toISOString]
    on the [Date] of either, which raises an exception when the text does
    not parse. *)
Theorem post_then_list (tz now now' u : Z) (sess : Routes.session) (s : MemStorage.t) :
  Routes.sessionUser sess = Some u →
  (∀ body,
      let out :=
        Routes.handle (H := memStorage tz) now sess (Routes.PostTask (Some body)) s in
      ∃ task,
        out.1.1 = Routes.mkResponse 201 (Routes.OneTask (Some task))
        ∧ Task.userId task = u ∧ out.1.2 = sess
        ∧ Routes.handle (H := memStorage tz) now' sess Routes.ListTasks out.2
          = (Routes.mkResponse 200 (Routes.Tasks (MemStorage.getTasks u out.2)), sess, out.2)
        ∧ task ∈ MemStorage.getTasks u out.2)
  ∧ (∀ body,
      let out :=
        Routes.handle (H := memStorage tz) now sess (Routes.PostInventory (Some body)) s in
      ∃ item,
        out.1.1 = Routes.mkResponse 201 (Routes.OneInventoryItem (Some item))
        ∧ Inventory.userId item = u ∧ out.1.2 = sess
        ∧ Routes.handle (H := memStorage tz) now' sess Routes.ListInventory out.2
          = (Routes.mkResponse 200
               (Routes.InventoryItems (MemStorage.getInventoryItems u out.2)), sess, out.2)
        ∧ item ∈ MemStorage.getInventoryItems u out.2)
  ∧ (∀ body,
      InsertEquipment.lastUsed body = None →
      InsertEquipment.nextService body = None →
      let out :=
        Routes.handle (H := memStorage tz) now sess (Routes.PostEquipment (Some body)) s in
      ∃ item,
        out.1.1 = Routes.mkResponse 201 (Routes.OneEquipmentItem (Some item))
        ∧ Equipment.userId item = u ∧ out.1.2 = sess
        ∧ Routes.handle (H := memStorage tz) now' sess Routes.ListEquipment out.2
          = (Routes.mkResponse 200
               (Routes.EquipmentItems (MemStorage.getEquipmentItems u out.2)), sess, out.2)
        ∧ item ∈ MemStorage.getEquipmentItems u out.2)
  ∧ (∀ body,
      let out :=
        Routes.handle (H := memStorage tz) now sess (Routes.PostContact (Some body)) s in
      ∃ contact,
        out.1.1 = Routes.mkResponse 201 (Routes.OneContact (Some contact))
        ∧ Contact.userId contact = u ∧ out.1.2 = sess
        ∧ Routes.handle (H := memStorage tz) now' sess Routes.ListContacts out.2
          = (Routes.mkResponse 200 (Routes.Contacts (MemStorage.getContacts u out.2)),
             sess, out.2)
        ∧ contact ∈ MemStorage.getContacts u out.2).
Proof.
  intros Hu. split; [|split; [|split]]; intros body; [| |intros _ _|];
    intros out; subst out; simpl; rewrite Hu; simpl.
  - exists (MemStorage.createTask tz now (Routes.taskBodyFor u body) s).1.
    split; [reflexivity|]. split; [simpl; by destruct (InsertTask.completed body)|].
    split; [reflexivity|]. split; [reflexivity|].
    apply elem_of_owned. split; [simpl; by destruct (InsertTask.completed body)|].
    eexists. apply lookup_insert_eq.
  - eexists. split; [reflexivity|]. split; [reflexivity|].
    split; [reflexivity|]. split; [reflexivity|].
    apply elem_of_owned. split; [reflexivity|]. eexists. apply lookup_insert_eq.
  - eexists. split; [reflexivity|]. split; [reflexivity|].
    split; [reflexivity|]. split; [reflexivity|].
    apply elem_of_owned. split; [reflexivity|]. eexists. apply lookup_insert_eq.
  - eexists. split; [reflexivity|]. split; [reflexivity|].
    split; [reflexivity|]. split; [reflexivity|].
    apply elem_of_owned. split; [reflexivity|]. eexists. apply lookup_insert_eq.
Qed.

Lemma post_then_list_witness :
  let out :=
    Routes.handle (H := memStorage 0) noon (Some 2)
      (Routes.PostTask (Some (sampleInsertTask (dateOnly 19667) false None)))
      (MemStorage.constructor 0 noon) in
  let out' :=
    Routes.handle (H := memStorage 0) noon (Some 2)
      (Routes.PostEquipment (Some sampleInsertEquipment))
      (MemStorage.constructor 0 noon) in
  (∃ task,
      out.1.1 = Routes.mkResponse 201 (Routes.OneTask (Some task))
      ∧ Task.userId task = 2
      ∧ task ∈ MemStorage.getTasks 2 out.2)
  ∧ (∃ item,
      out'.1.1 = Routes.mkResponse 201 (Routes.OneEquipmentItem (Some item))
      ∧ Equipment.userId item = 2
      ∧ item ∈ MemStorage.getEquipmentItems 2 out'.2).
Proof.
  intros out out'.
  destruct (post_then_list 0 noon noon 2 (Some 2) (MemStorage.constructor 0 noon) eq_refl)
    as (Htask & _ & Hequipment & _).
  split.
  - destruct (Htask (sampleInsertTask (dateOnly 19667) false None))
      as (task & Hresp & Howner & _ & _ & Hlisted).
    exists task. split; [exact Hresp|]. split; [exact Howner | exact Hlisted].
  - destruct (Hequipment sampleInsertEquipment eq_refl eq_refl)
      as (item & Hresp & Howner & _ & _ & Hlisted).
    exists item. split; [exact Hresp|]. split; [exact Howner | exact Hlisted].
Defined.

(** X15.  A PATCH may name [userId].  When the owner of a task patches it
    over to another user, with the in-memory backend and a body that does
    not have [completed: false], the task is from then on refused to the
    former owner with 403 and served to the new one.  (With
    [completed: false] the backend goes on to call [getTime] on the merged
    due date, which raises an exception when that is text.) *)
Theorem patch_hands_task_over (tz now now' u b id : Z) (sess sessB : Routes.session)
        (body : TaskPatch.t) (s : MemStorage.t) (task : Task.t) :
  Routes.sessionUser sess = Some u →
  Routes.sessionUser sessB = Some b →
  MemStorage.getTask id s = Some task →
  Task.userId task = u →
  TaskPatch.userId body = Some b →
  TaskPatch.completed body ≠ Some false →
  b ≠ u →
  let s1 := (Routes.handle (H := memStorage tz) now sess (Routes.PatchTask id body) s).2 in
  refusedWith 403 sess s1
    (Routes.handle (H := memStorage tz) now' sess (Routes.GetTask id) s1)
  ∧ ∃ moved,
      Task.userId moved = b
      ∧ Routes.handle (H := memStorage tz) now' sessB (Routes.GetTask id) s1
        = (Routes.mkResponse 200 (Routes.OneTask (Some moved)), sessB, s1).
Proof.
  intros Hu Hb Hget Hown Hbody Hcompleted Hne. simpl. rewrite Hu, Hget.
  rewrite bool_decide_eq_true_2 by exact Hown.
  unfold MemStorage.updateTask. rewrite Hget.
  destruct (TaskPatch.completed body) as [[|]|] eqn:Hc; [|done|]; simpl;
    unfold MemStorage.getTask; simpl; rewrite lookup_insert_eq, Hb; simpl;
    rewrite Hbody; simpl;
    (split;
     [rewrite bool_decide_eq_false_2 by exact Hne; by repeat split
     |eexists; split; [|by rewrite bool_decide_eq_true_2]; simpl; by rewrite Hbody]).
Qed.

Lemma patch_hands_task_over_witness :
  let s1 :=
    (Routes.handle (H := memStorage 0) noon (Some 1) (Routes.PatchTask 1 (handOverPatch 2))
       memWithOverdueTask).2 in
  refusedWith 403 (Some 1) s1
    (Routes.handle (H := memStorage 0) noon (Some 1) (Routes.GetTask 1) s1)
  ∧ Routes.status
      (Routes.handle (H := memStorage 0) noon (Some 2) (Routes.GetTask 1) s1).1.1 = 200.
Proof.
  intros s1.
  destruct (patch_hands_task_over 0 noon noon 1 2 1 (Some 1) (Some 2) (handOverPatch 2)
              memWithOverdueTask
              (MemStorage.createTask 0 noon (sampleInsertTask (dateOnly 19661) false None)
                 MemStorage.empty).1)
    as [Hrefused (moved & _ & Hserved)];
    try (vm_compute; reflexivity); [vm_compute; discriminate | vm_compute; discriminate|].
  split; [exact Hrefused|]. fold s1 in Hserved. by rewrite Hserved.
Defined.

(** ** Access control, for any backend *)

Section AccessControl.
Context {S : Type} `{Routes.IStorage S}.

(** X16.  Whatever the backend: a guarded route answers a request without a
    session user with 401; a route on one task, inventory item or equipment
    item answers 404 when the storage has no such record and 403 when the
    record is another user's.  None of these answers changes the session or
    the storage. *)
Theorem guarded_routes_refuse (now : Z) (sess : Routes.session) (s : S) :
  (∀ req, guarded req → Routes.sessionUser sess = None →
     refusedWith 401 sess s (Routes.handle now sess req s))
  ∧ (∀ u id body req,
      Routes.sessionUser sess = Some u →
      req ∈ [Routes.GetTask id; Routes.PatchTask id body; Routes.DeleteTask id] →
      refusedUnlessOwner Task.userId u (Routes.getTask id s) sess s
        (Routes.handle now sess req s))
  ∧ (∀ u id body req,
      Routes.sessionUser sess = Some u →
      req ∈ [Routes.PatchInventory id body; Routes.DeleteInventory id] →
      refusedUnlessOwner Inventory.userId u (Routes.getInventoryItem id s) sess s
        (Routes.handle now sess req s))
  ∧ (∀ u id body req,
      Routes.sessionUser sess = Some u →
      req ∈ [Routes.PatchEquipment id body; Routes.DeleteEquipment id] →
      refusedUnlessOwner Equipment.userId u (Routes.getEquipmentItem id s) sess s
        (Routes.handle now sess req s)).
Proof.
  split; [|split; [|split]].
  - intros req Hguard Hnone.
    destruct req as [?| | | | |?|[?|]|? ?|?| |[?|]|? ?|?| |[?|]|? ?|?| |[?|]];
      try done; simpl; rewrite Hnone; by repeat split.
  - intros u id body req Hu Hreq. unfold refusedUnlessOwner.
    repeat (apply elem_of_cons in Hreq as [->|Hreq]); [| | |by apply elem_of_nil in Hreq];
      simpl; rewrite Hu; destruct (Routes.getTask id s) as [r|];
      try (by repeat split);
      intros Hr; by rewrite bool_decide_eq_false_2.
  - intros u id body req Hu Hreq. unfold refusedUnlessOwner.
    repeat (apply elem_of_cons in Hreq as [->|Hreq]); [| |by apply elem_of_nil in Hreq];
      simpl; rewrite Hu; destruct (Routes.getInventoryItem id s) as [r|];
      try (by repeat split);
      intros Hr; by rewrite bool_decide_eq_false_2.
  - intros u id body req Hu Hreq. unfold refusedUnlessOwner.
    repeat (apply elem_of_cons in Hreq as [->|Hreq]); [| |by apply elem_of_nil in Hreq];
      simpl; rewrite Hu; destruct (Routes.getEquipmentItem id s) as [r|];
      try (by repeat split);
      intros Hr; by rewrite bool_decide_eq_false_2.
Qed.

End AccessControl.

Lemma guarded_routes_refuse_witness :
  refusedWith 401 None (MemStorage.constructor 0 noon)
    (Routes.handle (H := memStorage 0) noon None Routes.ListTasks
       (MemStorage.constructor 0 noon))
  ∧ refusedWith 403 (Some 2) (MemStorage.constructor 0 noon)
      (Routes.handle (H := memStorage 0) noon (Some 2) (Routes.DeleteTask 1)
         (MemStorage.constructor 0 noon)).
Proof.
  destruct (guarded_routes_refuse (H := memStorage 0) noon None
              (MemStorage.constructor 0 noon)) as [Hauth _].
  destruct (guarded_routes_refuse (H := memStorage 0) noon (Some 2)
              (MemStorage.constructor 0 noon)) as (_ & Htask & _).
  split; [apply Hauth; [exact I | reflexivity]|].
  specialize (Htask 2 1 (completedPatch true) (Routes.DeleteTask 1) eq_refl).
  unfold refusedUnlessOwner in Htask.
  change (Routes.getTask 1 (MemStorage.constructor 0 noon))
    with (MemStorage.getTask 1 (MemStorage.constructor 0 noon)) in Htask.
  destruct (MemStorage.getTask 1 (MemStorage.constructor 0 noon)) as [task|] eqn:E;
    [|vm_compute in E; discriminate].
  apply Htask.
  - apply list_elem_of_further, list_elem_of_further, list_elem_of_here.
  - vm_compute in E. injection E as <-. vm_compute. discriminate.
Defined.

(** ** The client's charts and filters over the stored statuses *)

Lemma dateStatus_known (dueDate today : Z) :
  dateStatus dueDate today ∈ ["completed"; "overdue"; "today"; "upcoming"].
Proof.
  unfold dateStatus.
  destruct (dueDate <? today); [|destruct (dueDate =? today)];
    auto using list_elem_of_here, list_elem_of_further.
Qed.

Lemma lowOrGood_known (quantity threshold : Q) :
  lowOrGood quantity threshold ∈ ["low"; "good"].
Proof.
  unfold lowOrGood.
  destruct (Qlt_le_dec quantity threshold);
    auto using list_elem_of_here, list_elem_of_further.
Qed.

Lemma step_statusesKnown (tz : Z) (o : Trace.op) (s : MemStorage.t) :
  derivesStatus o → statusesKnown s → statusesKnown (Trace.step tz o s).1.
Proof.
  intros Hguard [Ht Hi]. unfold statusesKnown.
  destruct o; simpl in *; try (by split).
  - unfold MemStorage.updateUser. by destruct (MemStorage.getUser id s).
  - split; [|done].
    destruct (InsertTask.completed insertTask); simpl;
      (apply map_Forall_insert_2; [|exact Ht]); unfold knownTaskStatus; simpl;
      [apply list_elem_of_here | apply dateStatus_known].
  - unfold MemStorage.updateTask.
    destruct (MemStorage.getTask id s) as [task|] eqn:Hget; [|by split].
    simpl. split; [|done]. apply map_Forall_insert_2; [|exact Ht].
    unfold knownTaskStatus.
    destruct (TaskPatch.completed data) as [[|]|] eqn:E; simpl.
    + apply list_elem_of_here.
    + apply dateStatus_known.
    + destruct Hguard as [[c Hc]|Hnone]; [discriminate|].
      rewrite Hnone. exact (Ht id task Hget).
  - split; [|done]. by apply map_Forall_delete.
  - split; [done|]. apply map_Forall_insert_2; [|exact Hi].
    unfold knownInventoryStatus. simpl. apply lowOrGood_known.
  - unfold MemStorage.updateInventoryItem.
    destruct (MemStorage.getInventoryItem id s) as [item|] eqn:Hget; [|by split].
    simpl. split; [done|]. apply map_Forall_insert_2; [|exact Hi].
    unfold knownInventoryStatus.
    destruct (bool_decide_reflect (is_Some (InventoryPatch.quantity data)
                                   ∨ is_Some (InventoryPatch.threshold data)))
      as [Hq|Hq]; simpl.
    + apply lowOrGood_known.
    + destruct Hguard as [Hg|[Hg|Hnone]]; [by destruct Hq; left | by destruct Hq; right|].
      rewrite Hnone. exact (Hi id item Hget).
  - split; [done|]. by apply map_Forall_delete.
  - unfold MemStorage.updateEquipmentItem.
    by destruct (MemStorage.getEquipmentItem id s).
  - unfold MemStorage.updateContact. by destruct (MemStorage.getContact id s).
Qed.

Lemma constructor_statusesKnown (tz now : Z) :
  statusesKnown (MemStorage.constructor tz now).
Proof.
  unfold statusesKnown, MemStorage.constructor. simpl. split.
  - repeat (apply map_Forall_insert_2;
            [unfold knownTaskStatus; simpl;
             first [apply dateStatus_known | apply list_elem_of_here]|]).
    apply map_Forall_empty.
  - repeat (apply map_Forall_insert_2;
            [unfold knownInventoryStatus; simpl; apply lowOrGood_known|]).
    apply map_Forall_empty.
Qed.

(** Every record of a listing is a stored record. *)
Lemma listed_task_stored (u : Z) (s : MemStorage.t) (task : Task.t) :
  task ∈ MemStorage.getTasks u s → ∃ k, MemStorage.tasks s !! k = Some task.
Proof. intros Hin. by apply elem_of_owned in Hin as [_ Hk]. Qed.

Lemma listed_item_stored (u : Z) (s : MemStorage.t) (item : Inventory.t) :
  item ∈ MemStorage.getInventoryItems u s →
  ∃ k, MemStorage.inventoryItems s !! k = Some item.
Proof. intros Hin. by apply elem_of_owned in Hin as [_ Hk]. Qed.

(** Slices that are keyed by distinct values of a field, one of which every
    record has, count every record once. *)
Lemma four_slices {A : Type} (f : A → string) (a b c d : string) (l : list A) :
  NoDup [a; b; c; d] →
  Forall (λ x, f x ∈ [a; b; c; d]) l →
  (length (filter (λ x, f x = a) l) + length (filter (λ x, f x = b) l)
   + length (filter (λ x, f x = c) l) + length (filter (λ x, f x = d) l))%nat
  = length l.
Proof.
  intros Hdup Hall. induction Hall as [|x l Hx _ IH]; [reflexivity|].
  rewrite !filter_cons. cbn [length]. rewrite <- IH.
  apply NoDup_cons in Hdup as [Ha Hdup]. apply NoDup_cons in Hdup as [Hb Hdup].
  apply NoDup_cons in Hdup as [Hc _].
  repeat (apply elem_of_cons in Hx as [Hx|Hx]); [| | | |by apply elem_of_nil in Hx];
    rewrite Hx; repeat case_decide; subst; simpl; try lia;
    first [by destruct Ha; auto using list_elem_of_here, list_elem_of_further
          |by destruct Hb; auto using list_elem_of_here, list_elem_of_further
          |by destruct Hc; auto using list_elem_of_here, list_elem_of_further].
Qed.

Lemma two_slices {A : Type} (f : A → string) (a b : string) (l : list A) :
  a ≠ b →
  Forall (λ x, f x ∈ [a; b]) l →
  (length (filter (λ x, f x = a) l) + length (filter (λ x, f x = b) l))%nat = length l.
Proof.
  intros Hne Hall. induction Hall as [|x l Hx _ IH]; [reflexivity|].
  rewrite !filter_cons. cbn [length]. rewrite <- IH.
  repeat (apply elem_of_cons in Hx as [Hx|Hx]); [| |by apply elem_of_nil in Hx];
    rewrite Hx; repeat case_decide; subst; simpl; try lia; congruence.
Qed.

(** X17.  In the in-memory store reached from the constructor by any calls
    of the facade that leave the statuses derived, the task chart and the
    inventory chart of the reports page account for every record of the
    user's listings: the slices of each chart add up to the length of the
    listing. *)
Theorem status_charts_count_every_record (tz now u : Z) (ops : list Trace.op) :
  Forall derivesStatus ops →
  let s := (Trace.run tz ops (MemStorage.constructor tz now)).1 in
  Reports.total (Reports.taskStatusData (Some (MemStorage.getTasks u s)))
  = length (MemStorage.getTasks u s)
  ∧ Reports.total (Reports.inventoryStatusData (Some (MemStorage.getInventoryItems u s)))
    = length (MemStorage.getInventoryItems u s).
Proof.
  intros Hops s.
  assert (statusesKnown s) as [Ht Hi].
  { apply (run_keeps tz statusesKnown derivesStatus);
      [apply step_statusesKnown | exact Hops | apply constructor_statusesKnown]. }
  unfold Reports.total. simpl. split.
  - rewrite <- (four_slices Task.status "completed" "overdue" "today" "upcoming"
                  (MemStorage.getTasks u s)); [lia | | ].
    + by apply (bool_decide_unpack _).
    + apply Forall_forall. intros task Hin.
      apply listed_task_stored in Hin as [k Hk]. exact (Ht k task Hk).
  - rewrite <- (two_slices Inventory.status "low" "good"
                  (MemStorage.getInventoryItems u s)); [lia | done | ].
    apply Forall_forall. intros item Hin.
    apply listed_item_stored in Hin as [k Hk]. exact (Hi k item Hk).
Qed.

Lemma status_charts_count_every_record_witness :
  Reports.total
    (Reports.taskStatusData
       (Some (MemStorage.getTasks 1
                (Trace.run 0 sampleCalls (MemStorage.constructor 0 noon)).1)))
  = 5%nat.
Proof.
  assert (Forall derivesStatus sampleCalls) as Hops.
  { unfold sampleCalls. constructor; [exact I|].
    constructor; [left; by eexists|]. constructor; [right; reflexivity|]. constructor. }
  destruct (status_charts_count_every_record 0 noon 1 sampleCalls Hops) as [H _].
  rewrite H. vm_compute. reflexivity.
Defined.

(** The reports count a task whose status a patch has set by hand under no
    slice. *)
Example hand_set_status_is_counted_nowhere :
  let s := (MemStorage.updateTask 0 noon 1 (statusPatch "done") memWithOverdueTask).2 in
  length (MemStorage.getTasks 1 s) = 1%nat
  ∧ Reports.total (Reports.taskStatusData (Some (MemStorage.getTasks 1 s))) = 0%nat.
Proof. split; vm_compute; reflexivity. Qed.

(** The task half of the invariant needs the task patches alone to leave
    the statuses derived. *)
Lemma step_taskStatusesKnown (tz : Z) (o : Trace.op) (s : MemStorage.t) :
  Trace.statusFollowsCompleted o →
  map_Forall (λ _ task, knownTaskStatus task) (MemStorage.tasks s) →
  map_Forall (λ _ task, knownTaskStatus task) (MemStorage.tasks (Trace.step tz o s).1).
Proof.
  intros Hguard Ht.
  destruct o; simpl in *; try exact Ht.
  - unfold MemStorage.updateUser. by destruct (MemStorage.getUser id s).
  - destruct (InsertTask.completed insertTask); simpl;
      (apply map_Forall_insert_2; [|exact Ht]); unfold knownTaskStatus; simpl;
      [apply list_elem_of_here | apply dateStatus_known].
  - unfold MemStorage.updateTask.
    destruct (MemStorage.getTask id s) as [task|] eqn:Hget; [|exact Ht].
    simpl. apply map_Forall_insert_2; [|exact Ht].
    unfold knownTaskStatus.
    destruct (TaskPatch.completed data) as [[|]|] eqn:E; simpl.
    + apply list_elem_of_here.
    + apply dateStatus_known.
    + destruct Hguard as [[c Hc]|Hnone]; [discriminate|].
      rewrite Hnone. exact (Ht id task Hget).
  - by apply map_Forall_delete.
  - unfold MemStorage.updateInventoryItem.
    by destruct (MemStorage.getInventoryItem id s).
  - unfold MemStorage.updateEquipmentItem.
    by destruct (MemStorage.getEquipmentItem id s).
  - unfold MemStorage.updateContact. by destruct (MemStorage.getContact id s).
Qed.

(** X18.  In the in-memory store reached from the constructor by any calls
    of the facade in which every task patch that names [status] also names
    [completed], every listed task that the tasks page shows under "All" is
    shown under exactly one of the four status buttons, whatever the search
    term; a task that "All" hides is shown under none.  What the calls do to
    the other entities does not matter. *)
Theorem each_task_under_one_status_filter (tz now u : Z) (ops : list Trace.op)
        (search : option (Task.t → bool)) (task : Task.t) :
  Forall Trace.statusFollowsCompleted ops →
  task ∈ MemStorage.getTasks u (Trace.run tz ops (MemStorage.constructor tz now)).1 →
  length (filter (λ f, TasksPage.shown f search task = true) TasksPage.statusFilters)
  = if TasksPage.shown "all" search task then 1%nat else 0%nat.
Proof.
  intros Hops Hin. apply listed_task_stored in Hin as [k Hk].
  assert (map_Forall (λ _ task, knownTaskStatus task)
            (MemStorage.tasks (Trace.run tz ops (MemStorage.constructor tz now)).1))
    as Ht.
  { apply (run_keeps tz
             (λ s, map_Forall (λ _ task, knownTaskStatus task) (MemStorage.tasks s))
             Trace.statusFollowsCompleted);
      [apply step_taskStatusesKnown | exact Hops|].
    apply constructor_statusesKnown. }
  assert (tasksAgree (Trace.run tz ops (MemStorage.constructor tz now)).1) as Hagree
    by (apply run_preserves_agreement; [exact Hops | apply constructor_agrees]).
  specialize (Ht k task Hk). specialize (Hagree k task Hk). simpl in Ht, Hagree.
  unfold knownTaskStatus in Ht. unfold completedIffFlag in Hagree.
  unfold TasksPage.statusFilters, TasksPage.shown.
  destruct search as [found|]; [destruct (found task)|];
    repeat (apply elem_of_cons in Ht as [Ht|Ht]); try (by apply elem_of_nil in Ht);
    rewrite Ht in *;
    destruct (Task.completed task);
    first [discriminate (proj1 Hagree eq_refl)
          |discriminate (proj2 Hagree eq_refl)
          |vm_compute; reflexivity].
Qed.

Lemma each_task_under_one_status_filter_witness :
  ∃ task,
    MemStorage.getTask 1
      (Trace.run 0 callsWithHandSetStock (MemStorage.constructor 0 noon)).1
    = Some task
    ∧ length (filter (λ f, TasksPage.shown f None task = true) TasksPage.statusFilters)
      = 1%nat.
Proof.
  assert (Forall Trace.statusFollowsCompleted callsWithHandSetStock) as Hops.
  { unfold callsWithHandSetStock, sampleCalls. simpl. constructor; [exact I|].
    constructor; [left; by eexists|]. constructor; [right; reflexivity|].
    constructor; [exact I|]. constructor. }
  eexists. split; [vm_compute; reflexivity|].
  rewrite (each_task_under_one_status_filter 0 noon 1 callsWithHandSetStock None _ Hops).
  - vm_compute. reflexivity.
  - apply elem_of_owned. split; [reflexivity|]. exists 1. vm_compute. reflexivity.
Defined.

(** A task whose status a patch has set by hand, without the flag, is shown
    under "All" and under none of the status buttons. *)
Example hand_set_status_is_shown_nowhere :
  let s :=
    (MemStorage.updateTask 0 noon 1 (statusPatch "completed") memWithOverdueTask).2 in
  (λ task, (TasksPage.shown "all" None task,
            filter (λ f, TasksPage.shown f None task = true) TasksPage.statusFilters))
    <$> MemStorage.getTasks 1 s
  = [(true, [])].
Proof. vm_compute. reflexivity. Qed.

(** ** Patching a weather preference *)

(** An [UPDATE] by user that leaves the user column alone: the first row of
    the user before it is, updated, the first row of the user after it. *)
Lemma db_weather_update_first (set : WeatherPreference.t → WeatherPreference.t)
      (u : Z) (s : DbWeather.t) (pref : WeatherPreference.t) :
  (∀ r, WeatherPreference.userId (set r) = WeatherPreference.userId r) →
  DbWeather.getWeatherPreference u s = Some pref →
  head (Db.update WeatherPreference.userId set u s).1 = Some (set pref)
  ∧ DbWeather.getWeatherPreference u (Db.update WeatherPreference.userId set u s).2
    = Some (set pref).
Proof.
  intros Hset. unfold DbWeather.getWeatherPreference, Db.update, Db.selectById. simpl.
  induction (Db.rows s) as [|y l IH]; [discriminate|].
  rewrite fmap_cons, !filter_cons.
  destruct (decide (WeatherPreference.userId y = u)) as [Hy|Hy].
  - intros [= ->]. simpl. rewrite decide_True by (by rewrite Hset). done.
  - rewrite decide_False by done. exact IH.
Qed.

(** X19.  [updateWeatherPreference] for a user who has no preference
    returns nothing and leaves the store as it was.  For a user who has
    one, and a patch that does not name [userId], it returns the stored
    preference with the patch's fields written over it, and that is what a
    get for the user then finds; in memory this holds in a store that is
    well keyed.  Both backends. *)
Theorem update_weather_contract (userId : Z) (data : WeatherPreferencePatch.t) :
  (∀ s, MemWeather.getWeatherPreference userId s = None →
     MemWeather.updateWeatherPreference userId data s = (None, s))
  ∧ (∀ s, DbWeather.getWeatherPreference userId s = None →
     DbWeather.updateWeatherPreference userId data s = (None, s))
  ∧ (∀ s pref,
      MemWeather.wellKeyed s →
      WeatherPreferencePatch.userId data = None →
      MemWeather.getWeatherPreference userId s = Some pref →
      (MemWeather.updateWeatherPreference userId data s).1
      = Some (spreadWeatherPreference pref data)
      ∧ MemWeather.getWeatherPreference userId
          (MemWeather.updateWeatherPreference userId data s).2
        = Some (spreadWeatherPreference pref data))
  ∧ (∀ s pref,
      WeatherPreferencePatch.userId data = None →
      DbWeather.getWeatherPreference userId s = Some pref →
      (DbWeather.updateWeatherPreference userId data s).1
      = Some (spreadWeatherPreference pref data)
      ∧ DbWeather.getWeatherPreference userId
          (DbWeather.updateWeatherPreference userId data s).2
        = Some (spreadWeatherPreference pref data)).
Proof.
  split; [|split; [|split]].
  - intros s Hnone. unfold MemWeather.updateWeatherPreference. by rewrite Hnone.
  - intros s Hnone. unfold DbWeather.updateWeatherPreference.
    unfold DbWeather.getWeatherPreference in Hnone.
    apply head_selectById_None in Hnone.
    by rewrite (update_absent WeatherPreference.userId _ userId s Hnone).
  - intros s pref [Hnodup Hkeyed] Hdata Hget.
    unfold MemWeather.updateWeatherPreference. rewrite Hget. simpl.
    split; [reflexivity|].
    unfold MemWeather.getWeatherPreference in *. simpl.
    destruct (first_match _ _ _ Hget) as (m1 & k & m2 & Hm & Hbefore & Hu).
    rewrite Hm in *.
    assert (WeatherPreference.id pref = k) as ->.
    { apply Forall_app in Hkeyed as [_ Hk]. by apply Forall_cons in Hk as [[Hk _] _]. }
    rewrite fmap_app, fmap_cons in Hnodup. simpl in Hnodup.
    apply NoDup_app in Hnodup as (_ & Hdisj & _).
    rewrite set_in_place.
    + apply head_filter_after; [exact Hbefore|]. simpl. by rewrite Hdata.
    + intros Hin. apply (Hdisj k Hin). apply list_elem_of_here.
  - intros s pref Hdata Hget. unfold DbWeather.updateWeatherPreference.
    destruct (db_weather_update_first (λ r, spreadWeatherPreference r data)
                userId s pref) as [Hfirst Hthen]; [|exact Hget|].
    { intros r. simpl. by rewrite Hdata. }
    destruct (Db.update _ _ userId s) as [returned tb]. by split.
Qed.

Lemma update_weather_contract_witness :
  MemWeather.updateWeatherPreference 2 WeatherPreferencePatch.empty MemWeather.constructor
  = (None, MemWeather.constructor)
  ∧ (WeatherPreference.units <$>
       MemWeather.getWeatherPreference 1 (MemWeather.run sampleWeatherCalls
                                            MemWeather.constructor))
    = Some "imperial".
Proof.
  destruct (update_weather_contract 2 WeatherPreferencePatch.empty) as (Hnone & _).
  split; [apply Hnone; vm_compute; reflexivity|].
  pose (s := MemWeather.step (MemWeather.SetWeatherPreference
                                {| InsertWeatherPreference.userId := 1;
                                   InsertWeatherPreference.location := Some "Bulawayo";
                                   InsertWeatherPreference.units := None |})
               MemWeather.constructor).
  pose (data := {| WeatherPreferencePatch.id := None;
                   WeatherPreferencePatch.userId := None;
                   WeatherPreferencePatch.location := None;
                   WeatherPreferencePatch.units := Some "imperial" |}).
  destruct (update_weather_contract 1 data) as (_ & _ & Hsome & _).
  destruct (Hsome s (WeatherPreference.mk 1 1 "Bulawayo" "metric")) as [_ Hget].
  - split; [by apply (bool_decide_unpack _)|].
    repeat constructor.
  - reflexivity.
  - vm_compute. reflexivity.
  - change (MemWeather.run sampleWeatherCalls MemWeather.constructor)
      with (MemWeather.updateWeatherPreference 1 data s).2.
    rewrite Hget. reflexivity.
Defined.

(** A patch that names [userId] may hand the preference to a user who has
    one already: a get for that user still finds the older one. *)
Example weather_patch_to_a_user_with_a_preference :
  let s :=
    (MemWeather.setWeatherPreference
       {| InsertWeatherPreference.userId := 2;
          InsertWeatherPreference.location := Some "Mutare";
          InsertWeatherPreference.units := None |} MemWeather.constructor).2 in
  let out :=
    MemWeather.updateWeatherPreference 2
      {| WeatherPreferencePatch.id := None;
         WeatherPreferencePatch.userId := Some 1;
         WeatherPreferencePatch.location := None;
         WeatherPreferencePatch.units := None |} s in
  (WeatherPreference.location <$> out.1) = Some "Mutare"
  ∧ (WeatherPreference.location <$> MemWeather.getWeatherPreference 1 out.2)
    = Some "Harare"
  ∧ ¬ MemWeather.onePerUser out.2.
Proof.
  split; [vm_compute; reflexivity|]. split; [vm_compute; reflexivity|].
  unfold MemWeather.onePerUser. vm_compute. intros Hdup.
  apply NoDup_cons in Hdup as [Hnot _]. apply Hnot, list_elem_of_here.
Qed.
